(** * aws-data-api: the storage and consistency layer

    A shallow embedding of [chalicelib/dynamo_expression_handler.py], of
    [decorate_update_request] and [make_ddb_expressionval] of
    [chalicelib/dynamo_table_utils.py], of the item operations of
    [DataAPIStorageHandler] in [chalicelib/dynamo_data_api.py] ([get],
    [check], [restore], [delete], [update_item], [list_items], [find] and
    what they call), of the helpers of [chalicelib/utils.py] they use, and
    of the facade methods [AwsDataAPI.get] and [AwsDataAPI.item_master_delete]
    of [chalicelib/aws_data_api.py]. Table provisioning, export, search and
    lineage are left out.

    Python dictionaries are finite maps ([gmap]); Python strings are
    [string]; an operation that talks to the backing store is a function
    from the store to an outcome and a new store, and a Python exception
    is the [Raise] outcome. A loop over a dictionary visits the entries in
    the order of [map_to_list]; where the order of the request matters (the
    search document of [find]) the document is a list. The backing store
    itself (DynamoDB behind boto3) is not part of the repository: the
    DynamoDB section below gives the model of its item operations that the
    handlers are run against. *)

From Stdlib Require Import ZArith Ascii String Bool DecimalString.
From stdpp Require Import base option list strings gmap fin_maps.

Local Open Scope Z_scope.

(** ** Python values and exceptions *)

(** The JSON / DynamoDB scalars that the code handles. *)
Inductive pyval : Type :=
| PNone
| PBool (b : bool)
| PInt (z : Z)
| PStr (s : string).

#[global] Instance pyval_eq_dec : EqDecision pyval.
Proof. solve_decision. Defined.

(** Python's [==] on scalars: a [bool] is an [int] ([True == 1]). *)
Definition py_eq (a b : pyval) : bool :=
  match a, b with
  | PNone, PNone => true
  | PStr s, PStr t => String.eqb s t
  | PInt x, PInt y => Z.eqb x y
  | PBool x, PBool y => Bool.eqb x y
  | PBool x, PInt y | PInt y, PBool x => Z.eqb (if x then 1 else 0) y
  | _, _ => false
  end.

(** An item of a table, a request document: attribute name to value. *)
Abbreviation item := (gmap string pyval).

(** [chalicelib/exceptions.py], the builtin exceptions that the handlers can
    run into, the two botocore [ClientError]s of the store, and the error
    with which botocore refuses a request before it is sent. *)
Inductive exn : Type :=
| ConstraintViolationException
| UnimplementedFeatureException
| ResourceNotFoundException
| InvalidArgumentsException
| DetailedException (cause : exn)
| KeyError (key : string)
| TypeError
| ZeroDivisionError
| ConditionalCheckFailedException
| ValidationException
| ValueError
| ParamValidationError.

(** [isinstance(e, botocore.exceptions.ClientError)] *)
Definition is_ClientError (e : exn) : bool :=
  match e with
  | ConditionalCheckFailedException | ValidationException => true
  | _ => false
  end.

Inductive result (A : Type) : Type :=
| Ok (a : A)
| Raise (e : exn).
Arguments Ok {A} a.
Arguments Raise {A} e.

(** ** [chalicelib/parameters.py]

    The module of constants is not among the sources. The names that the
    statements below depend on are given the values the spec shows. *)
Module params.
(** Modelled from the spec: [parameters.DELETED], the name of the delete
    marker among the reserved fields of an item (spec 3, and the stored
    record of the example in spec 8). *)
Definition DELETED : string := "Deleted".
(** Modelled from the spec: [parameters.TOMBSTONED], the reserved field a
    tombstone sets (spec 3 and 8). *)
Definition TOMBSTONED : string := "Tombstoned".
(** Modelled from the spec: [parameters.ITEM_MASTER_ID], the master-link
    field (spec 3). *)
Definition ITEM_MASTER_ID : string := "ItemMasterID".
(** Modelled from the spec: [parameters.ITEM_VERSION], the version counter
    (spec 3). *)
Definition ITEM_VERSION : string := "ItemVersion".
(** Modelled from the spec: [parameters.LAST_UPDATE_DATE] (spec 3). *)
Definition LAST_UPDATE_DATE : string := "LastUpdateDate".
(** Modelled from the spec: [parameters.LAST_UPDATED_BY] (spec 3). *)
Definition LAST_UPDATED_BY : string := "LastUpdatedBy".
(** Modelled from the spec: [parameters.LAST_UPDATE_ACTION] (spec 3). *)
Definition LAST_UPDATE_ACTION : string := "LastUpdateAction".
(** Modelled from the spec: [parameters.SET], the assignment kind of an
    update statement (spec 4.2); [get_expression] writes it as the keyword
    of the clause. *)
Definition SET : string := "SET".
(** Modelled from the spec: [parameters.REMOVE], the removal kind (spec 4.2). *)
Definition REMOVE : string := "REMOVE".
(** Modelled from the spec: [parameters.ADD], the numeric increment kind
    (spec 4.2). *)
Definition ADD : string := "ADD".
(** Modelled from the spec: [parameters.DELETE_MODE_SOFT], the soft delete
    policy (spec 4.1). *)
Definition DELETE_MODE_SOFT : string := "soft".
(** Modelled from the spec: [parameters.DELETE_MODE_TOMBSTONE], the tombstone
    delete policy (spec 4.1). *)
Definition DELETE_MODE_TOMBSTONE : string := "tombstone".
(** Modelled from the spec: [parameters.ITEM_MASTER_INCLUDE], a master
    option of [Get] (spec 6). *)
Definition ITEM_MASTER_INCLUDE : string := "include".
(** Modelled from the spec: [parameters.ITEM_MASTER_PREFER], a master option
    of [Get] (spec 6). *)
Definition ITEM_MASTER_PREFER : string := "prefer".
End params.

(** The constants of [parameters.py] on which the spec is silent are
    parameters of the handlers. [APP] is a name [utils.remove_internal_attrs]
    drops; the [ACTION_*] labels are written to [LastUpdateAction]. *)
Record labels : Type := {
  APP : string;
  ACTION_UPDATE : string;
  ACTION_DELETE : string;
  ACTION_RESTORE : string;
  ACTION_REMOVE_ATTRIBUTE : string;
}.

(** ** Python string operations used by the handlers *)

(** [needle in hay] *)
Fixpoint str_in (needle hay : string) : bool :=
  String.prefix needle hay ||
  match hay with
  | EmptyString => false
  | String _ hay' => str_in needle hay'
  end.

Definition ascii_upper (c : ascii) : ascii :=
  let n := nat_of_ascii c in
  if (97 <=? n)%nat && (n <=? 122)%nat then ascii_of_nat (n - 32) else c.

Definition ascii_lower (c : ascii) : ascii :=
  let n := nat_of_ascii c in
  if (65 <=? n)%nat && (n <=? 90)%nat then ascii_of_nat (n + 32) else c.

Fixpoint str_map (f : ascii -> ascii) (s : string) : string :=
  match s with
  | EmptyString => EmptyString
  | String c s' => String (f c) (str_map f s')
  end.

(** [s.upper()], [s.lower()] *)
Definition upper (s : string) : string := str_map ascii_upper s.
Definition lower (s : string) : string := str_map ascii_lower s.

Definition is_space (c : ascii) : bool :=
  let n := nat_of_ascii c in
  (n =? 32)%nat || ((9 <=? n)%nat && (n <=? 13)%nat).

Fixpoint lstrip (s : string) : string :=
  match s with
  | EmptyString => EmptyString
  | String c s' => if is_space c then lstrip s' else s
  end.

Fixpoint rstrip (s : string) : string :=
  match s with
  | EmptyString => EmptyString
  | String c s' =>
      match rstrip s' with
      | EmptyString => if is_space c then EmptyString else String c EmptyString
      | r => String c r
      end
  end.

(** [s.strip()] *)
Definition strip (s : string) : string := rstrip (lstrip s).

(** [sep.join(l)] *)
Definition join (sep : string) (l : list string) : string := String.concat sep l.

(** The alternation [SET|REMOVE|ADD] tried at the head of [s]: the keyword
    matched, if any. *)
Definition match_keyword (s : string) : option string :=
  if String.prefix params.SET s then Some params.SET
  else if String.prefix params.REMOVE s then Some params.REMOVE
  else if String.prefix params.ADD s then Some params.ADD
  else None.

(** [re.split('(SET|REMOVE|ADD)', s)]: the text between the matches and,
    because of the group, the matches themselves. [skip] counts the characters
    of a match that are still to be consumed, [cur] is the text read since the
    last match. *)
Fixpoint re_split_go (skip : nat) (cur : string) (s : string) : list string :=
  match s with
  | EmptyString => [cur]
  | String c s' =>
      match skip with
      | S n => re_split_go n cur s'
      | O =>
          match match_keyword s with
          | Some k => cur :: k :: re_split_go (String.length k - 1) EmptyString s'
          | None => re_split_go 0 (cur +:+ String c EmptyString) s'
          end
      end
  end.

Definition re_split (s : string) : list string := re_split_go 0 EmptyString s.

(** ** [DynamoUpdateExpressionHandler] *)

(** The object is its [_tokens] dictionary: clause kind to clause text. The
    key is [None] for text that [__init__] meets before any keyword. *)
Abbreviation tokens := (gmap (option string) string).

(** The loop of [__init__], one token of the split at a time. *)
Definition init_step (st : option string * tokens) (t : string)
  : option string * tokens :=
  let '(next_token_name, toks) := st in
  if String.eqb (upper t) params.SET then (Some params.SET, toks)
  else if String.eqb (upper t) params.REMOVE then (Some params.REMOVE, toks)
  else if String.eqb (upper t) params.ADD then (Some params.ADD, toks)
  else if negb (String.eqb t EmptyString)
       then (next_token_name, <[next_token_name := strip t]> toks)
       else (next_token_name, toks).

(** [DynamoUpdateExpressionHandler(expression)] *)
Definition handler_init (expression : option string) : tokens :=
  match expression with
  | None => ∅
  | Some e => snd (fold_left init_step (re_split e) (None, ∅))
  end.

(** [add_expression_item(type, expression)] *)
Definition add_expression_item (type : string) (expression : string)
    (toks : tokens) : tokens :=
  match toks !! Some type with
  | None => <[Some type := expression]> toks
  | Some old => <[Some type := old +:+ ", " +:+ expression]> toks
  end.

(** [get_expression()] *)
Definition get_expression (toks : tokens) : string :=
  join " "
    (omap (fun x =>
             match toks !! Some x with
             | Some t => if String.eqb t EmptyString then None
                         else Some (x +:+ " " +:+ t)
             | None => None
             end)
          [params.SET; params.REMOVE; params.ADD]).

(** ** DynamoDB

    The store behind [boto3]'s [Table] resource, as far as the handlers use
    it: [get_item], [delete_item], [update_item], [scan] and [query] on a
    table with a string hash key.  Expressions arrive as text and are read
    the way the service reads them: split into tokens, parsed, checked
    (syntax, placeholders that are not defined, two paths of one update that
    name the same attribute, an update of the key attribute) and only then
    evaluated against the stored item. *)

Inductive tok : Type :=
| TWord (w : string)          (* an attribute name, a keyword, a function *)
| TName (n : string)          (* #name *)
| TValue (v : string)         (* :value *)
| TEq | TNe | TComma | TLPar | TRPar.

#[global] Instance tok_eq_dec : EqDecision tok.
Proof. solve_decision. Defined.

Definition is_word_char (c : ascii) : bool :=
  let n := nat_of_ascii c in
  ((48 <=? n)%nat && (n <=? 57)%nat) || ((65 <=? n)%nat && (n <=? 90)%nat)
  || ((97 <=? n)%nat && (n <=? 122)%nat) || (n =? 95)%nat.

Inductive word_kind : Type := KWord | KName | KValue.

(** The token a pending word becomes when a delimiter ends it. *)
Definition close_word (p : option (word_kind * string)) : option (list tok) :=
  match p with
  | None => Some []
  | Some (KWord, w) => Some [TWord w]
  | Some (KName, w) => if (String.length w <=? 1)%nat then None else Some [TName w]
  | Some (KValue, w) => if (String.length w <=? 1)%nat then None else Some [TValue w]
  end.

Definition extend_word (p : option (word_kind * string)) (c : ascii)
  : option (word_kind * string) :=
  match p with
  | Some (k, w) => Some (k, w +:+ String c EmptyString)
  | None => Some (KWord, String c EmptyString)
  end.

Fixpoint lex (p : option (word_kind * string)) (s : string) : option (list tok) :=
  match s with
  | EmptyString => close_word p
  | String c s' =>
      if is_word_char c then lex (extend_word p c) s'
      else
        h ← close_word p;
        t ← (if Ascii.eqb c "#" then lex (Some (KName, "#")) s'
             else if Ascii.eqb c ":" then lex (Some (KValue, ":")) s'
             else if is_space c then lex None s'
             else if Ascii.eqb c "=" then (TEq ::.) <$> lex None s'
             else if Ascii.eqb c "," then (TComma ::.) <$> lex None s'
             else if Ascii.eqb c "(" then (TLPar ::.) <$> lex None s'
             else if Ascii.eqb c ")" then (TRPar ::.) <$> lex None s'
             else if Ascii.eqb c "<" then
               match s' with
               | String c' s'' =>
                   if Ascii.eqb c' ">" then (TNe ::.) <$> lex None s'' else None
               | EmptyString => None
               end
             else None);
        Some (h ++ t)
  end.

(** A document path: an attribute named directly or through a placeholder. *)
Inductive path : Type :=
| Raw (a : string)
| Placeholder (n : string).

Inductive action : Type :=
| ASet (p : path) (v : string)
| ARemove (p : path)
| AAdd (p : path) (v : string).

Inductive clause : Type := CSet | CRemove | CAdd | CDelete.

(** Clause keywords are not case sensitive. *)
Definition clause_of (w : string) : option clause :=
  let u := upper w in
  if String.eqb u "SET" then Some CSet
  else if String.eqb u "REMOVE" then Some CRemove
  else if String.eqb u "ADD" then Some CAdd
  else if String.eqb u "DELETE" then Some CDelete
  else None.

Definition tok_path (t : tok) : option path :=
  match t with
  | TWord w => match clause_of w with None => Some (Raw w) | Some _ => None end
  | TName n => Some (Placeholder n)
  | _ => None
  end.

(** The reader of an update expression, one token at a time. Of the forms
    the service accepts it knows [SET path = :value], [REMOVE path] and
    [ADD path :value], which are the ones the handlers write; any other text
    is refused. *)
Inductive pstate : Type :=
| PStart                       (* a clause keyword is due *)
| PExpect (c : clause)         (* an action of the clause is due *)
| PSetEq (p : path)            (* SET path . = *)
| PSetVal (p : path)           (* SET path = . :value *)
| PAddVal (p : path)           (* ADD path . :value *)
| PAfter (c : clause).         (* after an action: a comma, a keyword, the end *)

Definition parse_step (st : pstate) (t : tok) : option (pstate * list action) :=
  match st with
  | PStart =>
      match t with
      | TWord w => c ← clause_of w; Some (PExpect c, [])
      | _ => None
      end
  | PExpect CSet => p ← tok_path t; Some (PSetEq p, [])
  | PExpect CRemove => p ← tok_path t; Some (PAfter CRemove, [ARemove p])
  | PExpect CAdd => p ← tok_path t; Some (PAddVal p, [])
  | PExpect CDelete => None
  | PSetEq p => match t with TEq => Some (PSetVal p, []) | _ => None end
  | PSetVal p => match t with TValue v => Some (PAfter CSet, [ASet p v]) | _ => None end
  | PAddVal p => match t with TValue v => Some (PAfter CAdd, [AAdd p v]) | _ => None end
  | PAfter c =>
      match t with
      | TComma => Some (PExpect c, [])
      | TWord w => c' ← clause_of w; Some (PExpect c', [])
      | _ => None
      end
  end.

Fixpoint parse_run (st : pstate) (ts : list tok) : option (list action) :=
  match ts with
  | [] => match st with PAfter _ => Some [] | _ => None end
  | t :: ts' =>
      '(st', out) ← parse_step st t;
      r ← parse_run st' ts';
      Some (out ++ r)
  end.

Definition parse_update (s : string) : option (list action) :=
  ts ← lex None s; parse_run PStart ts.

(** Conditions and filters. *)
Inductive operand : Type :=
| OPath (p : path)
| OValue (v : string).

Inductive cond : Type :=
| CNotExists (p : path)
| CExists (p : path)
| CCompare (ne : bool) (a b : operand)     (* a = b, a <> b *)
| CAnd (a b : cond)
| COr (a b : cond)
| CNot (a : cond).

Definition is_kw (k w : string) : bool := String.eqb (upper w) k.

Definition tok_operand (t : tok) : option operand :=
  match t with
  | TWord w =>
      if is_kw "AND" w || is_kw "OR" w || is_kw "NOT" w then None
      else Some (OPath (Raw w))
  | TName n => Some (OPath (Placeholder n))
  | TValue v => Some (OValue v)
  | _ => None
  end.

Definition tok_cond_path (t : tok) : option path :=
  match tok_operand t with
  | Some (OPath p) => Some p
  | _ => None
  end.

(** Recursive descent with the service's precedence: a comparison binds
    tighter than [NOT], [NOT] tighter than [AND], [AND] tighter than [OR].
    [fuel] bounds the nesting; the length of the token list is enough. *)
Fixpoint parse_or (fuel : nat) (ts : list tok) : option (cond * list tok) :=
  match fuel with
  | O => None
  | S f =>
      '(a, rest) ← parse_and f ts;
      match rest with
      | TWord w :: rest' =>
          if is_kw "OR" w
          then '(b, rest'') ← parse_or f rest'; Some (COr a b, rest'')
          else Some (a, rest)
      | _ => Some (a, rest)
      end
  end
with parse_and (fuel : nat) (ts : list tok) : option (cond * list tok) :=
  match fuel with
  | O => None
  | S f =>
      '(a, rest) ← parse_not f ts;
      match rest with
      | TWord w :: rest' =>
          if is_kw "AND" w
          then '(b, rest'') ← parse_and f rest'; Some (CAnd a b, rest'')
          else Some (a, rest)
      | _ => Some (a, rest)
      end
  end
with parse_not (fuel : nat) (ts : list tok) : option (cond * list tok) :=
  match fuel with
  | O => None
  | S f =>
      match ts with
      | TWord w :: rest =>
          if is_kw "NOT" w
          then '(a, rest') ← parse_not f rest; Some (CNot a, rest')
          else parse_atom f ts
      | _ => parse_atom f ts
      end
  end
with parse_atom (fuel : nat) (ts : list tok) : option (cond * list tok) :=
  match fuel with
  | O => None
  | S f =>
      match ts with
      | TLPar :: rest =>
          '(a, rest') ← parse_or f rest;
          match rest' with
          | TRPar :: rest'' => Some (a, rest'')
          | _ => None
          end
      | TWord "attribute_not_exists" :: TLPar :: p :: TRPar :: rest =>
          q ← tok_cond_path p; Some (CNotExists q, rest)
      | TWord "attribute_exists" :: TLPar :: p :: TRPar :: rest =>
          q ← tok_cond_path p; Some (CExists q, rest)
      | a :: TEq :: b :: rest =>
          x ← tok_operand a; y ← tok_operand b; Some (CCompare false x y, rest)
      | a :: TNe :: b :: rest =>
          x ← tok_operand a; y ← tok_operand b; Some (CCompare true x y, rest)
      | _ => None
      end
  end.

Definition parse_condition (s : string) : option cond :=
  ts ← lex None s;
  '(c, rest) ← parse_or (S (length ts)) ts;
  match rest with [] => Some c | _ => None end.

(** What a boto3 condition object built from [Attr] stands for. *)
Inductive attr_cond : Type :=
| AttrNotExists (a : string)
| AttrEq (a : string) (v : pyval)
| AttrOr (c1 c2 : attr_cond).

(** The value under [ConditionExpression]: expression text, or a boto3
    condition object. *)
Inductive condition_arg : Type :=
| CondText (s : string)
| CondAttr (c : attr_cond).

Section Expressions.
Variable ean : gmap string string.   (* ExpressionAttributeNames *)
Variable eav : gmap string pyval.    (* ExpressionAttributeValues *)

Definition resolve (p : path) : option string :=
  match p with
  | Raw a => Some a
  | Placeholder n => ean !! n
  end.

Definition action_path (a : action) : path :=
  match a with ASet p _ | ARemove p | AAdd p _ => p end.

Definition action_value_defined (a : action) : bool :=
  match a with
  | ASet _ v | AAdd _ v => bool_decide (is_Some (eav !! v))
  | ARemove _ => true
  end.

(** The attributes an update writes, [None] when a name placeholder is
    not defined. *)
Definition update_targets (acts : list action) : option (list string) :=
  mapM (fun a => resolve (action_path a)) acts.

Definition apply_action (it : item) (a : action) : option item :=
  match a with
  | ASet p v => n ← resolve p; x ← eav !! v; Some (<[n := x]> it)
  | ARemove p => n ← resolve p; Some (delete n it)
  | AAdd p v =>
      n ← resolve p;
      x ← eav !! v;
      match x, it !! n with
      | PInt d, None => Some (<[n := PInt d]> it)
      | PInt d, Some (PInt m) => Some (<[n := PInt (m + d)]> it)
      | _, _ => None
      end
  end.

Fixpoint apply_actions (it : item) (acts : list action) : option item :=
  match acts with
  | [] => Some it
  | a :: acts' => it' ← apply_action it a; apply_actions it' acts'
  end.

Definition operand_defined (o : operand) : bool :=
  match o with
  | OPath p => bool_decide (is_Some (resolve p))
  | OValue v => bool_decide (is_Some (eav !! v))
  end.

Fixpoint cond_defined (c : cond) : bool :=
  match c with
  | CNotExists p | CExists p => bool_decide (is_Some (resolve p))
  | CCompare _ a b => operand_defined a && operand_defined b
  | CAnd a b | COr a b => cond_defined a && cond_defined b
  | CNot a => cond_defined a
  end.

Definition operand_value (it : item) (o : operand) : option pyval :=
  match o with
  | OPath p => n ← resolve p; it !! n
  | OValue v => eav !! v
  end.

Definition has_attr (it : item) (p : path) : bool :=
  match resolve p with
  | Some n => bool_decide (is_Some (it !! n))
  | None => false
  end.

(** Values are compared with their types: the number 1 is not [true]. An
    attribute that is absent equals nothing. *)
Definition operands_equal (it : item) (a b : operand) : bool :=
  match operand_value it a, operand_value it b with
  | Some x, Some y => bool_decide (x = y)
  | _, _ => false
  end.

Fixpoint cond_holds (it : item) (c : cond) : bool :=
  match c with
  | CNotExists p => negb (has_attr it p)
  | CExists p => has_attr it p
  | CCompare ne a b => xorb ne (operands_equal it a b)
  | CAnd a b => cond_holds it a && cond_holds it b
  | COr a b => cond_holds it a || cond_holds it b
  | CNot a => negb (cond_holds it a)
  end.

(** A text condition or filter, read and checked: [None] is the service's
    [ValidationException]. *)
Definition checked_condition (s : string) : option cond :=
  c ← parse_condition s;
  if cond_defined c then Some c else None.
End Expressions.

Fixpoint attr_holds (it : item) (c : attr_cond) : bool :=
  match c with
  | AttrNotExists a => negb (bool_decide (is_Some (it !! a)))
  | AttrEq a v => bool_decide (it !! a = Some v)
  | AttrOr c1 c2 => attr_holds it c1 || attr_holds it c2
  end.

(** The rows of a table, by the (string) value of the hash key. *)
Abbreviation rows := (gmap string item).

(** The keyword arguments of [Table.update_item] that the handlers set. *)
Record update_args : Type := {
  Key : string * pyval;
  UpdateExpression : string;
  ConditionExpression : option condition_arg;
  ExpressionAttributeNames : option (gmap string string);
  ExpressionAttributeValues : option (gmap string pyval);
}.

Definition names_of (o : option (gmap string string)) : gmap string string :=
  default ∅ o.
Definition values_of (o : option (gmap string pyval)) : gmap string pyval :=
  default ∅ o.

(** The condition of a write, checked: [None] is a [ValidationException]. *)
Definition write_condition (args : update_args) : option (item -> bool) :=
  match ConditionExpression args with
  | None => Some (fun _ => true)
  | Some (CondAttr c) => Some (fun it => attr_holds it c)
  | Some (CondText s) =>
      c ← checked_condition (names_of (ExpressionAttributeNames args))
                            (values_of (ExpressionAttributeValues args)) s;
      Some (fun it =>
              cond_holds (names_of (ExpressionAttributeNames args))
                         (values_of (ExpressionAttributeValues args)) it c)
  end.

(** [Table.update_item] with the arguments [args], on a table whose hash key is [pk]. The request
    is validated first; then the condition is evaluated against the stored
    item (an item that does not exist has no attributes); then the actions
    are applied, creating the item when it did not exist. The response
    carries the item as written (as [ReturnValues=ALL_NEW] does). (The
    validation covers the syntax of the expressions, the placeholders they
    use, the targets of the actions and the name of the key. The service
    checks more than that: it refuses a placeholder that no expression uses,
    a name that is a reserved word, and the empty text as a key value. The
    statements that a write succeeds are made for requests that pass these
    checks too.) *)
Definition ddb_update_item (pk : string) (t : rows) (args : update_args)
  : result item * rows :=
  let ean := names_of (ExpressionAttributeNames args) in
  let eav := values_of (ExpressionAttributeValues args) in
  match Key args with
  | (k, PStr id) =>
      match parse_update (UpdateExpression args), write_condition args with
      | Some acts, Some holds =>
          match update_targets ean acts with
          | Some targets =>
              if bool_decide (k = pk)
                 && forallb (action_value_defined eav) acts
                 && bool_decide (NoDup targets)
                 && bool_decide (pk ∉ targets)
              then
                if holds (default ∅ (t !! id)) then
                  match apply_actions ean eav
                          (default {[pk := PStr id]} (t !! id)) acts with
                  | Some new => (Ok new, <[id := new]> t)
                  | None => (Raise ValidationException, t)
                  end
                else (Raise ConditionalCheckFailedException, t)
              else (Raise ValidationException, t)
          | None => (Raise ValidationException, t)
          end
      | _, _ => (Raise ValidationException, t)
      end
  | _ => (Raise ValidationException, t)
  end.

(** [Table.get_item(Key={pk: id})]: the response holds ["Item"] only when the
    row exists; a key that is not a string is refused. (The service also
    refuses the empty text as a key value, and no row has it; the statements
    about keys that need not be stored are made for keys that are not
    empty.) *)
Definition ddb_get_item (t : rows) (id : pyval) : result (option item) :=
  match id with
  | PStr s => Ok (t !! s)
  | _ => Raise ValidationException
  end.

(** [Table.delete_item(Key={pk: id})] *)
Definition ddb_delete_item (t : rows) (id : string) : rows := delete id t.

(** The keyword arguments of [Table.scan] and [Table.query]. *)
Record read_args : Type := {
  IndexName : option string;
  KeyConditionExpression : option (string * pyval);   (* Key(a).eq(v) *)
  FilterExpression : option string;
  ReadNames : option (gmap string string);
  ReadValues : option (gmap string pyval);
  Limit : option Z;
  ExclusiveStartKey : option (string * pyval);
  Segment : option Z;
  TotalSegments : option Z;
}.

(** A page of a read. The key to resume from maps the key attributes to
    their values. *)
Record page : Type := {
  Items : list item;
  LastEvaluatedKey : option item;
}.

(** What botocore checks before it sends a read: no number of the request
    is below the minimum of its shape, which is 1 for [Limit] and
    [TotalSegments] and 0 for [Segment]. *)
Definition params_in_range (args : read_args) : bool :=
  match Limit args with Some n => (1 <=? n)%Z | None => true end
  && match Segment args with Some s => (0 <=? s)%Z | None => true end
  && match TotalSegments args with Some n => (1 <=? n)%Z | None => true end.

(** The rows that follow the row with key [k] in the order of the scan. *)
Fixpoint rows_after (k : string) (l : list (string * item)) : list (string * item) :=
  match l with
  | [] => []
  | (k', _) :: l' => if String.eqb k k' then l' else rows_after k l'
  end.

(** One page of a read. The store evaluates the rows in order and stops at
    the [Limit] of the request or when it has evaluated the rows that make up
    1 MB of data, whichever comes first; [page_rows] tells how many of the
    rows ahead that is. The filter is applied to the rows evaluated. When the
    read stopped there, and not because the rows ran out, the key of the last
    row evaluated is returned to resume from; [key_of] gives the key of a
    row. *)
Definition read_page (page_rows : list (string * item) -> nat)
    (key_of : string * item -> item) (args : read_args)
    (candidates : list (string * item)) : result page :=
  let ean := names_of (ReadNames args) in
  let eav := values_of (ReadValues args) in
  match match FilterExpression args with
        | None => Some (fun _ : item => true)
        | Some s => c ← checked_condition ean eav s;
                    Some (fun it => cond_holds ean eav it c)
        end with
  | None => Raise ValidationException
  | Some keep =>
      let stop := match Limit args with
                  | Some n => Nat.min (Z.to_nat n) (page_rows candidates)
                  | None => page_rows candidates
                  end in
      let read := take stop candidates in
      Ok {| Items := filter (fun it => keep it = true) (snd <$> read);
            LastEvaluatedKey :=
              if (stop <=? length candidates)%nat
              then key_of <$> last read else None |}
  end.

(** The rows of a segment of a parallel scan: [scan_segment n k] is the
    segment, of [n], that the store puts the key [k] in. *)
Definition segment_rows (scan_segment : Z -> string -> Z) (segment : option (Z * Z))
    (l : list (string * item)) : list (string * item) :=
  match segment with
  | None => l
  | Some (s, n) => filter (fun r => (scan_segment n (fst r) =? s)%Z = true) l
  end.

(** [Table.scan]. A segment goes with a number of segments that is above
    it and at most 1000000; the key to start from is a text that is not
    empty. *)
Definition ddb_scan (page_rows : list (string * item) -> nat)
    (scan_segment : Z -> string -> Z) (pk : string) (t : rows) (args : read_args)
  : result page :=
  if negb (params_in_range args) then Raise ParamValidationError
  else
    match match Segment args, TotalSegments args with
          | None, None => Some None
          | Some s, Some n =>
              if (s <? n)%Z && (n <=? 1000000)%Z then Some (Some (s, n)) else None
          | _, _ => None
          end with
    | None => Raise ValidationException
    | Some segment =>
        match ExclusiveStartKey args with
        | None =>
            read_page page_rows (fun r => {[ pk := PStr (fst r) ]}) args
              (segment_rows scan_segment segment (map_to_list t))
        | Some (k, PStr id) =>
            if bool_decide (k = pk) && negb (String.eqb id EmptyString)
            then read_page page_rows (fun r => {[ pk := PStr (fst r) ]}) args
                   (segment_rows scan_segment segment (rows_after id (map_to_list t)))
            else Raise ValidationException
        | Some _ => Raise ValidationException
        end
    end.

(** [Table.query] on a global secondary index; [gsi] lists the
    indexes of the table, each with its hash attribute. The index holds the
    rows that have the attribute. A start key made of the index attribute
    alone is not one the service accepts; the key to resume from has the key
    of the index and the key of the table. *)
Definition ddb_query (page_rows : list (string * item) -> nat) (pk : string)
    (gsi : list (string * string)) (t : rows) (args : read_args) : result page :=
  if negb (params_in_range args) then Raise ParamValidationError
  else
    match IndexName args, KeyConditionExpression args, ExclusiveStartKey args with
    | Some ix, Some (a, v), None =>
        if bool_decide ((ix, a) ∈ gsi) then
          read_page page_rows (fun r => <[a := v]> {[ pk := PStr (fst r) ]}) args
            (filter (fun r => snd r !! a = Some v) (map_to_list t))
        else Raise ValidationException
    | _, _, _ => Raise ValidationException
    end.

(** ** The storage handler: [DataAPIStorageHandler] *)

(** The fields of the handler that are set by [__init__] and never change.
    [_allow_non_itemmaster_writes] is the truth value Python gives the
    configured setting. *)
Record DataAPIStorageHandler : Type := {
  _region : string;
  _table_name : string;
  _pk_name : string;
  _delete_mode : string;
  _allow_runtime_delete_mode_change : bool;
  _table_indexes : list string;
  _meta_indexes : list string;
  _schema_validation_refresh_hitcount : option nat;
  _allow_non_itemmaster_writes : bool;
  _strict_occv : bool;
  _deployed_account : string;
}.

(** What the process reads from outside: the region of the environment,
    the account of the caller (STS), and [urllib.parse.unquote]; two more
    constants of [parameters.py] on which the spec is silent; Python's [int]
    on a text, which is [None] where it raises [ValueError]; and what the
    store decides by itself about a read: how many of the rows ahead make up
    one page, and which segment of a parallel scan a key falls in. *)
Record environment : Type := {
  AWS_REGION : string;
  caller_account : string;
  unquote : string -> string;
  AWS_DATA_API_SHORTNAME : string;
  DEFAULT_MAX_RESPONSE_SIZE : nat;
  int_of_text : string -> option Z;
  page_rows : list (string * item) -> nat;
  scan_segment : Z -> string -> Z;
}.

(** [int(v)]: a number is itself, a truth value is 0 or 1, a text is read
    by [int_of_text], and [int(None)] raises [TypeError]. *)
Definition py_int (E : environment) (v : pyval) : result Z :=
  match v with
  | PNone => Raise TypeError
  | PBool b => Ok (if b then 1 else 0)%Z
  | PInt z => Ok z
  | PStr s => match int_of_text E s with
              | Some z => Ok z
              | None => Raise ValueError
              end
  end.

(** [v is None] *)
Definition is_None (v : pyval) : bool :=
  match v with PNone => true | _ => false end.

(** What [kwargs.get(key)] gives when it is not [None]. *)
Definition not_None (o : option pyval) : option pyval :=
  match o with Some PNone => None | _ => o end.

(** A JSON schema as the control table holds it: what [fastjsonschema]
    compiles it to, or [None] when the compilation raises. *)
Inductive schema_doc : Type :=
| Schema (validator : option (item -> bool)).

(** The two data tables, the schema row of the control table, and the
    fields of the handler that [update_item] changes. *)
Record world : Type := mkWorld {
  resource_table : rows;
  metadata_table : rows;
  control_resource_schema : option schema_doc;
  _schema_loaded : bool;
  _schema : option schema_doc;
  _schema_validator : option (item -> bool);
  _schema_dependent_hit_count : nat;
}.

Inductive table_ref : Type := ResourceTable | MetadataTable.

Definition table_rows (tbl : table_ref) (w : world) : rows :=
  match tbl with
  | ResourceTable => resource_table w
  | MetadataTable => metadata_table w
  end.

Definition set_table_rows (tbl : table_ref) (t : rows) (w : world) : world :=
  match tbl with
  | ResourceTable =>
      mkWorld t (metadata_table w) (control_resource_schema w) (_schema_loaded w)
              (_schema w) (_schema_validator w) (_schema_dependent_hit_count w)
  | MetadataTable =>
      mkWorld (resource_table w) t (control_resource_schema w) (_schema_loaded w)
              (_schema w) (_schema_validator w) (_schema_dependent_hit_count w)
  end.

(** [# method to generate the ID for a metadata entry] *)
Definition get_metaid (id : string) : string := id +:+ "-meta".

Definition get_metaname (name : string) : string := name +:+ "-Metadata".

Section Handler.
Variable L : labels.
Variable E : environment.
Variable self : DataAPIStorageHandler.

Definition get_arn_base : string := "arn:aws:" +:+ AWS_DATA_API_SHORTNAME E.

Definition get_arn (id : string) : string :=
  get_arn_base +:+ ":" +:+ AWS_REGION E +:+ ":" +:+ _deployed_account self
    +:+ ":" +:+ _table_name self +:+ ":" +:+ id.

(** [Table.update_item] on one of the two tables. *)
Definition table_update_item (tbl : table_ref) (args : update_args) (w : world)
  : result item * world :=
  let '(r, t) := ddb_update_item (_pk_name self) (table_rows tbl w) args in
  (r, set_table_rows tbl t w).

(** [decorate_update_request(args, caller_identity, update_action,
    auto_increment)]; [now] is what [utils.get_date_now()] returns. *)
Definition decorate_update_request (args : update_args) (caller_identity : pyval)
    (update_action : string) (now : string) (auto_increment : bool) : update_args :=
  let current_expression := handler_init (Some (UpdateExpression args)) in
  let current_expression :=
    add_expression_item params.SET "#lud = :lud, #lub = :lub, #lua = :lua"
      current_expression in
  let names :=
    <["#lua" := params.LAST_UPDATE_ACTION]>
      (<["#lub" := params.LAST_UPDATED_BY]>
         (<["#lud" := params.LAST_UPDATE_DATE]>
            (names_of (ExpressionAttributeNames args)))) in
  let values :=
    <[":lua" := PStr update_action]>
      (<[":lub" := caller_identity]>
         (<[":lud" := PStr now]>
            (values_of (ExpressionAttributeValues args)))) in
  let current_expression :=
    if auto_increment
    then add_expression_item params.ADD ("#" +:+ params.ITEM_VERSION +:+ " :incr")
           current_expression
    else current_expression in
  let names :=
    if auto_increment
    then <["#" +:+ params.ITEM_VERSION := params.ITEM_VERSION]> names else names in
  let values :=
    if auto_increment then <[":incr" := PInt 1]> values else values in
  {| Key := Key args;
     UpdateExpression := get_expression current_expression;
     ConditionExpression := ConditionExpression args;
     ExpressionAttributeNames := Some names;
     ExpressionAttributeValues := Some values |}.

(** [_fetch_item(table, id, force)]: a row that is marked deleted is
    returned only when [force] is set. *)
Definition _fetch_item (tbl : table_ref) (id : pyval) (force : bool) (w : world)
  : result (option item) :=
  match ddb_get_item (table_rows tbl w) id with
  | Raise e => Raise e
  | Ok None => Ok None
  | Ok (Some it) =>
      match it !! params.DELETED with
      | None => Ok (Some it)
      | Some d => if py_eq d (PInt 0) || force then Ok (Some it) else Ok None
      end
  end.

(** The data API item of a response: the address, the Resource and the
    Metadata. *)
Record api_item : Type := {
  ItemARN : string;
  Resource : option item;
  Metadata : option item;
}.

Definition _structure_item (id : string) (resource metadata : option item)
  : option api_item :=
  match resource, metadata with
  | None, None => None
  | _, _ => Some {| ItemARN := get_arn id; Resource := resource; Metadata := metadata |}
  end.

(** [_fetch_meta(id)]: the metadata row without its key. *)
Definition _fetch_meta (id : string) (w : world) : result (option item) :=
  match _fetch_item MetadataTable (PStr (get_metaid id)) false w with
  | Raise e => Raise e
  | Ok None => Ok None
  | Ok (Some meta) =>
      match meta !! _pk_name self with
      | Some _ => Ok (Some (delete (_pk_name self) meta))
      | None => Raise (KeyError (_pk_name self))
      end
  end.

(** [get(id, suppress_meta_fetch)] *)
Definition get (id : pyval) (suppress_meta_fetch : bool) (w : world)
  : result (option api_item) :=
  match _fetch_item ResourceTable id false w with
  | Raise e => Raise e
  | Ok None => Raise ResourceNotFoundException
  | Ok (Some it) =>
      match id with
      | PStr s =>
          if suppress_meta_fetch then Ok (_structure_item s (Some it) None)
          else match _fetch_meta s w with
               | Raise e => Raise e
               | Ok meta => Ok (_structure_item s (Some it) meta)
               end
      | _ => Raise ValidationException
      end
  end.

(** [check(id)] *)
Definition check (id : pyval) (w : world) : result bool :=
  match _fetch_item ResourceTable id false w with
  | Raise e => Raise e
  | Ok (Some _) => Ok true
  | Ok None => Raise ResourceNotFoundException
  end.

(** [_simple_update(id, update_table, update_expression, caller_identity,
    update_action)] *)
Definition _simple_update (id : string) (update_table : table_ref)
    (update_expression : string) (caller_identity : pyval) (update_action : string)
    (now : string) (w : world) : result bool * world :=
  let del := str_in "#del" update_expression in
  let names : option (gmap string string) :=
    if del then Some {[ "#del" := params.DELETED ]} else None in
  let values : option (gmap string pyval) :=
    if del then Some {[ ":del" := PInt 1 ]} else None in
  let ce := if del then Some (CondText "attribute_not_exists(#del)") else None in
  let values :=
    if str_in ":true" update_expression
    then Some (<[":true" := PBool true]> (values_of values)) else values in
  let args :=
    decorate_update_request
      {| Key := (_pk_name self, PStr id);
         UpdateExpression := update_expression;
         ConditionExpression := ce;
         ExpressionAttributeNames := names;
         ExpressionAttributeValues := values |}
      caller_identity update_action now true in
  match table_update_item update_table args w with
  | (Ok _, w') => (Ok true, w')
  | (Raise ConditionalCheckFailedException, w') => (Ok false, w')
  | (Raise e, w') => (Raise (DetailedException e), w')
  end.

(** [restore(id, caller_identity)] *)
Definition restore (id : string) (caller_identity : pyval) (now : string)
    (w : world) : result unit * world :=
  match _fetch_item ResourceTable (PStr id) true w with
  | Raise e => (Raise e, w)
  | Ok None => (Raise ResourceNotFoundException, w)
  | Ok (Some _) =>
      let args :=
        decorate_update_request
          {| Key := (_pk_name self, PStr id);
             UpdateExpression := "SET #d = :disabled REMOVE #t";
             ConditionExpression :=
               Some (CondText
                 "#d = :enabled and (#t = :false or attribute_not_exists(#t))");
             ExpressionAttributeNames :=
               Some {[ "#t" := params.TOMBSTONED; "#d" := "deleted" ]};
             ExpressionAttributeValues :=
               Some {[ ":enabled" := PInt 1; ":disabled" := PInt 0;
                       ":false" := PBool false ]} |}
          caller_identity (ACTION_RESTORE L) now true in
      match table_update_item ResourceTable args w with
      | (Ok _, w') => (Ok (), w')
      | (Raise ConditionalCheckFailedException, w') =>
          (Raise InvalidArgumentsException, w')
      | (Raise e, w') => (Raise e, w')
      end
  end.

(** [delete_metadata(id)] *)
Definition delete_metadata (id : string) (w : world) : result bool * world :=
  (Ok true,
   set_table_rows MetadataTable
     (ddb_delete_item (metadata_table w) (get_metaid id)) w).

(** [remove_resource_attributes], [remove_metadata_attributes] *)
Definition remove_resource_attributes (id : string) (resource_attributes : list string)
    (caller_identity : pyval) (now : string) (w : world) : result bool * world :=
  _simple_update id ResourceTable ("REMOVE " +:+ join "," resource_attributes)
    caller_identity (ACTION_REMOVE_ATTRIBUTE L) now w.

Definition remove_metadata_attributes (id : string) (metadata_attributes : list string)
    (caller_identity : pyval) (now : string) (w : world) : result bool * world :=
  _simple_update id MetadataTable ("REMOVE " +:+ join "," metadata_attributes)
    caller_identity (ACTION_REMOVE_ATTRIBUTE L) now w.

(** The keyword arguments of [delete]: the attribute lists under
    [Resource] and [Metadata] and the requested delete mode, each absent
    or present. *)
Record delete_kwargs : Type := {
  del_Resource : option (list string);
  del_Metadata : option (list string);
  del_DeleteMode : option string;
}.

(** [utils.remove_internal_attrs(dict)] *)
Definition remove_internal_attrs (d : item) : item :=
  delete "type" (delete "api"
    (delete params.LAST_UPDATE_ACTION (delete params.LAST_UPDATE_DATE
       (delete params.LAST_UPDATED_BY (delete (APP L) d))))).

(** The delete mode that [delete_resource] settles on. *)
Definition set_delete_mode (kwargs : delete_kwargs) : string :=
  match del_DeleteMode kwargs with
  | Some m =>
      if _allow_runtime_delete_mode_change self
         && negb (String.eqb m (_delete_mode self))
      then m else _delete_mode self
  | None => _delete_mode self
  end.

(** [current] after the pops of [delete_resource]: what is left is what
    the [REMOVE] clause of a tombstone names. *)
Definition current_after_pops (current : item) : item :=
  remove_internal_attrs
    (delete params.TOMBSTONED (delete params.ITEM_MASTER_ID
       (delete params.ITEM_VERSION (delete (_pk_name self) current)))).

(** [delete_resource(id, caller_identity, kwargs)] *)
Definition delete_resource (id : string) (caller_identity : pyval)
    (kwargs : delete_kwargs) (now : string) (w : world) : result bool * world :=
  let upd := "SET #del = :del" in
  let tombstone :=
    if String.eqb (set_delete_mode kwargs) params.DELETE_MODE_TOMBSTONE
    then match _fetch_item ResourceTable (PStr id) false w with
         | Raise e => Raise e
         | Ok None => Raise ResourceNotFoundException
         | Ok (Some current) =>
             Ok (fst <$> map_to_list (current_after_pops current),
                 upd +:+ ", " +:+ params.TOMBSTONED +:+ " = :true")
         end
    else Ok ([], upd) in
  match tombstone with
  | Raise e => (Raise e, w)
  | Ok (remove_tokens, upd) =>
      let upd :=
        if (0 <? length remove_tokens)%nat
        then upd +:+ " REMOVE " +:+ join "," remove_tokens else upd in
      _simple_update id ResourceTable upd caller_identity (ACTION_DELETE L) now w
  end.

(** [delete(id, caller_identity, kwargs)] *)
Definition delete_item (id : string) (caller_identity : pyval)
    (kwargs : delete_kwargs) (now : string) (w : world) : result bool * world :=
  let tombstone_mode :=
    String.eqb (_delete_mode self) params.DELETE_MODE_TOMBSTONE in
  let whole (delete_resource_flag delete_metadata_flag : bool) :=
    let '(deleted, w1) :=
      if delete_metadata_flag then delete_metadata id w else (Ok false, w) in
    if delete_resource_flag
    then delete_resource id caller_identity kwargs now w1
    else (deleted, w1) in
  match del_Resource kwargs, del_Metadata kwargs with
  | Some resource_attributes, md =>
      if (0 <? length resource_attributes)%nat then
        if bool_decide (params.ITEM_MASTER_ID ∈ resource_attributes)
        then (Raise InvalidArgumentsException, w)
        else remove_resource_attributes id resource_attributes caller_identity now w
      else whole true tombstone_mode
  | None, Some metadata_attributes =>
      if (0 <? length metadata_attributes)%nat
      then remove_metadata_attributes id metadata_attributes caller_identity now w
      else whole false true
  | None, None => whole true tombstone_mode
  end.

(** [_sanitise_item_lastupdate_info(item)] *)
Definition _sanitise_item_lastupdate_info (it : option item) : option item :=
  (fun i =>
     delete params.ITEM_VERSION (delete params.LAST_UPDATE_ACTION
       (delete params.LAST_UPDATED_BY (delete params.LAST_UPDATE_DATE
          (delete (_pk_name self) i))))) <$> it.

(** The three objects the closure [_render_obj_as_update] of [_do_update]
    writes to: [attribute_names], [attribute_values], [update_expression]. *)
Definition render_state : Type :=
  gmap string string * gmap string pyval * tokens.

Definition render_step (handler_target : string) (st : render_state)
    (kv : string * pyval) : render_state :=
  let '(attribute_names, attribute_values, update_expression) := st in
  let '(k, v) := kv in
  (<["#" +:+ k := k]> attribute_names,
   <[":" +:+ k := v]> attribute_values,
   add_expression_item handler_target ("#" +:+ k +:+ " = :" +:+ k) update_expression).

(** [_render_obj_as_update(item, handler_target)]; the list it returns is
    always empty and is left out. *)
Definition _render_obj_as_update (it : option item) (handler_target : string)
    (st : render_state) : render_state :=
  match it with
  | None => st
  | Some i => fold_left (render_step handler_target) (map_to_list i) st
  end.

(** [" AND ".join(conditions)]: joining anything but strings is a
    [TypeError]. *)
Definition join_conditions (conditions : list condition_arg) : result string :=
  match mapM (fun c => match c with CondText s => Some s | CondAttr _ => None end)
             conditions with
  | Some texts => Ok (join " AND " texts)
  | None => Raise TypeError
  end.

(** [_do_update(table, resource_id, item, caller_identity, item_version,
    is_resource_table, update_constraints)] *)
Definition _do_update (table : table_ref) (resource_id : string) (it : option item)
    (caller_identity : pyval) (now : string) (item_version : option pyval)
    (is_resource_table : bool) (update_constraints : option item) (w : world)
  : result item * world :=
  let it := _sanitise_item_lastupdate_info it in
  let st : render_state :=
    ({[ "#del" := params.DELETED ]}, ∅,
     add_expression_item params.REMOVE "#del" ∅) in
  let st :=
    match item_version with
    | Some v => _render_obj_as_update (Some {[ params.ITEM_VERSION := v ]}) params.SET st
    | None => st
    end in
  let '(attribute_names, attribute_values, update_expression) :=
    _render_obj_as_update it params.SET st in
  let ue := get_expression update_expression in
  let master_ce :=
    if is_resource_table && negb (_allow_non_itemmaster_writes self)
    then Some (CondAttr (AttrOr (AttrNotExists params.ITEM_MASTER_ID)
                                (AttrEq params.ITEM_MASTER_ID (PStr resource_id))))
    else None in
  let conditioned : result (option condition_arg * gmap string string
                            * gmap string pyval) :=
    if is_resource_table && (bool_decide (is_Some update_constraints) || _strict_occv self)
    then
      let conditions := match master_ce with Some c => [c] | None => [] end in
      match update_constraints with
      | Some _ =>
          (* _render_obj_as_update(update_constraints): an argument is missing *)
          Raise TypeError
      | None =>
          let occv_condition := "attribute_not_exists(#" +:+ params.ITEM_VERSION +:+ ")" in
          let attribute_names :=
            <["#" +:+ params.ITEM_VERSION := params.ITEM_VERSION]> attribute_names in
          let versioned :=
            match item_version with
            | None => Ok (occv_condition, attribute_values)
            | Some _ =>
                (* attribute_values[":ItemVersion"] = item[params.ITEM_VERSION] *)
                match it with
                | None => Raise TypeError
                | Some i =>
                    match i !! params.ITEM_VERSION with
                    | None => Raise (KeyError params.ITEM_VERSION)
                    | Some x =>
                        Ok (occv_condition +:+ " or #" +:+ params.ITEM_VERSION
                              +:+ " = :" +:+ params.ITEM_VERSION,
                            <[":" +:+ params.ITEM_VERSION := x]> attribute_values)
                    end
                end
            end in
          match versioned with
          | Raise e => Raise e
          | Ok (occv_condition, attribute_values) =>
              match join_conditions (conditions ++ [CondText occv_condition]) with
              | Raise e => Raise e
              | Ok ce => Ok (Some (CondText ce), attribute_names, attribute_values)
              end
          end
      end
    else Ok (master_ce, attribute_names, attribute_values) in
  match conditioned with
  | Raise e => (Raise e, w)
  | Ok (ce, attribute_names, attribute_values) =>
      let args :=
        decorate_update_request
          {| Key := (_pk_name self, PStr resource_id);
             UpdateExpression := ue;
             ConditionExpression := ce;
             ExpressionAttributeNames := Some attribute_names;
             ExpressionAttributeValues := Some attribute_values |}
          caller_identity (ACTION_UPDATE L) now true in
      match table_update_item table args w with
      | (Raise ConditionalCheckFailedException, w') =>
          (Raise ConstraintViolationException, w')
      | r => r
      end
  end.

(** [_refresh_schema()] *)
Definition _refresh_schema (w : world) : result unit * world :=
  let schema := control_resource_schema w in
  let w1 := mkWorld (resource_table w) (metadata_table w) (control_resource_schema w)
              (_schema_loaded w) schema (_schema_validator w)
              (_schema_dependent_hit_count w) in
  match schema with
  | None => (Ok (), w1)
  | Some (Schema None) => (Raise InvalidArgumentsException, w1)
  | Some (Schema (Some v)) =>
      (Ok (), mkWorld (resource_table w) (metadata_table w) (control_resource_schema w)
                true schema (Some v) (_schema_dependent_hit_count w))
  end.

(** The keyword arguments of [update_item], each absent or present;
    [upd_StrictSchemaValidation] is the truth value of the flag. *)
Record update_kwargs : Type := {
  upd_Metadata : option item;
  upd_Resource : option item;
  upd_References : bool;
  upd_Constraints : option item;
  upd_ItemVersion : option pyval;
  upd_StrictSchemaValidation : bool;
}.

(** The response of [update_item]: the warnings, each the master that the
    updated item points to. *)
Definition update_response : Type := list pyval.

(** Whether [update_item] reloads the schema before it validates. *)
Definition schema_reload_due (strict_schema : bool) (w : world) : result bool :=
  if negb (_schema_loaded w) || strict_schema then Ok true
  else match _schema_validation_refresh_hitcount self with
       | None => Ok false
       | Some O => Raise ZeroDivisionError
       | Some n => Ok (Nat.eqb (_schema_dependent_hit_count w mod n) 0)
       end.

(** The Resource part of [update_item], from [if params.RESOURCE in kwargs]
    on. *)
Definition update_resource_part (caller_identity : pyval) (id : string)
    (kwargs : update_kwargs) (it : item) (now : string) (w : world)
  : result update_response * world :=
  let it := match it !! _pk_name self with
            | None => <[_pk_name self := PStr id]> it
            | Some _ => it
            end in
  if bool_decide (is_Some (it !! params.ITEM_MASTER_ID))
  then (Raise InvalidArgumentsException, w)
  else
    match schema_reload_due (upd_StrictSchemaValidation kwargs) w with
    | Raise e => (Raise e, w)
    | Ok due =>
        match (if due then _refresh_schema w else (Ok (), w)) with
        | (Raise e, w1) => (Raise e, w1)
        | (Ok _, w1) =>
            let valid :=
              match _schema w1 with
              | None => true
              | Some _ => match _schema_validator w1 with
                          | Some v => v it
                          | None => false
                          end
              end in
            if negb valid then (Raise InvalidArgumentsException, w1)
            else
              let it := delete (_pk_name self) it in
              let w2 := mkWorld (resource_table w1) (metadata_table w1)
                          (control_resource_schema w1) (_schema_loaded w1)
                          (_schema w1) (_schema_validator w1)
                          (S (_schema_dependent_hit_count w1)) in
              match _do_update ResourceTable id (Some it) caller_identity now
                      (upd_ItemVersion kwargs) true (upd_Constraints kwargs) w2 with
              | (Raise e, w3) => (Raise e, w3)
              | (Ok attributes, w3) =>
                  match attributes !! params.ITEM_MASTER_ID with
                  | Some item_master_id =>
                      if negb (py_eq item_master_id PNone)
                         && negb (py_eq item_master_id (PStr id))
                      then (Ok [item_master_id], w3) else (Ok [], w3)
                  | None => (Ok [], w3)
                  end
              end
        end
    end.

(** [update_item(caller_identity, id, kwargs)]; [now_meta] and [now] are
    the clock readings of the Metadata and of the Resource write. *)
Definition update_item (caller_identity : pyval) (id : string)
    (kwargs : update_kwargs) (now_meta now : string) (w : world)
  : result update_response * world :=
  if negb (bool_decide (is_Some (upd_Metadata kwargs))
           || bool_decide (is_Some (upd_Resource kwargs)) || upd_References kwargs)
  then
    (* the message is formatted with [%] and has no conversion in it *)
    (Raise TypeError, w)
  else
    let '(meta, w1) :=
      match upd_Metadata kwargs with
      | Some m =>
          _do_update MetadataTable (get_metaid id) (Some m) caller_identity now_meta
            None false None w
      | None => (Ok ∅, w)
      end in
    match meta with
    | Raise e => (Raise e, w1)
    | Ok _ =>
        match upd_Resource kwargs with
        | Some it => update_resource_part caller_identity id kwargs it now w1
        | None => (Ok [], w1)
        end
    end.

(** [make_ddb_expressionval(string)]: [re.sub] of every run of characters
    that are not word characters by nothing. The word characters are taken
    to be the ASCII letters, the digits and the underscore, which is what
    [\W] excludes in ASCII text; Python counts the letters and digits of other
    scripts as word characters too, so the statements about names are made
    for ASCII text. *)
Fixpoint make_ddb_expressionval (s : string) : string :=
  match s with
  | EmptyString => EmptyString
  | String c s' =>
      if is_word_char c then String c (make_ddb_expressionval s')
      else make_ddb_expressionval s'
  end.

(** A search document: the fields of the request in the order the
    request gives them. *)
Definition search_doc : Type := list (string * pyval).

(** [_get_filter_expression(filters)]. The source takes the only
    expression when there is one and joins them otherwise; the join gives
    the same text for one expression, and the empty string for none. *)
Definition _get_filter_expression (filters : option search_doc)
  : option (string * gmap string string * gmap string pyval) :=
  match filters with
  | None => None
  | Some fs =>
      let key k := "#" +:+ make_ddb_expressionval k in
      let value k := ":" +:+ make_ddb_expressionval k in
      Some (join " AND " ((fun kv => key (fst kv) +:+ " = " +:+ value (fst kv)) <$> fs),
            fold_left (fun m kv => <[key (fst kv) := fst kv]> m) fs ∅,
            fold_left (fun m kv => <[value (fst kv) := snd kv]> m) fs ∅)
  end.

Definition deleted_filter : string :=
  "(attribute_not_exists(#deleted) or #deleted <> :deleted)".

(** The read arguments after [_add_deleted_filter] and after the filter of
    [_get_filter_expression] has been added to them. *)
Definition filtered_read_args (index : option (string * (string * pyval)))
    (limit : option Z) (start : option (string * pyval))
    (filters : option search_doc) : read_args :=
  let names : gmap string string := {[ "#deleted" := params.DELETED ]} in
  let values : gmap string pyval := {[ ":deleted" := PInt 1 ]} in
  let '(fe, names, values) :=
    match _get_filter_expression filters with
    | Some (query_filter, expression_names, expression_values) =>
        (deleted_filter +:+ " and " +:+ query_filter,
         expression_names ∪ names, expression_values ∪ values)
    | None => (deleted_filter, names, values)
    end in
  {| IndexName := fst <$> index;
     KeyConditionExpression := snd <$> index;
     FilterExpression := Some fe;
     ReadNames := Some names;
     ReadValues := Some values;
     Limit := limit;
     ExclusiveStartKey := start;
     Segment := None;
     TotalSegments := None |}.

(** The read arguments with the segment of a parallel scan. *)
Definition with_segments (segments : option (Z * Z)) (args : read_args) : read_args :=
  {| IndexName := IndexName args;
     KeyConditionExpression := KeyConditionExpression args;
     FilterExpression := FilterExpression args;
     ReadNames := ReadNames args;
     ReadValues := ReadValues args;
     Limit := Limit args;
     ExclusiveStartKey := ExclusiveStartKey args;
     Segment := fst <$> segments;
     TotalSegments := snd <$> segments |}.

Definition table_name (tbl : table_ref) : string :=
  match tbl with
  | ResourceTable => _table_name self
  | MetadataTable => get_metaname (_table_name self)
  end.

(** [_get_indexname(table_name, attr_name)] *)
Definition _get_indexname (table_name attr_name : string) : string :=
  table_name +:+ "-" +:+ attr_name.

(** [attribute.split('=')[0]] *)
Fixpoint before_equals (s : string) : string :=
  match s with
  | EmptyString => EmptyString
  | String c s' => if Ascii.eqb c "=" then EmptyString else String c (before_equals s')
  end.

(** The global secondary indexes [_setup_table] gives a table: one per
    configured attribute, and the item master index on the Resource table. *)
Definition table_gsi (tbl : table_ref) : list (string * string) :=
  match tbl with
  | ResourceTable =>
      (_get_indexname (_table_name self) params.ITEM_MASTER_ID, params.ITEM_MASTER_ID)
      :: ((fun a => (_get_indexname (table_name tbl) (before_equals a), before_equals a))
            <$> _table_indexes self)
  | MetadataTable =>
      (fun a => (_get_indexname (table_name tbl) (before_equals a), before_equals a))
        <$> _meta_indexes self
  end.

(** The key to resume from, as a response carries it: the
    [LastEvaluatedKey] of the store, which maps the key attributes to their
    values, or, where [_perform_scan] cuts the page itself, the value that the
    last item kept has for the key attribute. (The start key of a request is
    a value of the key attribute.) *)
Inductive resume_key : Type :=
| StoreKey (key : item)
| KeyValue (value : pyval).

(** What [find] and [list_items] return. *)
Record find_result : Type := {
  res_LastEvaluatedKey : option resume_key;
  res_Items : list item;
}.

(** The keyword arguments of a read that the handlers look at: the
    [limit], the start key, and the segment and the number of segments of a
    parallel scan. Each may be absent, and present with the value [None].
    ([ConsistentRead], which the scan sets when the request asks for it, does
    not change what a read returns here and has no field.) *)
Record read_kwargs : Type := {
  kw_limit : option pyval;
  kw_ExclusiveStartKey : option pyval;
  kw_Segment : option pyval;
  kw_TotalSegments : option pyval;
}.

(** [_perform_query(table, last_key, index_attr, search_value,
    query_filters, kwargs)] *)
Definition _perform_query (table : table_ref) (last_key : option pyval)
    (index_attr : string) (search_value : pyval) (query_filters : option search_doc)
    (kwargs : read_kwargs) (w : world) : result find_result :=
  match match kw_limit kwargs with
        | Some v => match py_int E v with
                    | Ok n => Ok (Some n)
                    | Raise e => Raise e
                    end
        | None => Ok None
        end with
  | Raise e => Raise e
  | Ok limit =>
      let args :=
        filtered_read_args
          (Some (_get_indexname (table_name table) index_attr, (index_attr, search_value)))
          limit
          ((fun k => (index_attr, k)) <$> not_None last_key)
          query_filters in
      match ddb_query (page_rows E) (_pk_name self) (table_gsi table)
              (table_rows table w) args with
      | Raise e => Raise e
      | Ok pg => Ok {| res_LastEvaluatedKey := StoreKey <$> LastEvaluatedKey pg;
                       res_Items := Items pg |}
      end
  end.

(** The arguments of a parallel scan that [_perform_scan] takes from the
    keyword arguments: none when there is no segment; [InvalidArguments]
    when there is a segment and no number of segments, or when [int] raises
    [ValueError] for one of them. *)
Definition scan_segments (kwargs : read_kwargs) : result (option (Z * Z)) :=
  match kw_Segment kwargs with
  | Some segment =>
      if is_None segment then Ok None
      else
        let total_segments := default PNone (kw_TotalSegments kwargs) in
        if is_None total_segments then Raise InvalidArgumentsException
        else
          match py_int E segment with
          | Raise ValueError => Raise InvalidArgumentsException
          | Raise e => Raise e
          | Ok s =>
              match py_int E total_segments with
              | Raise ValueError => Raise InvalidArgumentsException
              | Raise e => Raise e
              | Ok n => Ok (Some (s, n))
              end
          end
  | None => Ok None
  end.

(** [_perform_scan(table, last_key, scan_filters, do_limit_in_scan,
    kwargs)] *)
Definition _perform_scan (table : table_ref) (last_key : option pyval)
    (scan_filters : option search_doc) (do_limit_in_scan : bool)
    (kwargs : read_kwargs) (w : world) : result find_result :=
  let query_limit := default PNone (kw_limit kwargs) in
  match scan_segments kwargs with
  | Raise e => Raise e
  | Ok segments =>
      match (if negb (is_None query_limit) && do_limit_in_scan
             then match py_int E query_limit with
                  | Ok n => Ok (Some n)
                  | Raise e => Raise e
                  end
             else Ok None) with
      | Raise e => Raise e
      | Ok scan_limit =>
          let args :=
            with_segments segments
              (filtered_read_args None scan_limit
                 ((fun k => (_pk_name self, k)) <$> not_None last_key)
                 scan_filters) in
          match ddb_scan (page_rows E) (scan_segment E) (_pk_name self)
                  (table_rows table w) args with
          | Raise e =>
              if is_ClientError e then Raise InvalidArgumentsException else Raise e
          | Ok pg =>
              let page_items := Items pg in
              if (negb do_limit_in_scan && bool_decide (is_Some (kw_limit kwargs)))
                 || (DEFAULT_MAX_RESPONSE_SIZE E <? length page_items)%nat
              then
                match (if is_None query_limit
                       then Ok (Z.of_nat (DEFAULT_MAX_RESPONSE_SIZE E))
                       else py_int E query_limit) with
                | Raise e => Raise e
                | Ok set_limit =>
                    let items := take (Z.to_nat set_limit) page_items in
                    Ok {| res_LastEvaluatedKey :=
                            KeyValue <$> (last items ≫= (fun it => it !! _pk_name self));
                          res_Items := items |}
                end
              else Ok {| res_LastEvaluatedKey := StoreKey <$> LastEvaluatedKey pg;
                         res_Items := page_items |}
          end
      end
  end.

(** The keyword arguments of [list_items]. *)
Record list_kwargs : Type := {
  list_limit : option pyval;
  list_LastEvaluatedKey : option pyval;
  list_Segment : option pyval;
  list_TotalSegments : option pyval;
}.

(** [list_items(kwargs)]: the limit is passed on whether the request has
    one or not, and the number of segments whenever the request has a
    segment. *)
Definition list_items (kwargs : list_kwargs) (w : world) : result find_result :=
  let p :=
    {| kw_limit := Some (default PNone (list_limit kwargs));
       kw_ExclusiveStartKey := None;
       kw_Segment := list_Segment kwargs;
       kw_TotalSegments :=
         match list_Segment kwargs with
         | Some _ => Some (default PNone (list_TotalSegments kwargs))
         | None => None
         end |} in
  _perform_scan ResourceTable (list_LastEvaluatedKey kwargs) None true p w.

(** The keyword arguments of [find]. *)
Record find_kwargs : Type := {
  find_Resource : option search_doc;
  find_Metadata : option search_doc;
  find_read : read_kwargs;
}.

(** The loop of [find] over the search document: the first field that is
    an index attribute (or the master link), and the document without it. *)
Fixpoint first_indexed (index_attrs : list string) (doc : search_doc)
  : option (string * pyval * search_doc) :=
  match doc with
  | [] => None
  | (k, v) :: doc' =>
      if bool_decide (k ∈ index_attrs) || String.eqb k params.ITEM_MASTER_ID
      then Some (k, v, doc')
      else match first_indexed index_attrs doc' with
           | Some (k', v', rest) => Some (k', v', (k, v) :: rest)
           | None => None
           end
  end.

(** [find(kwargs)] *)
Definition find (kwargs : find_kwargs) (w : world) : result find_result :=
  let last_key := kw_ExclusiveStartKey (find_read kwargs) in
  match find_Resource kwargs, find_Metadata kwargs with
  | Some _, Some _ => Raise InvalidArgumentsException
  | None, None => Raise InvalidArgumentsException
  | r, m =>
      let '(search_table, index_attrs, doc) :=
        match r with
        | Some d => (ResourceTable, _table_indexes self, d)
        | None => (MetadataTable, _meta_indexes self, default [] m)
        end in
      match first_indexed index_attrs doc with
      | Some (search_index_attr, search_value, rest) =>
          _perform_query search_table last_key search_index_attr search_value
            (Some rest) (find_read kwargs) w
      | None =>
          _perform_scan search_table last_key (Some doc) false (find_read kwargs) w
      end
  end.
End Handler.

Module AwsDataAPI.
Section Facade.
Variable L : labels.
Variable E : environment.
Variable _storage_handler : DataAPIStorageHandler.
(** What [identity_trace] resolved the caller to. *)
Variable _simple_identity : pyval.

(** [arn.split(":")] *)
Fixpoint split_colon (cur : string) (s : string) : list string :=
  match s with
  | EmptyString => [cur]
  | String c s' =>
      if Ascii.eqb c ":" then cur :: split_colon EmptyString s'
      else split_colon (cur +:+ String c EmptyString) s'
  end.

(** The dictionary [utils.shred_arn] returns. *)
Record shredded : Type := {
  ARN_REGION : string;
  ARN_ACCOUNT : string;
  ARN_TABLE : string;
  ARN_ID : string;
}.

(** [utils.shred_arn(arn)]: with seven tokens the inner [_get_arn] is
    called without its argument. *)
Definition shred_arn (arn : string) : result (option shredded) :=
  if negb (str_in ":" arn) then Ok None
  else
    match split_colon EmptyString arn with
    | [_; _; _; _; _; _; _] => Raise TypeError
    | [_; _; _; r; a; t; i; _] =>
        Ok (Some {| ARN_REGION := r; ARN_ACCOUNT := a; ARN_TABLE := t; ARN_ID := i |})
    | _ => Ok None
    end.

(** [_validate_arn_id(id)] *)
Definition _validate_arn_id (id : string) : result string :=
  let decoded_id := unquote E id in
  if str_in (get_arn_base E) decoded_id then
    match shred_arn decoded_id with
    | Raise e => Raise e
    | Ok None => Raise ResourceNotFoundException
    | Ok (Some arn) =>
        if negb (String.eqb (caller_account E) (ARN_ACCOUNT arn))
        then Raise ResourceNotFoundException
        else if negb (String.eqb (_table_name _storage_handler) (ARN_TABLE arn))
        then Raise ResourceNotFoundException
        else if negb (String.eqb (ARN_REGION arn) (_region _storage_handler))
        then Raise ResourceNotFoundException
        else Ok (ARN_ID arn)
    end
  else Ok decoded_id.

(** The response of [get]. *)
Record get_response : Type := {
  Item : option api_item;
  Master : option (option api_item);
}.

(** [item[params.RESOURCE]] of what the storage handler returned. *)
Definition resource_of (it : option api_item) : result item :=
  match it with
  | None => Raise TypeError
  | Some a => match Resource a with
              | Some r => Ok r
              | None => Raise (KeyError "Resource")
              end
  end.

(** [item_master_delete(kwargs)] *)
Definition item_master_delete (kwargs : item) (now : string) (w : world)
  : result bool * world :=
  let item_id := default PNone (kwargs !! _pk_name _storage_handler) in
  if py_eq item_id PNone then (Raise ResourceNotFoundException, w)
  else
    match get E _storage_handler item_id false w with
    | Raise e => (Raise e, w)
    | Ok current =>
        let assert_item_master := default PNone (kwargs !! params.ITEM_MASTER_ID) in
        match resource_of current with
        | Raise e => (Raise e, w)
        | Ok resource =>
            let current_master := default PNone (resource !! params.ITEM_MASTER_ID) in
            if py_eq current_master PNone then (Ok true, w)
            else if negb (py_eq current_master assert_item_master)
            then (Raise InvalidArgumentsException, w)
            else
              match item_id with
              | PStr id =>
                  remove_resource_attributes L _storage_handler id
                    [params.ITEM_MASTER_ID] _simple_identity now w
              | _ => (Raise ValidationException, w)
              end
        end
    end.
(** [get(id, master_option, suppress_meta_fetch)] *)
Definition get (id : string) (master_option : option string)
    (suppress_meta_fetch : bool) (w : world) : result get_response :=
  match _validate_arn_id id with
  | Raise e => Raise e
  | Ok fetch_id =>
      match get E _storage_handler (PStr fetch_id) suppress_meta_fetch w with
      | Raise e => Raise e
      | Ok it =>
          match resource_of it with
          | Raise e => Raise e
          | Ok resource =>
              let has_master :=
                bool_decide (is_Some (resource !! params.ITEM_MASTER_ID)) in
              let is_option (o : string) :=
                match master_option with
                | Some m => String.eqb (lower m) (lower o)
                | None => false
                end in
              let response_item :=
                if negb has_master || negb (bool_decide (is_Some master_option))
                   || is_option params.ITEM_MASTER_INCLUDE
                then it else None in
              if has_master
                 && (is_option params.ITEM_MASTER_INCLUDE
                     || is_option params.ITEM_MASTER_PREFER)
              then
                match get E _storage_handler
                        (default PNone (resource !! params.ITEM_MASTER_ID)) false w with
                | Raise e => Raise e
                | Ok master => Ok {| Item := response_item; Master := Some master |}
                end
              else Ok {| Item := response_item; Master := None |}
          end
      end
  end.

End Facade.
End AwsDataAPI.

(** ** Notions the statements use *)

(** The test [_fetch_item] applies to a row: it carries the [Deleted]
    marker, and the marker is not 0. *)
Definition is_deleted (it : item) : bool :=
  match it !! params.DELETED with
  | Some d => negb (py_eq d (PInt 0))
  | None => false
  end.

(** The reserved fields of a Resource item (spec, section 3). *)
Definition reserved_fields : list string :=
  [params.DELETED; params.TOMBSTONED; params.ITEM_MASTER_ID; params.ITEM_VERSION;
   params.LAST_UPDATE_DATE; params.LAST_UPDATED_BY; params.LAST_UPDATE_ACTION].

(** The request checks of [ddb_update_item], gathered. *)
Definition checked_update (pk k : string) (eav : gmap string pyval)
    (acts : list action) (targets : list string) : bool :=
  bool_decide (k = pk) && forallb (action_value_defined eav) acts
  && bool_decide (NoDup targets) && bool_decide (pk ∉ targets).

(** A whole-item delete: no attribute list under [Resource] or [Metadata]. *)
Definition whole_item_delete (kwargs : delete_kwargs) : Prop :=
  del_Resource kwargs = None /\ del_Metadata kwargs = None.

(** The metadata row of [id], when there is one, carries its key (as every
    row of a table does). *)
Definition metadata_keyed (self : DataAPIStorageHandler) (id : string) (w : world) : Prop :=
  forall m, metadata_table w !! get_metaid id = Some m -> is_Some (m !! _pk_name self).

(** ** Example namespaces, requests and stores

    The concrete inputs the statements below are evaluated at. The labels on
    which the spec is silent get arbitrary values. *)

Definition example_labels : labels :=
  {| APP := "App"; ACTION_UPDATE := "Update"; ACTION_DELETE := "Delete";
     ACTION_RESTORE := "Restore"; ACTION_REMOVE_ATTRIBUTE := "RemoveAttribute" |}.

(** An [int_of_text] for the examples: the value of a text of decimal
    digits, and none for any other text (Python reads more texts than these:
    a sign, blanks around the digits, underscores between them). *)
Fixpoint digits_value (acc : Z) (s : string) : option Z :=
  match s with
  | EmptyString => Some acc
  | String c s' =>
      let n := nat_of_ascii c in
      if (48 <=? n)%nat && (n <=? 57)%nat
      then digits_value (10 * acc + Z.of_nat (n - 48)) s' else None
  end.

Definition decimal_digits (s : string) : option Z :=
  match s with
  | EmptyString => None
  | _ => digits_value 0 s
  end.

(** In the example environment the store never ends a page by itself, and
    it puts every key in segment 0. *)
Definition example_environment : environment :=
  {| AWS_REGION := "eu-west-1"; caller_account := "123456789012";
     unquote := fun s => s; AWS_DATA_API_SHORTNAME := "dapi";
     DEFAULT_MAX_RESPONSE_SIZE := 50;
     int_of_text := decimal_digits;
     page_rows := fun l => S (length l);
     scan_segment := fun _ _ => 0%Z |}.

(** A namespace keyed by [id] with a secondary index on [color]. *)
Definition namespace (delete_mode : string)
    (allow_non_itemmaster_writes strict_occv : bool) : DataAPIStorageHandler :=
  {| _region := "eu-west-1"; _table_name := "Things"; _pk_name := "id";
     _delete_mode := delete_mode; _allow_runtime_delete_mode_change := false;
     _table_indexes := ["color"]; _meta_indexes := [];
     _schema_validation_refresh_hitcount := None;
     _allow_non_itemmaster_writes := allow_non_itemmaster_writes;
     _strict_occv := strict_occv; _deployed_account := "123456789012" |}.

(** A store with the given rows, no schema, and a handler that has not
    served an update yet. *)
Definition store_of (resources metadata : rows) : world :=
  mkWorld resources metadata None false None None 0.

Definition update_of (metadata resource constraints : option item)
    (item_version : option pyval) : update_kwargs :=
  {| upd_Metadata := metadata; upd_Resource := resource; upd_References := false;
     upd_Constraints := constraints; upd_ItemVersion := item_version;
     upd_StrictSchemaValidation := false |}.

Definition whole_item : delete_kwargs :=
  {| del_Resource := None; del_Metadata := None; del_DeleteMode := None |}.

Definition plain_read : read_kwargs :=
  {| kw_limit := None; kw_ExclusiveStartKey := None;
     kw_Segment := None; kw_TotalSegments := None |}.

Definition caller : pyval := PStr "123456789012.alice".

(** The example of the spec (section 8): strict OCCV, item [A] at version 3. *)
Definition occv_namespace : DataAPIStorageHandler :=
  namespace params.DELETE_MODE_SOFT true true.

Definition store_A3 : world :=
  store_of {[ "A" := {[ "id" := PStr "A"; "ItemVersion" := PInt 3 ]} ]} ∅.

Definition recolour (item_version : Z) : update_kwargs :=
  update_of None (Some {[ "color" := PStr "red" ]}) None (Some (PInt item_version)).

(** A green item [A], and an update of its colour under a constraint on
    the colour it has now. *)
Definition store_green : world :=
  store_of {[ "A" := {[ "id" := PStr "A"; "color" := PStr "green" ]} ]} ∅.

Definition recolour_if (expected : string) : update_kwargs :=
  update_of None (Some {[ "color" := PStr "red" ]})
    (Some {[ "color" := PStr expected ]}) None.

Definition soft_namespace : DataAPIStorageHandler :=
  namespace params.DELETE_MODE_SOFT true false.

Definition tombstone_namespace : DataAPIStorageHandler :=
  namespace params.DELETE_MODE_TOMBSTONE true false.

(** Item [A], red. *)
Definition store_A_red : world :=
  store_of {[ "A" := {[ "id" := PStr "A"; "color" := PStr "red" ]} ]} ∅.

(** Item [B], red, with an attribute named [api]. *)
Definition store_B_api : world :=
  store_of {[ "B" := {[ "id" := PStr "B"; "color" := PStr "red";
                        "api" := PStr "v1" ]} ]} ∅.

(** A red item and a blue item. *)
Definition store_colours : world :=
  store_of {[ "A" := {[ "id" := PStr "A"; "color" := PStr "red" ]};
              "B" := {[ "id" := PStr "B"; "color" := PStr "blue" ]} ]} ∅.

Definition find_resource (criteria : search_doc) : find_kwargs :=
  {| find_Resource := Some criteria; find_Metadata := None; find_read := plain_read |}.

(** Item [A], red, soft deleted. *)
Definition store_A_deleted : world :=
  store_of {[ "A" := {[ "id" := PStr "A"; "color" := PStr "red";
                        "Deleted" := PInt 1 ]} ]} ∅.

(** Item [B] carries a master link to item [A]. *)
Definition store_linked : world :=
  store_of {[ "A" := {[ "id" := PStr "A"; "color" := PStr "red" ]};
              "B" := {[ "id" := PStr "B"; "color" := PStr "blue";
                        "ItemMasterID" := PStr "A" ]} ]} ∅.

(** What the storage handler returns for a row that has no Metadata. *)
Definition api_item_of (id : string) (resource : item) : api_item :=
  {| ItemARN := get_arn example_environment soft_namespace id;
     Resource := Some resource; Metadata := None |}.


Definition unlink : delete_kwargs :=
  {| del_Resource := Some ["color"; "ItemMasterID"]; del_Metadata := None;
     del_DeleteMode := None |}.

(** Attribute removals whose list does not hold the name of the master
    link as an element, but in the text of one: after a space, and after the
    keyword of a [SET] clause. *)
Definition unlink_spaced : delete_kwargs :=
  {| del_Resource := Some [" ItemMasterID"]; del_Metadata := None;
     del_DeleteMode := None |}.

Definition relink_spliced : delete_kwargs :=
  {| del_Resource := Some ["x SET ItemMasterID = :lub"]; del_Metadata := None;
     del_DeleteMode := None |}.

(** A note for the Metadata of [A] together with a Resource document that
    names the master link; and the Metadata row the note is written to. *)
Definition annotate_and_relink : update_kwargs :=
  update_of (Some {[ "note" := PStr "checked" ]})
            (Some {[ "ItemMasterID" := PStr "C" ]}) None None.

Definition annotated : item :=
  {[ "id" := PStr "A-meta"; "note" := PStr "checked"; "ItemVersion" := PInt 1;
     "LastUpdateDate" := PStr "t0"; "LastUpdatedBy" := caller;
     "LastUpdateAction" := PStr "Update" ]}.

(** The body of a [RemoveItemMaster] request. *)
Definition unlink_request (id master : string) : item :=
  {[ "id" := PStr id; "ItemMasterID" := PStr master ]}.

(** ** Further operations and notions

    More of [utils.py], [dynamo_data_api.py] and [aws_data_api.py], and
    the notions the statements about them use. *)

(** [utils.versioned_arn(id, table_name, deployed_account, item_version)] *)
Definition versioned_arn (E : environment) (self : DataAPIStorageHandler)
    (id item_version : string) : string :=
  get_arn E self id +:+ ":" +:+ item_version.

(** No colon occurs in [s]. *)
Definition colon_free (s : string) : Prop := str_in ":" s = false.

(** The version [ADD #ItemVersion :incr] leaves on an item: 1 when it had
    none, one more when it had a number; the store refuses the addition to
    anything else. *)
Definition next_version (it : item) : option Z :=
  match it !! params.ITEM_VERSION with
  | None => Some 1
  | Some (PInt n) => Some (n + 1)
  | Some _ => None
  end.

(** [it] with the audit fields and the version that
    [decorate_update_request] makes every write set. *)
Definition stamped (it : item) (caller_identity : pyval) (update_action now : string)
    (version : Z) : item :=
  <[params.ITEM_VERSION := PInt version]>
    (<[params.LAST_UPDATE_ACTION := PStr update_action]>
       (<[params.LAST_UPDATED_BY := caller_identity]>
          (<[params.LAST_UPDATE_DATE := PStr now]> it))).

(** [get_metadata(id)] of the storage handler *)
Definition get_metadata (self : DataAPIStorageHandler) (id : pyval) (w : world)
  : result (option item) :=
  match check id w with
  | Raise e => Raise e
  | Ok _ =>
      match id with
      | PStr s => _fetch_meta self s w
      | _ => Raise ValidationException
      end
  end.

(** The warnings [update_item] derives from the attributes the Resource
    write returns: the master of the item, when it has one that is not the
    item itself. *)
Definition master_warnings (id : string) (attributes : item) : update_response :=
  match attributes !! params.ITEM_MASTER_ID with
  | Some item_master_id =>
      if negb (py_eq item_master_id PNone) && negb (py_eq item_master_id (PStr id))
      then [item_master_id] else []
  | None => []
  end.

(** What the filter of [_add_deleted_filter] lets through: the items whose
    [Deleted] attribute is not the number 1. *)
Definition passes_deleted_filter (it : item) : bool :=
  negb (bool_decide (it !! params.DELETED = Some (PInt 1))).

(** The live items of the Resource table, in the order of a scan, and
    those that follow the row with the key [id]. *)
Definition live_items (w : world) : list item :=
  filter (fun it => passes_deleted_filter it = true)
         (snd <$> map_to_list (resource_table w)).

Definition live_after (id : string) (w : world) : list item :=
  filter (fun it => passes_deleted_filter it = true)
         (snd <$> rows_after id (map_to_list (resource_table w))).

(** Every row of the Resource table carries its key under the key
    attribute. *)
Definition resource_keyed (self : DataAPIStorageHandler) (w : world) : Prop :=
  forall k it, resource_table w !! k = Some it -> it !! _pk_name self = Some (PStr k).

(** The request of a listing that is not a parallel scan. *)
Definition listing (limit last_key : option pyval) : list_kwargs :=
  {| list_limit := limit; list_LastEvaluatedKey := last_key;
     list_Segment := None; list_TotalSegments := None |}.

(** The live items that a listing has ahead of it: all of them when the
    request has no key to start from, those after the row of the key when it
    has the key of a stored row. *)
Definition listing_ahead (last_key : option pyval) (w : world) : option (list item) :=
  match last_key with
  | None | Some PNone => Some (live_items w)
  | Some (PStr id) =>
      if bool_decide (is_Some (resource_table w !! id)) then Some (live_after id w)
      else None
  | Some _ => None
  end.

(** The value of the key attribute in the key that a response carries:
    the start key for the request of the next page. *)
Definition resume_value (self : DataAPIStorageHandler) (key : resume_key)
  : option pyval :=
  match key with
  | StoreKey k => k !! _pk_name self
  | KeyValue v => Some v
  end.

(** The rows a scan of the Resource table has ahead of it: all of them, or
    those after the row of the key to start from; the store refuses a key
    that is not a text, or is the empty text. *)
Definition scan_candidates (last_key : option pyval) (w : world)
  : option (list (string * item)) :=
  match not_None last_key with
  | None => Some (map_to_list (resource_table w))
  | Some (PStr id) =>
      if String.eqb id EmptyString then None
      else Some (rows_after id (map_to_list (resource_table w)))
  | Some _ => None
  end.

(** The limit of a listing is one that the scan accepts: the request has
    none, or [int] reads it as a number that is at least 1. *)
Definition limit_accepted (E : environment) (limit : option pyval) : Prop :=
  is_None (default PNone limit) = false ->
  exists n, py_int E (default PNone limit) = Ok n /\ (1 <= n)%Z.

(** Three items, of which [B] is deleted. *)
Definition store_listed : world :=
  store_of {[ "A" := {[ "id" := PStr "A"; "color" := PStr "red" ]};
              "B" := {[ "id" := PStr "B"; "color" := PStr "blue"; "Deleted" := PInt 1 ]};
              "C" := {[ "id" := PStr "C"; "color" := PStr "green" ]} ]} ∅.

(** An environment in which the store ends every page after one row. *)
Definition one_row_pages : environment :=
  {| AWS_REGION := "eu-west-1"; caller_account := "123456789012";
     unquote := fun s => s; AWS_DATA_API_SHORTNAME := "dapi";
     DEFAULT_MAX_RESPONSE_SIZE := 50;
     int_of_text := decimal_digits;
     page_rows := fun _ => 1%nat;
     scan_segment := fun _ _ => 0%Z |}.

(** Python's [str(v)] on the scalars. *)
Definition py_str (v : pyval) : string :=
  match v with
  | PNone => "None"
  | PBool true => "True"
  | PBool false => "False"
  | PInt z => NilZero.string_of_int (Z.to_int z)
  | PStr s => s
  end.

(** [pk.split(',')] *)
Fixpoint split_comma (cur : string) (s : string) : list string :=
  match s with
  | EmptyString => [cur]
  | String c s' =>
      if Ascii.eqb c "," then cur :: split_comma EmptyString s'
      else split_comma (cur +:+ String c EmptyString) s'
  end.

(** An entry of the response of [item_master_update]: the key of an item
    and whether the link was written to it. *)
Record link_entry : Type := {
  entry_key : string;
  Updated : bool;
}.

(** The loop of [item_master_update] over the items to link. [now i] is
    what [utils.get_date_now()] returns for the write number [i]. A write
    that succeeds reports the capacity it consumed, which is more than
    nothing; a write refused by its condition is passed over; any other
    error of the store ends the loop. *)
Fixpoint link_each (L : labels) (self : DataAPIStorageHandler) (item_master_id : string)
    (caller_identity : pyval) (now : nat -> string) (i : nat) (values : list pyval)
    (w : world) : result (list link_entry) * world :=
  match values with
  | [] => (Ok [], w)
  | v :: values' =>
      let args :=
        decorate_update_request
          {| Key := (_pk_name self, PStr (py_str v));
             UpdateExpression := "SET " +:+ params.ITEM_MASTER_ID +:+ " = :v";
             ConditionExpression := Some (CondAttr (AttrEq (_pk_name self) (PStr (py_str v))));
             ExpressionAttributeNames := None;
             ExpressionAttributeValues := Some {[ ":v" := PStr item_master_id ]} |}
          caller_identity (ACTION_UPDATE L) (now i) true in
      let next (updated : bool) (w1 : world) :=
        match link_each L self item_master_id caller_identity now (S i) values' w1 with
        | (Ok rest, w2) => (Ok ({| entry_key := py_str v; Updated := updated |} :: rest), w2)
        | (Raise e, w2) => (Raise e, w2)
        end in
      match table_update_item self ResourceTable args w with
      | (Ok _, w1) => next true w1
      | (Raise ConditionalCheckFailedException, w1) => next false w1
      | (Raise e, w1) => (Raise e, w1)
      end
  end.

(** [item_master_update(caller_identity, kwargs)] of the storage handler *)
Definition item_master_update (L : labels) (self : DataAPIStorageHandler)
    (caller_identity : pyval) (kwargs : item) (now : nat -> string) (w : world)
  : result (list link_entry) * world :=
  match kwargs !! _pk_name self, kwargs !! params.ITEM_MASTER_ID with
  | Some pk, Some master =>
      let item_master_id := py_str master in
      match _fetch_item ResourceTable (PStr item_master_id) false w with
      | Raise e => (Raise e, w)
      | Ok None => (Raise InvalidArgumentsException, w)
      | Ok (Some _) =>
          match pk with
          | PStr s =>
              link_each L self item_master_id caller_identity now 0
                (if str_in "," s then PStr <$> split_comma EmptyString s else [pk]) w
          | PNone => link_each L self item_master_id caller_identity now 0 [pk] w
          | _ => (Raise TypeError, w)      (* [',' in pk] *)
          end
      end
  | _, _ => (Raise InvalidArgumentsException, w)
  end.

(** [new] is [old] with the master link [master], up to the audit fields
    and the version. *)
Definition linked_to (master : string) (old new : item) : Prop :=
  new !! params.ITEM_MASTER_ID = Some (PStr master)
  /\ forall a, a ∉ [params.ITEM_MASTER_ID; params.LAST_UPDATE_DATE; params.LAST_UPDATED_BY;
                   params.LAST_UPDATE_ACTION; params.ITEM_VERSION] ->
               new !! a = old !! a.

(** Every row of the Resource table has a version that can be incremented. *)
Definition versions_valid (w : world) : Prop :=
  forall k it, resource_table w !! k = Some it -> is_Some (next_version it).

(** The text is ASCII: every character is below 128. On such text the
    characters that [\W] matches are those that are no letter, digit or
    underscore, as [make_ddb_expressionval] below takes them. *)
Fixpoint ascii_text (s : string) : bool :=
  match s with
  | EmptyString => true
  | String c s' => (nat_of_ascii c <? 128)%nat && ascii_text s'
  end.

(** A namespace whose only secondary index is configured with a type. *)
Definition typed_index_namespace : DataAPIStorageHandler :=
  {| _region := "eu-west-1"; _table_name := "Things"; _pk_name := "id";
     _delete_mode := params.DELETE_MODE_SOFT; _allow_runtime_delete_mode_change := false;
     _table_indexes := ["color=string"]; _meta_indexes := [];
     _schema_validation_refresh_hitcount := None;
     _allow_non_itemmaster_writes := true;
     _strict_occv := false; _deployed_account := "123456789012" |}.

(** * Properties *)

(** A decidable proposition, settled by evaluation. *)
Ltac by_computation := apply (bool_decide_unpack _); vm_compute; exact I.

(** ** The store: what a write can and cannot change *)

Lemma set_table_rows_same tbl w : set_table_rows tbl (table_rows tbl w) w = w.
Proof. by destruct w, tbl. Qed.

Lemma table_rows_set_same tbl t w : table_rows tbl (set_table_rows tbl t w) = t.
Proof. by destruct tbl. Qed.

(** A write that raises leaves the table as it was. *)
Lemma ddb_update_item_raise pk t args e t' :
  ddb_update_item pk t args = (Raise e, t') -> t' = t.
Proof.
  unfold ddb_update_item. intros H.
  repeat case_match; simplify_eq; done.
Qed.

(** A write that succeeds stores the item it returns under the key. *)
Lemma ddb_update_item_ok pk t args a t' :
  ddb_update_item pk t args = (Ok a, t') ->
  exists k id, Key args = (k, PStr id) /\ t' = <[id := a]> t.
Proof.
  unfold ddb_update_item. intros H.
  repeat case_match; simplify_eq; eauto.
Qed.

Lemma table_update_item_raise self tbl args w e w' :
  table_update_item self tbl args w = (Raise e, w') -> w' = w.
Proof.
  unfold table_update_item.
  destruct (ddb_update_item _ _ _) as [r t] eqn:Hu. intros [= -> <-].
  apply ddb_update_item_raise in Hu as ->. apply set_table_rows_same.
Qed.

Lemma table_update_item_other self tbl args w r w' :
  table_update_item self tbl args w = (r, w') ->
  match tbl with
  | ResourceTable => metadata_table w' = metadata_table w
  | MetadataTable => resource_table w' = resource_table w
  end.
Proof.
  unfold table_update_item.
  destruct (ddb_update_item _ _ _) as [r0 t]. intros [= _ <-]. by destruct tbl.
Qed.

Lemma do_update_other L self tbl id it c now v b cs w r w' :
  _do_update L self tbl id it c now v b cs w = (r, w') ->
  match tbl with
  | ResourceTable => metadata_table w' = metadata_table w
  | MetadataTable => resource_table w' = resource_table w
  end.
Proof.
  unfold _do_update.
  destruct (_render_obj_as_update _ _ _) as [[names values] ue].
  match goal with |- context [match ?x with Ok _ => _ | Raise _ => _ end] =>
    destruct x as [[[ce an] av]|e] end.
  2: { intros [= _ <-]. by destruct tbl. }
  destruct (table_update_item _ _ _ _) as [r0 w0] eqn:Hu.
  apply table_update_item_other in Hu.
  destruct r0 as [a|[]]; intros [= _ <-]; done.
Qed.

Lemma do_update_stores L self tbl id it c now v b cs w a w' :
  _do_update L self tbl id it c now v b cs w = (Ok a, w') ->
  table_rows tbl w' !! id = Some a.
Proof.
  unfold _do_update.
  destruct (_render_obj_as_update _ _ _) as [[names values] ue].
  match goal with |- context [match ?x with Ok _ => _ | Raise _ => _ end] =>
    destruct x as [[[ce an] av]|e] end; [|done].
  unfold table_update_item.
  destruct (ddb_update_item _ _ _) as [r0 t0] eqn:Hu.
  destruct r0 as [a0|e].
  - intros [= -> <-]. apply ddb_update_item_ok in Hu as (k & id' & Hk & ->).
    cbn in Hk. simplify_eq. rewrite table_rows_set_same. apply lookup_insert_eq.
  - by destruct e.
Qed.

Lemma refresh_schema_tables w r w' :
  _refresh_schema w = (r, w') ->
  resource_table w' = resource_table w /\ metadata_table w' = metadata_table w.
Proof.
  unfold _refresh_schema. intros H.
  repeat case_match; simplify_eq; done.
Qed.

Lemma update_resource_part_metadata L self c id kwargs it now w r w' :
  update_resource_part L self c id kwargs it now w = (r, w') ->
  metadata_table w' = metadata_table w.
Proof.
  unfold update_resource_part.
  destruct (bool_decide _); [by intros [= _ <-]|].
  destruct (schema_reload_due _ _ _) as [due|e]; [|by intros [= _ <-]].
  set (refreshed := if due then _refresh_schema w else (Ok (), w)).
  assert (Hm : metadata_table (snd refreshed) = metadata_table w).
  { subst refreshed. destruct due; [|done].
    destruct (_refresh_schema w) as [r0 w0] eqn:Hr.
    by apply refresh_schema_tables in Hr as [_ ?]. }
  destruct refreshed as [[[]|e] w1]; cbn in Hm; [|by intros [= _ <-]].
  destruct (negb _); [by intros [= _ <-]|].
  destruct (_do_update _ _ _ _ _ _ _ _ _ _ _) as [[a|e] w3] eqn:Hd;
    apply do_update_other in Hd; cbn in Hd.
  - intros H. assert (w' = w3) as ->; [|congruence].
    repeat case_match; by simplify_eq.
  - intros [= _ <-]. congruence.
Qed.

(** ** Reads *)

Lemma fetch_item_deleted tbl w id it :
  table_rows tbl w !! id = Some it -> is_deleted it = true ->
  _fetch_item tbl (PStr id) false w = Ok None.
Proof.
  unfold _fetch_item, is_deleted, ddb_get_item. intros -> H.
  destruct (it !! params.DELETED) as [d|]; [|done].
  apply negb_true_iff in H. by rewrite H.
Qed.

Lemma fetch_item_live tbl w id it :
  table_rows tbl w !! id = Some it -> is_deleted it = false ->
  _fetch_item tbl (PStr id) false w = Ok (Some it).
Proof.
  unfold _fetch_item, is_deleted, ddb_get_item. intros -> H.
  destruct (it !! params.DELETED) as [d|]; [|done].
  apply negb_false_iff in H. by rewrite H.
Qed.

Lemma fetch_item_inv tbl w id force r :
  _fetch_item tbl id force w = Ok (Some r) ->
  exists s, id = PStr s /\ table_rows tbl w !! s = Some r.
Proof.
  unfold _fetch_item, ddb_get_item. intros H.
  destruct id; try done. repeat case_match; simplify_eq; eauto.
Qed.

Lemma fetch_item_raise tbl w id force e :
  _fetch_item tbl id force w = Raise e -> e = ValidationException.
Proof.
  unfold _fetch_item, ddb_get_item. intros H.
  destruct id; repeat case_match; by simplify_eq.
Qed.

Lemma get_live E self id w it :
  resource_table w !! id = Some it -> is_deleted it = false ->
  metadata_keyed self id w ->
  exists meta,
    get E self (PStr id) false w
    = Ok (Some {| ItemARN := get_arn E self id; Resource := Some it; Metadata := meta |}).
Proof.
  intros Hrow Hlive Hmeta. unfold get.
  rewrite (fetch_item_live ResourceTable w id it) by done.
  unfold _fetch_meta.
  destruct (_fetch_item MetadataTable _ _ _) as [[m|]|e] eqn:Hf.
  - apply fetch_item_inv in Hf as (s & [= <-] & Hm).
    destruct (Hmeta m Hm) as [v ->]. eauto.
  - eauto.
  - unfold _fetch_item, ddb_get_item in Hf. repeat case_match; by simplify_eq.
Qed.

Lemma get_inv E self id b w cur r :
  get E self id b w = Ok cur -> AwsDataAPI.resource_of cur = Ok r ->
  exists s, id = PStr s /\ resource_table w !! s = Some r.
Proof.
  unfold get. intros H Hr.
  destruct (_fetch_item ResourceTable id false w) as [[it|]|e] eqn:Hf; try done.
  apply fetch_item_inv in Hf as (s & -> & Hrow). exists s. split; [done|].
  assert (cur = _structure_item E self s (Some it) None
          \/ exists meta, cur = _structure_item E self s (Some it) meta) as Hc.
  { cbv beta iota in H. destruct b; [left; by injection H as <-|].
    destruct (_fetch_meta self s w) as [meta|]; [|done]. right. exists meta.
    by injection H as <-. }
  destruct Hc as [->|[meta ->]]; cbn in Hr; by simplify_eq.
Qed.

Lemma get_raise E self id b w e :
  get E self id b w = Raise e -> e <> InvalidArgumentsException.
Proof.
  unfold get, _fetch_meta. intros H.
  destruct (_fetch_item ResourceTable id false w) as [[it|]|e0] eqn:Hf.
  - destruct id; try by simplify_eq. destruct b; [done|].
    destruct (_fetch_item MetadataTable _ _ _) as [[m|]|e1] eqn:Hm.
    + by repeat case_match; simplify_eq.
    + done.
    + apply fetch_item_raise in Hm as ->. by simplify_eq.
  - by simplify_eq.
  - apply fetch_item_raise in Hf as ->. by simplify_eq.
Qed.

Lemma simple_update_raise self id tbl ue c action now w e w' :
  _simple_update self id tbl ue c action now w = (Raise e, w') ->
  exists e', e = DetailedException e'.
Proof.
  unfold _simple_update.
  destruct (table_update_item _ _ _ _) as [[a|e0] w0]; [done|].
  destruct e0; intros [= <- _]; eauto.
Qed.

(** ** Updates under optimistic concurrency (C1) and write conditions (C2) *)

(** With strict OCCV on, [_do_update] never reaches the store when the
    caller supplies an [ItemVersion]: the version is looked up in the
    Resource document, from which [_sanitise_item_lastupdate_info] has just
    removed it. *)
Lemma do_update_supplied_version_KeyError L self id it c now v w :
  _strict_occv self = true ->
  _do_update L self ResourceTable id (Some it) c now (Some v) true None w
  = (Raise (KeyError params.ITEM_VERSION), w).
Proof.
  intros Hocc. unfold _do_update.
  destruct (_render_obj_as_update _ _ _) as [[names values] ue].
  rewrite Hocc. cbn [andb orb].
  rewrite orb_true_r. cbn [_sanitise_item_lastupdate_info fmap option_fmap option_map].
  by rewrite lookup_delete_eq.
Qed.

(** Caller-supplied constraints never reach the store either: rendering
    them calls [_render_obj_as_update] with one argument. *)
Lemma do_update_constraints_TypeError L self id it c now v cs w :
  _do_update L self ResourceTable id it c now v true (Some cs) w
  = (Raise TypeError, w).
Proof.
  unfold _do_update.
  by destruct (_render_obj_as_update _ _ _) as [[names values] ue].
Qed.

(** The master-link condition is a boto3 object and the OCCV condition is
    text: joining the two with [" AND "] raises. *)
Lemma do_update_master_and_occv_TypeError L self id it c now w :
  _strict_occv self = true ->
  _allow_non_itemmaster_writes self = false ->
  _do_update L self ResourceTable id it c now None true None w
  = (Raise TypeError, w).
Proof.
  intros Hocc Hm. unfold _do_update.
  destruct (_render_obj_as_update _ _ _) as [[names values] ue].
  rewrite Hocc, Hm. cbn [andb orb negb]. by rewrite orb_true_r.
Qed.

(** C1 (code defect). In a namespace with strict OCCV, an update that
    supplies an [ItemVersion] raises [KeyError] before any write is sent,
    whether the version is the stored one (3: the claim has the update
    succeed and the version become 4) or a stale one (2: the claim has it
    raise [ConstraintViolation]). The stored item stays as it was. What
    does work under strict OCCV is the update that supplies no version of
    an item that has none: it succeeds and the version becomes 1. *)
Theorem C1_supplied_version_raises_KeyError :
  fst (update_item example_labels occv_namespace caller "A" (recolour 3) "t0" "t1" store_A3)
    = Raise (KeyError "ItemVersion")
  /\ fst (update_item example_labels occv_namespace caller "A" (recolour 2) "t0" "t1" store_A3)
    = Raise (KeyError "ItemVersion")
  /\ resource_table
       (snd (update_item example_labels occv_namespace caller "A" (recolour 3) "t0" "t1" store_A3))
     = resource_table store_A3
  /\ resource_table store_A3 !! "A"
     = Some ({[ "id" := PStr "A"; "ItemVersion" := PInt 3 ]} : item)
  /\ (resource_table
        (snd (update_item example_labels occv_namespace caller "A"
                (update_of None (Some {[ "color" := PStr "blue" ]}) None None)
                "t0" "t1" store_A_red)) !! "A")
       ≫= (fun it => it !! "ItemVersion")
     = Some (PInt 1).
Proof.
  assert (Hv : forall v,
    update_item example_labels occv_namespace caller "A" (recolour v) "t0" "t1" store_A3
    = (Raise (KeyError "ItemVersion"),
       mkWorld (resource_table store_A3) ∅ None false None None 1)).
  { intros v. unfold update_item, update_resource_part. cbn -[_do_update].
    rewrite do_update_supplied_version_KeyError by reflexivity. reflexivity. }
  rewrite !Hv. repeat (split; [reflexivity|]). vm_compute. reflexivity.
Qed.

(** C2 (code defect). The parts of the write condition are never enforced
    together. With a constraint on the update, [_do_update] raises
    [TypeError] whether the constraint fails (the item is green, not blue:
    the claim has [ConstraintViolation]) or holds (the claim has the update
    succeed); and in a namespace that has both the master-link check and
    strict OCCV on, every Resource update without constraints raises
    [TypeError] when the two conditions are joined. Nothing is written. *)
Theorem C2_conditions_are_not_conjoined :
  update_item example_labels (namespace params.DELETE_MODE_SOFT false false) caller "A"
      (recolour_if "blue") "t0" "t1" store_green
    = (Raise TypeError, mkWorld (resource_table store_green) ∅ None false None None 1)
  /\ update_item example_labels (namespace params.DELETE_MODE_SOFT false false) caller "A"
      (recolour_if "green") "t0" "t1" store_green
    = (Raise TypeError, mkWorld (resource_table store_green) ∅ None false None None 1)
  /\ update_item example_labels (namespace params.DELETE_MODE_SOFT false true) caller "A"
      (update_of None (Some {[ "color" := PStr "red" ]}) None None) "t0" "t1" store_green
    = (Raise TypeError, mkWorld (resource_table store_green) ∅ None false None None 1).
Proof.
  split; [|split]; unfold update_item, update_resource_part; cbn -[_do_update].
  - by rewrite do_update_constraints_TypeError.
  - by rewrite do_update_constraints_TypeError.
  - by rewrite do_update_master_and_occv_TypeError.
Qed.

(** ** Delete, tombstone and restore (C3, C4, C5) *)

(** C3 (code defect). Tombstoning the item [{id: B, color: red, api: v1}]
    removes [color] but keeps [api]: [delete_resource] takes the names to
    remove from what [utils.remove_internal_attrs] leaves of the item, and
    that helper drops [api] (and [type], and the [APP] name) from the
    list. The stored record therefore holds an attribute that is neither
    the key nor a reserved field. The rest of the claim holds here: the
    record is marked [Deleted = 1], [Tombstoned = true], and a restore is
    refused with [InvalidArguments]. *)
Theorem C3_tombstone_keeps_api_attribute :
  exists w',
    delete_item example_labels tombstone_namespace "B" caller whole_item "t1" store_B_api
      = (Ok true, w')
    /\ resource_table w' !! "B"
       = Some ({[ "id" := PStr "B"; "api" := PStr "v1";
                  "Deleted" := PInt 1; "Tombstoned" := PBool true;
                  "ItemVersion" := PInt 1; "LastUpdateDate" := PStr "t1";
                  "LastUpdatedBy" := caller;
                  "LastUpdateAction" := PStr "Delete" ]} : item)
    /\ restore example_labels tombstone_namespace "B" caller "t2" w'
       = (Raise InvalidArgumentsException, w').
Proof.
  eexists. split; [reflexivity|]. split; vm_compute; reflexivity.
Qed.

(** [ddb_update_item] on a request whose expressions are known to parse. *)
Lemma ddb_update_item_text pk t args k id acts s c targets :
  Key args = (k, PStr id) ->
  parse_update (UpdateExpression args) = Some acts ->
  ConditionExpression args = Some (CondText s) ->
  parse_condition s = Some c ->
  cond_defined (names_of (ExpressionAttributeNames args))
               (values_of (ExpressionAttributeValues args)) c = true ->
  update_targets (names_of (ExpressionAttributeNames args)) acts = Some targets ->
  ddb_update_item pk t args =
    if checked_update pk k (values_of (ExpressionAttributeValues args)) acts targets
    then
      if cond_holds (names_of (ExpressionAttributeNames args))
                    (values_of (ExpressionAttributeValues args))
                    (default ∅ (t !! id)) c then
        match apply_actions (names_of (ExpressionAttributeNames args))
                (values_of (ExpressionAttributeValues args))
                (default {[pk := PStr id]} (t !! id)) acts with
        | Some new => (Ok new, <[id := new]> t)
        | None => (Raise ValidationException, t)
        end
      else (Raise ConditionalCheckFailedException, t)
    else (Raise ValidationException, t).
Proof.
  intros Hk Hp Hc Hs Hd Ht. unfold ddb_update_item, write_condition, checked_condition.
  rewrite Hk, Hp, Hc, Hs. cbn. rewrite Hd, Ht. reflexivity.
Qed.

Lemma checked_update_intro pk eav acts targets :
  forallb (action_value_defined eav) acts = true ->
  NoDup targets -> pk ∉ targets ->
  checked_update pk pk eav acts targets = true.
Proof.
  intros Hv Hn Hp. unfold checked_update.
  by rewrite Hv, !bool_decide_true.
Qed.

Lemma simple_update_soft_already_marked self id c action now w it :
  resource_table w !! id = Some it ->
  is_Some (it !! params.DELETED) ->
  _pk_name self ∉ reserved_fields ->
  _simple_update self id ResourceTable "SET #del = :del" c action now w = (Ok false, w).
Proof.
  intros Hrow Hdel Hpk. unfold _simple_update.
  change (str_in "#del" "SET #del = :del") with true.
  change (str_in ":true" "SET #del = :del") with false.
  cbv iota.
  set (args := decorate_update_request _ _ _ _ _).
  unfold table_update_item.
  rewrite (ddb_update_item_text _ _ args (_pk_name self) id
             [ASet (Placeholder "#del") ":del"; ASet (Placeholder "#lud") ":lud";
              ASet (Placeholder "#lub") ":lub"; ASet (Placeholder "#lua") ":lua";
              AAdd (Placeholder "#ItemVersion") ":incr"]
             "attribute_not_exists(#del)" (CNotExists (Placeholder "#del"))
             ["Deleted"; "LastUpdateDate"; "LastUpdatedBy"; "LastUpdateAction";
              "ItemVersion"])
    by (vm_compute; reflexivity).
  rewrite checked_update_intro.
  - cbn [table_rows]. rewrite Hrow. cbn [default cond_holds].
    unfold has_attr.
    replace (resolve (names_of (ExpressionAttributeNames args)) (Placeholder "#del"))
      with (Some params.DELETED) by (vm_compute; reflexivity).
    rewrite bool_decide_true by done. cbn.
    by destruct w.
  - vm_compute; reflexivity.
  - apply (bool_decide_unpack _). vm_compute. exact I.
  - revert Hpk. unfold reserved_fields. rewrite !not_elem_of_cons. tauto.
Qed.

(** C4 (corrected). A whole-item delete of an item that is already deleted
    (the row is there and carries the [Deleted] marker) never touches the
    Resource table. When the delete mode in force is not tombstone the
    write is refused by its own condition and the operation returns [false]
    with no error; when it is tombstone, [delete_resource] first fetches the
    item, the fetch does not see deleted items, and the operation raises
    [ResourceNotFound]. The key attribute is assumed not to be one of the
    reserved fields. *)
Theorem C4_delete_of_deleted_item L self id c kwargs now w it :
  whole_item_delete kwargs ->
  resource_table w !! id = Some it ->
  is_deleted it = true ->
  _pk_name self ∉ reserved_fields ->
  exists w',
    resource_table w' = resource_table w
    /\ delete_item L self id c kwargs now w
       = (if String.eqb (set_delete_mode self kwargs) params.DELETE_MODE_TOMBSTONE
          then Raise ResourceNotFoundException else Ok false, w').
Proof.
  intros [HR HM] Hrow Hdel Hpk. unfold delete_item. rewrite HR, HM.
  set (w1 := snd (if String.eqb (_delete_mode self) params.DELETE_MODE_TOMBSTONE
                  then delete_metadata id w else (Ok false, w))).
  assert (Hw1 : resource_table w1 = resource_table w).
  { subst w1. by destruct (String.eqb _ _). }
  exists w1. split; [done|].
  assert (Hd : delete_resource L self id c kwargs now w1
               = (if String.eqb (set_delete_mode self kwargs) params.DELETE_MODE_TOMBSTONE
                  then Raise ResourceNotFoundException else Ok false, w1)).
  { unfold delete_resource.
    destruct (String.eqb (set_delete_mode self kwargs) _).
    - rewrite (fetch_item_deleted ResourceTable w1 id it); [done| |done].
      cbn. by rewrite Hw1.
    - cbn [length Nat.ltb Nat.leb].
      apply (simple_update_soft_already_marked _ _ _ _ _ _ it); [by rewrite Hw1| |done].
      unfold is_deleted in Hdel. by destruct (it !! params.DELETED). }
  subst w1. by destruct (String.eqb (_delete_mode self) params.DELETE_MODE_TOMBSTONE).
Qed.

(** C4, the claim refuted: under tombstone mode the second delete of an item
    raises [ResourceNotFound]; it does not return [false]. *)
Lemma C4_tombstone_delete_of_deleted_item_raises :
  exists w',
    delete_item example_labels tombstone_namespace "A" caller whole_item "t1" store_A_red
      = (Ok true, w')
    /\ delete_item example_labels tombstone_namespace "A" caller whole_item "t2" w'
       = (Raise ResourceNotFoundException, w').
Proof. eexists. split; [reflexivity|]. vm_compute. reflexivity. Qed.

(** C4, an instance: the deleted item [A], under a soft-delete namespace and
    under a tombstone namespace. *)
Lemma C4_delete_of_deleted_item_witness :
  (whole_item_delete whole_item
   /\ resource_table store_A_deleted !! "A"
      = Some ({[ "id" := PStr "A"; "color" := PStr "red"; "Deleted" := PInt 1 ]} : item))
  /\ (exists w',
        resource_table w' = resource_table store_A_deleted
        /\ delete_item example_labels soft_namespace "A" caller whole_item "t2" store_A_deleted
           = (Ok false, w'))
  /\ (exists w',
        resource_table w' = resource_table store_A_deleted
        /\ delete_item example_labels tombstone_namespace "A" caller whole_item "t2"
             store_A_deleted
           = (Raise ResourceNotFoundException, w')).
Proof.
  split; [split; [split; reflexivity | vm_compute; reflexivity]|].
  split.
  - apply (C4_delete_of_deleted_item example_labels soft_namespace "A" caller whole_item
             "t2" store_A_deleted
             {[ "id" := PStr "A"; "color" := PStr "red"; "Deleted" := PInt 1 ]}).
    + split; reflexivity.
    + vm_compute; reflexivity.
    + vm_compute; reflexivity.
    + by_computation.
  - apply (C4_delete_of_deleted_item example_labels tombstone_namespace "A" caller whole_item
             "t2" store_A_deleted
             {[ "id" := PStr "A"; "color" := PStr "red"; "Deleted" := PInt 1 ]}).
    + split; reflexivity.
    + vm_compute; reflexivity.
    + vm_compute; reflexivity.
    + by_computation.
Defined.

(** C5 (code defect). A soft delete marks the item under [params.DELETED];
    [restore] looks for the mark, and clears it, under the literal name
    [deleted]. The restore of a soft deleted item therefore fails its own
    condition and raises [InvalidArguments], and the item stays deleted. *)
Theorem C5_restore_of_soft_deleted_item_is_refused :
  exists w',
    delete_item example_labels soft_namespace "A" caller whole_item "t1" store_A_red
      = (Ok true, w')
    /\ resource_table w' !! "A"
       = Some ({[ "id" := PStr "A"; "color" := PStr "red"; "Deleted" := PInt 1;
                  "ItemVersion" := PInt 1; "LastUpdateDate" := PStr "t1";
                  "LastUpdatedBy" := caller;
                  "LastUpdateAction" := PStr "Delete" ]} : item)
    /\ restore example_labels soft_namespace "A" caller "t2" w'
       = (Raise InvalidArgumentsException, w')
    /\ get example_environment soft_namespace (PStr "A") true w'
       = Raise ResourceNotFoundException.
Proof.
  eexists. split; [reflexivity|]. repeat split; vm_compute; reflexivity.
Qed.

(** ** Find: index lookup and scan (C6) *)

(** C6 (code defect). [color] is indexed. A find on [color] alone takes the
    index path with an empty document of remaining filters, for which
    [_get_filter_expression] returns the empty string and not [None]; the
    filter sent to the store ends in [and], and the store refuses it. The
    scan with the same criterion as filter answers with the red item. (With
    a second criterion the remaining filter is not empty, and the two paths
    agree.) *)
Theorem C6_index_path_fails_where_scan_answers :
  find example_environment soft_namespace (find_resource [("color", PStr "red")])
       store_colours
    = Raise ValidationException
  /\ FilterExpression (filtered_read_args None None None (Some []))
    = Some "(attribute_not_exists(#deleted) or #deleted <> :deleted) and "
  /\ _perform_scan example_environment soft_namespace ResourceTable None
       (Some [("color", PStr "red")]) false plain_read store_colours
    = Ok {| res_LastEvaluatedKey := None;
            res_Items := [ {[ "id" := PStr "A"; "color" := PStr "red" ]} ] |}
  /\ find example_environment soft_namespace
       (find_resource [("color", PStr "red"); ("id", PStr "A")]) store_colours
    = _perform_scan example_environment soft_namespace ResourceTable None
        (Some [("color", PStr "red"); ("id", PStr "A")]) false plain_read store_colours.
Proof.
  repeat split; vm_compute; reflexivity.
Qed.

(** ** Updates and deletes: the master link (C7) and the Metadata write (C9) *)



(** C7 (code defect). [delete] means to refuse the removal of the master
    link ([Cannot remove ItemMasterID]), but it only tests whether the name is
    an element of the attribute list, and [remove_resource_attributes] writes
    the elements into the update expression as they are. Item [B] of
    [store_linked] has the master [A]. The list [["color"; "ItemMasterID"]]
    is refused. The list [[" ItemMasterID"]] is not: the delete returns
    [true] and the stored item has lost its master link. The list
    [["x SET ItemMasterID = :lub"]] is not refused either: the delete returns
    [true] and the stored master link is the identity of the caller. *)
Theorem C7_delete_guard_misses_spliced_names :
  let item_B : item :=
    {[ "id" := PStr "B"; "color" := PStr "blue"; "ItemMasterID" := PStr "A" ]} in
  let written (it : item) : world :=
    set_table_rows ResourceTable
      (<["B" := stamped it caller "RemoveAttribute" "t1" 1]> (resource_table store_linked))
      store_linked in
  resource_table store_linked !! "B" = Some item_B
  /\ delete_item example_labels soft_namespace "B" caller unlink "t1" store_linked
     = (Raise InvalidArgumentsException, store_linked)
  /\ delete_item example_labels soft_namespace "B" caller unlink_spaced "t1" store_linked
     = (Ok true, written (delete "ItemMasterID" item_B))
  /\ delete_item example_labels soft_namespace "B" caller relink_spliced "t1" store_linked
     = (Ok true, written (<["ItemMasterID" := caller]> item_B)).
Proof. repeat split; vm_compute; reflexivity. Qed.

(** C9 (confirmed). When an update carries Metadata and a Resource document,
    the Metadata is written first; if the update then raises, for whatever
    reason the Resource part is rejected, the Metadata table is the one the
    Metadata write left, and its row for the item is the row as written:
    nothing rolls the write back. *)
Theorem C9_metadata_write_survives_rejected_resource L self c id kwargs now_meta now w m r a w1 :
  upd_Metadata kwargs = Some m ->
  upd_Resource kwargs = Some r ->
  _do_update L self MetadataTable (get_metaid id) (Some m) c now_meta None false None w
    = (Ok a, w1) ->
  forall e w',
    update_item L self c id kwargs now_meta now w = (Raise e, w') ->
    metadata_table w' = metadata_table w1
    /\ metadata_table w' !! get_metaid id = Some a.
Proof.
  intros HM HR Hd e w'. unfold update_item. rewrite HM, HR, Hd.
  rewrite (bool_decide_true (is_Some (Some m))) by eauto. cbn [negb orb].
  intros Hp. apply update_resource_part_metadata in Hp. split; [done|].
  rewrite Hp. by apply do_update_stores in Hd.
Qed.

(** C9, an instance: the Resource part is rejected for naming the master
    link, and the note of the same request is in the Metadata table. *)
Lemma C9_metadata_write_survives_rejected_resource_witness :
  let metadata_write :=
    _do_update example_labels soft_namespace MetadataTable (get_metaid "A")
      (Some {[ "note" := PStr "checked" ]}) caller "t0" None false None store_A_red in
  let update :=
    update_item example_labels soft_namespace caller "A" annotate_and_relink "t0" "t1"
      store_A_red in
  fst metadata_write = Ok annotated
  /\ fst update = Raise InvalidArgumentsException
  /\ metadata_table store_A_red !! "A-meta" = None
  /\ metadata_table (snd update) = metadata_table (snd metadata_write)
  /\ metadata_table (snd update) !! get_metaid "A" = Some annotated.
Proof.
  intros metadata_write update.
  assert (Hwrite : metadata_write = (Ok annotated, snd metadata_write))
    by (vm_compute; reflexivity).
  assert (Hupdate : update = (Raise InvalidArgumentsException, snd update))
    by (vm_compute; reflexivity).
  split; [vm_compute; reflexivity|].
  split; [vm_compute; reflexivity|].
  split; [reflexivity|].
  exact (C9_metadata_write_survives_rejected_resource example_labels soft_namespace caller
           "A" annotate_and_relink "t0" "t1" store_A_red
           {[ "note" := PStr "checked" ]} {[ "ItemMasterID" := PStr "C" ]}
           annotated (snd metadata_write) eq_refl eq_refl Hwrite
           InvalidArgumentsException (snd update) Hupdate).
Defined.

(** ** The facade: [RemoveItemMaster] (C10) and [Get] (C8) *)

(** C10 (corrected). [item_master_delete] for a stored item that has no
    [ItemMasterID]: when the item is not deleted, the operation returns
    [true] and leaves the store as it was, whatever master the request
    asserts; when the item is deleted, the operation raises
    [ResourceNotFound], and again leaves the store as it was, because the
    [get] of the storage handler does not return a deleted item. And when the
    operation raises [InvalidArguments], the item has a stored master that is
    not the asserted one. *)
Theorem C10_remove_item_master_without_master L E self ident kwargs now w :
  (forall id it,
     kwargs !! _pk_name self = Some (PStr id) ->
     resource_table w !! id = Some it ->
     it !! params.ITEM_MASTER_ID = None ->
     (is_deleted it = false ->
      metadata_keyed self id w ->
      AwsDataAPI.item_master_delete L E self ident kwargs now w = (Ok true, w))
     /\ (is_deleted it = true ->
         AwsDataAPI.item_master_delete L E self ident kwargs now w
         = (Raise ResourceNotFoundException, w)))
  /\ (forall w',
        AwsDataAPI.item_master_delete L E self ident kwargs now w
          = (Raise InvalidArgumentsException, w') ->
        exists id it m,
          kwargs !! _pk_name self = Some (PStr id)
          /\ resource_table w !! id = Some it
          /\ it !! params.ITEM_MASTER_ID = Some m
          /\ py_eq m PNone = false
          /\ py_eq m (default PNone (kwargs !! params.ITEM_MASTER_ID)) = false).
Proof.
  split.
  - intros id it Hk Hrow Hnone. split.
    + intros Hlive Hmeta.
      unfold AwsDataAPI.item_master_delete. rewrite Hk. cbn -[get].
      destruct (get_live E self id w it Hrow Hlive Hmeta) as [meta ->].
      cbn. by rewrite Hnone.
    + intros Hdel.
      unfold AwsDataAPI.item_master_delete. rewrite Hk. cbn -[get].
      unfold get. by rewrite (fetch_item_deleted ResourceTable w id it).
  - intros w'. unfold AwsDataAPI.item_master_delete.
    destruct (py_eq (default PNone (kwargs !! _pk_name self)) PNone) eqn:Hid; [done|].
    destruct (get E self _ false w) as [cur|e] eqn:Hg.
    2: { intros [= -> _]. by apply get_raise in Hg. }
    destruct (AwsDataAPI.resource_of cur) as [r|e] eqn:Hr.
    2: { destruct cur as [[a [r|] mt]|]; cbn in Hr; by simplify_eq. }
    destruct (get_inv _ _ _ _ _ _ _ Hg Hr) as (s & Hs & Hrow).
    destruct (kwargs !! _pk_name self) as [v|] eqn:Hk; simplify_eq/=.
    destruct (r !! params.ITEM_MASTER_ID) as [m|] eqn:Hm;
      cbn -[py_eq remove_resource_attributes]; [|done].
    destruct (py_eq m PNone) eqn:Hn; [done|].
    destruct (py_eq m (default _ _)) eqn:Ha; cbn [negb].
    + intros H. unfold remove_resource_attributes in H.
      apply simple_update_raise in H as [e' [=]].
    + intros _. exists s, r, m. by repeat split.
Qed.

(** C10, the claim refuted: the deleted item [A] of [store_A_deleted] has
    no master link, and the request to remove its master raises
    [ResourceNotFound]. *)
Lemma C10_deleted_item_without_master_is_not_found :
  let item_A : item := {[ "id" := PStr "A"; "color" := PStr "red"; "Deleted" := PInt 1 ]} in
  resource_table store_A_deleted !! "A" = Some item_A
  /\ item_A !! params.ITEM_MASTER_ID = None
  /\ AwsDataAPI.item_master_delete example_labels example_environment soft_namespace caller
       (unlink_request "A" "Z") "t1" store_A_deleted
     = (Raise ResourceNotFoundException, store_A_deleted).
Proof. repeat split; vm_compute; reflexivity. Qed.

(** C10, an instance: in [store_linked], [A] has no master and [B] has
    master [A], and both requests assert the master [Z]; in
    [store_A_deleted], [A] has no master and is deleted. *)
Lemma C10_remove_item_master_without_master_witness :
  AwsDataAPI.item_master_delete example_labels example_environment soft_namespace caller
    (unlink_request "A" "Z") "t1" store_linked
  = (Ok true, store_linked)
  /\ AwsDataAPI.item_master_delete example_labels example_environment soft_namespace caller
       (unlink_request "A" "Z") "t1" store_A_deleted
     = (Raise ResourceNotFoundException, store_A_deleted)
  /\ (AwsDataAPI.item_master_delete example_labels example_environment soft_namespace caller
        (unlink_request "B" "Z") "t1" store_linked
      = (Raise InvalidArgumentsException, store_linked)
      /\ exists id it m,
           unlink_request "B" "Z" !! _pk_name soft_namespace = Some (PStr id)
           /\ resource_table store_linked !! id = Some it
           /\ it !! params.ITEM_MASTER_ID = Some m
           /\ py_eq m PNone = false
           /\ py_eq m (default PNone (unlink_request "B" "Z" !! params.ITEM_MASTER_ID))
              = false).
Proof.
  split; [|split; [|split]].
  - apply (proj1 (proj1 (C10_remove_item_master_without_master example_labels
                           example_environment soft_namespace caller
                           (unlink_request "A" "Z") "t1" store_linked)
                    "A" {[ "id" := PStr "A"; "color" := PStr "red" ]}
                    ltac:(vm_compute; reflexivity) ltac:(vm_compute; reflexivity)
                    ltac:(vm_compute; reflexivity))).
    + reflexivity.
    + intros m Hm. vm_compute in Hm. discriminate Hm.
  - apply (proj2 (proj1 (C10_remove_item_master_without_master example_labels
                           example_environment soft_namespace caller
                           (unlink_request "A" "Z") "t1" store_A_deleted)
                    "A" {[ "id" := PStr "A"; "color" := PStr "red"; "Deleted" := PInt 1 ]}
                    ltac:(vm_compute; reflexivity) ltac:(vm_compute; reflexivity)
                    ltac:(vm_compute; reflexivity))).
    reflexivity.
  - vm_compute; reflexivity.
  - apply (proj2 (C10_remove_item_master_without_master example_labels example_environment
                    soft_namespace caller (unlink_request "B" "Z") "t1" store_linked)
             store_linked).
    vm_compute; reflexivity.
Defined.

(** C8 (corrected). For an item that carries a master link: without a
    master option the response holds the item alone; with [include] it holds
    the item and the master; with [prefer] it holds the master alone, in the
    master slot, and the item is left out. The options are compared without
    regard to case; the master is the record the storage handler returns for
    the link. *)
Theorem C8_get_master_options E self id fetch_id suppress w it r m master :
  AwsDataAPI._validate_arn_id E self id = Ok fetch_id ->
  get E self (PStr fetch_id) suppress w = Ok (Some it) ->
  Resource it = Some r ->
  r !! params.ITEM_MASTER_ID = Some m ->
  get E self m false w = Ok master ->
  AwsDataAPI.get E self id None suppress w
    = Ok {| AwsDataAPI.Item := Some it; AwsDataAPI.Master := None |}
  /\ (forall option,
        lower option = params.ITEM_MASTER_INCLUDE ->
        AwsDataAPI.get E self id (Some option) suppress w
        = Ok {| AwsDataAPI.Item := Some it; AwsDataAPI.Master := Some master |})
  /\ (forall option,
        lower option = params.ITEM_MASTER_PREFER ->
        AwsDataAPI.get E self id (Some option) suppress w
        = Ok {| AwsDataAPI.Item := None; AwsDataAPI.Master := Some master |}).
Proof.
  intros Hid Hget HR Hm Hmaster.
  assert (Hres : AwsDataAPI.resource_of (Some it) = Ok r).
  { unfold AwsDataAPI.resource_of. by rewrite HR. }
  repeat split.
  - unfold AwsDataAPI.get. rewrite Hid, Hget, Hres, Hm.
    rewrite (bool_decide_true (is_Some (Some m))) by eauto.
    rewrite (bool_decide_false (is_Some None)) by (by intros [? ?]).
    reflexivity.
  - intros option Ho. unfold AwsDataAPI.get. rewrite Hid, Hget, Hres, Hm.
    rewrite (bool_decide_true (is_Some (Some m))) by eauto.
    rewrite Ho. cbn -[get]. by rewrite Hmaster.
  - intros option Ho. unfold AwsDataAPI.get. rewrite Hid, Hget, Hres, Hm.
    rewrite (bool_decide_true (is_Some (Some m))) by eauto.
    rewrite (bool_decide_true (is_Some (Some option))) by eauto.
    rewrite Ho. cbn -[get]. by rewrite Hmaster.
Qed.

(** C8, the claim refuted: with [prefer] the item [B] is not in the
    response. *)
Lemma C8_prefer_omits_the_item :
  AwsDataAPI.get example_environment soft_namespace "B" (Some "prefer") false store_linked
  = Ok {| AwsDataAPI.Item := None;
          AwsDataAPI.Master :=
            Some (Some (api_item_of "A" {[ "id" := PStr "A"; "color" := PStr "red" ]})) |}.
Proof. vm_compute. reflexivity. Qed.

(** C8, an instance: item [B] of [store_linked], whose master is [A]. *)
Lemma C8_get_master_options_witness :
  let item_B := api_item_of "B" {[ "id" := PStr "B"; "color" := PStr "blue";
                                   "ItemMasterID" := PStr "A" ]} in
  let item_A := api_item_of "A" {[ "id" := PStr "A"; "color" := PStr "red" ]} in
  AwsDataAPI.get example_environment soft_namespace "B" None false store_linked
    = Ok {| AwsDataAPI.Item := Some item_B; AwsDataAPI.Master := None |}
  /\ AwsDataAPI.get example_environment soft_namespace "B" (Some "Include") false store_linked
    = Ok {| AwsDataAPI.Item := Some item_B; AwsDataAPI.Master := Some (Some item_A) |}
  /\ AwsDataAPI.get example_environment soft_namespace "B" (Some "prefer") false store_linked
    = Ok {| AwsDataAPI.Item := None; AwsDataAPI.Master := Some (Some item_A) |}.
Proof.
  intros item_B item_A.
  destruct (C8_get_master_options example_environment soft_namespace "B" "B" false
              store_linked item_B
              {[ "id" := PStr "B"; "color" := PStr "blue"; "ItemMasterID" := PStr "A" ]}
              (PStr "A") (Some item_A))
    as (Habsent & Hinclude & Hprefer).
  - vm_compute; reflexivity.
  - vm_compute; reflexivity.
  - reflexivity.
  - vm_compute; reflexivity.
  - vm_compute; reflexivity.
  - split; [exact Habsent|]. split.
    + apply Hinclude. vm_compute; reflexivity.
    + apply Hprefer. vm_compute; reflexivity.
Defined.

(** * Further properties of the code *)

(** ** Strings *)

Lemma append_cons c (a b : string) : String c a +:+ b = String c (a +:+ b).
Proof. reflexivity. Qed.

Lemma append_nil_l (b : string) : EmptyString +:+ b = b.
Proof. reflexivity. Qed.

Lemma append_nil_r (a : string) : a +:+ EmptyString = a.
Proof. induction a as [|x a IH]; [done|]. by rewrite append_cons, IH. Qed.

Lemma append_assoc (a b c : string) : (a +:+ b) +:+ c = a +:+ (b +:+ c).
Proof. induction a as [|x a IH]; [done|]. by rewrite !append_cons, IH. Qed.

Lemma colon_free_cons c s :
  colon_free (String c s) -> Ascii.eqb c ":" = false /\ colon_free s.
Proof.
  unfold colon_free. cbn. intros H. apply orb_false_iff in H as [H1 H2].
  split; [|done]. destruct (Ascii.eqb_spec c ":") as [->|]; [|done].
  cbn in H1. by destruct s.
Qed.

Lemma split_colon_free cur a :
  colon_free a -> AwsDataAPI.split_colon cur a = [cur +:+ a].
Proof.
  revert cur. induction a as [|c a IH]; intros cur H; cbn.
  - by rewrite append_nil_r.
  - apply colon_free_cons in H as [-> H]. rewrite IH by done.
    by rewrite append_assoc.
Qed.

Lemma split_colon_app cur a rest :
  colon_free a ->
  AwsDataAPI.split_colon cur (a +:+ ":" +:+ rest)
  = (cur +:+ a) :: AwsDataAPI.split_colon EmptyString rest.
Proof.
  revert cur. induction a as [|c a IH]; intros cur H.
  - rewrite append_nil_l. change (":" +:+ rest) with (String ":" rest). cbn.
    by rewrite append_nil_r.
  - apply colon_free_cons in H as [Hc H]. rewrite append_cons. cbn.
    rewrite Hc, IH by done. by rewrite append_assoc.
Qed.

Lemma prefix_app (a b : string) : String.prefix a (a +:+ b) = true.
Proof.
  induction a as [|c a IH]; [by destruct b|].
  rewrite append_cons. cbn. by destruct (ascii_dec c c).
Qed.

Lemma str_in_prefix (a b : string) : str_in a (a +:+ b) = true.
Proof.
  assert (H := prefix_app a b).
  destruct (a +:+ b) as [|c s]; [by destruct a|].
  change (str_in a (String c s)) with (String.prefix a (String c s) || str_in a s).
  by rewrite H.
Qed.

Lemma split_colon_arn E self id :
  colon_free (AWS_DATA_API_SHORTNAME E) -> colon_free (AWS_REGION E) ->
  colon_free (_deployed_account self) -> colon_free (_table_name self) ->
  AwsDataAPI.split_colon EmptyString (get_arn E self id)
  = ["arn"; "aws"; AWS_DATA_API_SHORTNAME E; AWS_REGION E; _deployed_account self;
     _table_name self] ++ AwsDataAPI.split_colon EmptyString id.
Proof.
  intros Hs Hr Ha Ht. unfold get_arn, get_arn_base.
  rewrite !append_assoc.
  change ("arn:aws:" +:+ ?x) with ("arn" +:+ ":" +:+ "aws" +:+ ":" +:+ x).
  rewrite !split_colon_app by done. reflexivity.
Qed.

(** ** Item addresses: [get_arn], [versioned_arn], [shred_arn] *)

(** The address [get_arn] gives an item (the [ItemARN] of every response)
    is not accepted back as an id: it has seven fields, and for seven fields
    [shred_arn] calls its inner [_get_arn] without the argument it requires.
    [_validate_arn_id] raises [TypeError] before it compares account, table
    or region. *)
Theorem get_arn_is_refused E self id :
  colon_free (AWS_DATA_API_SHORTNAME E) -> colon_free (AWS_REGION E) ->
  colon_free (_deployed_account self) -> colon_free (_table_name self) ->
  colon_free id ->
  unquote E (get_arn E self id) = get_arn E self id ->
  AwsDataAPI._validate_arn_id E self (get_arn E self id) = Raise TypeError.
Proof.
  intros Hs Hr Ha Ht Hi Hq. unfold AwsDataAPI._validate_arn_id. rewrite Hq.
  assert (Hin : str_in (get_arn_base E) (get_arn E self id) = true).
  { unfold get_arn. rewrite ?append_assoc. apply str_in_prefix. }
  rewrite Hin. unfold AwsDataAPI.shred_arn.
  rewrite split_colon_arn by done. rewrite (split_colon_free _ id) by done.
  assert (Hc : str_in ":" (get_arn E self id) = true) by reflexivity.
  rewrite Hc. reflexivity.
Qed.

(** An instance: item [A] of the example namespace. *)
Lemma get_arn_is_refused_witness :
  get_arn example_environment soft_namespace "A" = "arn:aws:dapi:eu-west-1:123456789012:Things:A"
  /\ AwsDataAPI._validate_arn_id example_environment soft_namespace
       "arn:aws:dapi:eu-west-1:123456789012:Things:A" = Raise TypeError.
Proof.
  split; [reflexivity|].
  apply (get_arn_is_refused example_environment soft_namespace "A"); reflexivity.
Defined.

(** The versioned address of an item is accepted back and gives the id of
    the item, provided the caller's account is the account the namespace is
    deployed in and the region of the process is the region of the
    namespace; otherwise it is answered with [ResourceNotFound]. *)
Theorem versioned_arn_round_trip E self id v :
  colon_free (AWS_DATA_API_SHORTNAME E) -> colon_free (AWS_REGION E) ->
  colon_free (_deployed_account self) -> colon_free (_table_name self) ->
  colon_free id -> colon_free v ->
  unquote E (versioned_arn E self id v) = versioned_arn E self id v ->
  AwsDataAPI._validate_arn_id E self (versioned_arn E self id v)
  = if negb (String.eqb (caller_account E) (_deployed_account self))
       || negb (String.eqb (AWS_REGION E) (_region self))
    then Raise ResourceNotFoundException else Ok id.
Proof.
  intros Hs Hr Ha Ht Hi Hv Hq. unfold AwsDataAPI._validate_arn_id. rewrite Hq.
  assert (Hin : str_in (get_arn_base E) (versioned_arn E self id v) = true).
  { unfold versioned_arn, get_arn. rewrite ?append_assoc. apply str_in_prefix. }
  rewrite Hin. unfold AwsDataAPI.shred_arn.
  assert (Hc : str_in ":" (versioned_arn E self id v) = true) by reflexivity.
  rewrite Hc. cbn [negb].
  assert (Hsplit : AwsDataAPI.split_colon EmptyString (versioned_arn E self id v)
    = ["arn"; "aws"; AWS_DATA_API_SHORTNAME E; AWS_REGION E; _deployed_account self;
       _table_name self; id; v]).
  { unfold versioned_arn, get_arn, get_arn_base. rewrite !append_assoc.
    change ("arn:aws:" +:+ ?x) with ("arn" +:+ ":" +:+ "aws" +:+ ":" +:+ x).
    rewrite !split_colon_app by done. by rewrite split_colon_free. }
  rewrite Hsplit. cbn.
  rewrite String.eqb_refl. cbn.
  destruct (String.eqb (caller_account E) _); cbn; [|done].
  by destruct (String.eqb (AWS_REGION E) _).
Qed.

(** An instance: version 3 of item [A] of the example namespace. *)
Lemma versioned_arn_round_trip_witness :
  AwsDataAPI._validate_arn_id example_environment soft_namespace
    "arn:aws:dapi:eu-west-1:123456789012:Things:A:3" = Ok "A".
Proof.
  apply (versioned_arn_round_trip example_environment soft_namespace "A" "3"); reflexivity.
Defined.

(** ** Soft delete of a live item *)

Lemma not_reserved self :
  _pk_name self ∉ reserved_fields ->
  _pk_name self ∉ ["Deleted"; "LastUpdateDate"; "LastUpdatedBy"; "LastUpdateAction";
                   "ItemVersion"].
Proof. unfold reserved_fields. rewrite !not_elem_of_cons. tauto. Qed.

Lemma simple_update_soft_live self id c action now w it :
  resource_table w !! id = Some it ->
  it !! params.DELETED = None ->
  _pk_name self ∉ reserved_fields ->
  _simple_update self id ResourceTable "SET #del = :del" c action now w
  = match next_version it with
    | Some v =>
        (Ok true,
         set_table_rows ResourceTable
           (<[id := stamped (<[params.DELETED := PInt 1]> it) c action now v]>
              (resource_table w)) w)
    | None => (Raise (DetailedException ValidationException), w)
    end.
Proof.
  intros Hrow Hdel Hpk. unfold _simple_update.
  change (str_in "#del" "SET #del = :del") with true.
  change (str_in ":true" "SET #del = :del") with false.
  cbv iota.
  set (args := decorate_update_request _ _ _ _ _).
  unfold table_update_item.
  rewrite (ddb_update_item_text _ _ args (_pk_name self) id
             [ASet (Placeholder "#del") ":del"; ASet (Placeholder "#lud") ":lud";
              ASet (Placeholder "#lub") ":lub"; ASet (Placeholder "#lua") ":lua";
              AAdd (Placeholder "#ItemVersion") ":incr"]
             "attribute_not_exists(#del)" (CNotExists (Placeholder "#del"))
             ["Deleted"; "LastUpdateDate"; "LastUpdatedBy"; "LastUpdateAction";
              "ItemVersion"])
    by (vm_compute; reflexivity).
  rewrite checked_update_intro;
    [|vm_compute; reflexivity|by_computation|by apply not_reserved].
  cbn [table_rows]. rewrite Hrow. cbn [default cond_holds]. change (Datatypes.id it) with it.
  unfold has_attr.
  replace (resolve (names_of (ExpressionAttributeNames args)) (Placeholder "#del"))
    with (Some params.DELETED) by (vm_compute; reflexivity).
  rewrite Hdel. rewrite bool_decide_false by (by intros [? ?]). cbn [negb].
  assert (Hn : forall k v,
    ({[ "#del" := "Deleted"; "#lud" := "LastUpdateDate"; "#lub" := "LastUpdatedBy";
        "#lua" := "LastUpdateAction"; "#ItemVersion" := "ItemVersion" ]}
       : gmap string string) !! k = Some v ->
    names_of (ExpressionAttributeNames args) !! k = Some v).
  { intros k v H. rewrite <- H. f_equal; try (vm_compute; reflexivity). }
  assert (Hv : forall k v,
    ({[ ":del" := PInt 1; ":lud" := PStr now; ":lub" := c; ":lua" := PStr action;
        ":incr" := PInt 1 ]} : gmap string pyval) !! k = Some v ->
    values_of (ExpressionAttributeValues args) !! k = Some v).
  { intros k v H. rewrite <- H. f_equal; try (vm_compute; reflexivity). }
  cbn [apply_actions apply_action resolve action_path].
  repeat (erewrite Hn by reflexivity). repeat (erewrite Hv by reflexivity).
  cbn [mbind option_bind].
  rewrite !lookup_insert_ne by done.
  unfold next_version, stamped.
  change (it !! "ItemVersion") with (it !! params.ITEM_VERSION).
  destruct (it !! params.ITEM_VERSION) as [[]|]; cbn; by destruct w.
Qed.

(** The outcome of a whole-item delete of a stored item without the
    [Deleted] marker, delete mode in force not tombstone: [w1] is the store
    after the Metadata part of the operation. *)
Lemma delete_item_soft_live L self id c kwargs now w it v :
  whole_item_delete kwargs ->
  String.eqb (set_delete_mode self kwargs) params.DELETE_MODE_TOMBSTONE = false ->
  resource_table w !! id = Some it ->
  it !! params.DELETED = None ->
  next_version it = Some v ->
  _pk_name self ∉ reserved_fields ->
  let w1 := snd (if String.eqb (_delete_mode self) params.DELETE_MODE_TOMBSTONE
                 then delete_metadata id w else (Ok false, w)) in
  delete_item L self id c kwargs now w
  = (Ok true,
     set_table_rows ResourceTable
       (<[id := stamped (<[params.DELETED := PInt 1]> it) c (ACTION_DELETE L) now v]>
          (resource_table w)) w1).
Proof.
  intros [HR HM] Hmode Hrow Hdel Hv Hpk w1. unfold delete_item. rewrite HR, HM.
  assert (Hw1 : resource_table w1 = resource_table w).
  { subst w1. by destruct (String.eqb (_delete_mode self) _). }
  assert (Hd : delete_resource L self id c kwargs now w1
               = (Ok true,
                  set_table_rows ResourceTable
                    (<[id := stamped (<[params.DELETED := PInt 1]> it) c (ACTION_DELETE L)
                               now v]> (resource_table w)) w1)).
  { unfold delete_resource. rewrite Hmode. cbn -[_simple_update].
    rewrite (simple_update_soft_live _ _ _ _ _ _ it) by (by rewrite ?Hw1).
    by rewrite Hv, Hw1. }
  revert Hd. clear. subst w1.
  by destruct (String.eqb (_delete_mode self) params.DELETE_MODE_TOMBSTONE).
Qed.

(** A whole-item delete, with a delete mode in force that is not tombstone,
    of an item that is stored and carries no [Deleted] marker: the operation
    returns [true]; the stored item gets [Deleted = 1], the audit fields of
    the delete and the next version, and keeps every other attribute. The
    Metadata row is deleted when the delete mode the namespace is configured
    with is tombstone (whatever mode the request asked for), and is left
    alone otherwise. *)
Theorem soft_delete_of_live_item L self id c kwargs now w it v :
  whole_item_delete kwargs ->
  String.eqb (set_delete_mode self kwargs) params.DELETE_MODE_TOMBSTONE = false ->
  resource_table w !! id = Some it ->
  it !! params.DELETED = None ->
  next_version it = Some v ->
  _pk_name self ∉ reserved_fields ->
  exists w',
    delete_item L self id c kwargs now w = (Ok true, w')
    /\ resource_table w'
       = <[id := stamped (<[params.DELETED := PInt 1]> it) c (ACTION_DELETE L) now v]>
           (resource_table w)
    /\ metadata_table w'
       = (if String.eqb (_delete_mode self) params.DELETE_MODE_TOMBSTONE
          then delete (get_metaid id) (metadata_table w) else metadata_table w).
Proof.
  intros Hwhole Hmode Hrow Hdel Hv Hpk.
  eexists. split; [by apply (delete_item_soft_live L self id c kwargs now w it v)|].
  split; [reflexivity|].
  cbn [metadata_table set_table_rows].
  by destruct (String.eqb (_delete_mode self) params.DELETE_MODE_TOMBSTONE).
Qed.

(** An instance: the red item [A] in the soft-delete namespace. *)
Lemma soft_delete_of_live_item_witness :
  exists w',
    delete_item example_labels soft_namespace "A" caller whole_item "t1" store_A_red
    = (Ok true, w')
    /\ resource_table w'
       = <["A" := stamped (<[params.DELETED := PInt 1]>
                             {[ "id" := PStr "A"; "color" := PStr "red" ]})
                    caller (ACTION_DELETE example_labels) "t1" 1]>
           (resource_table store_A_red)
    /\ metadata_table w'
       = (if String.eqb (_delete_mode soft_namespace) params.DELETE_MODE_TOMBSTONE
          then delete (get_metaid "A") (metadata_table store_A_red)
          else metadata_table store_A_red).
Proof.
  apply (soft_delete_of_live_item example_labels soft_namespace "A" caller whole_item "t1"
           store_A_red {[ "id" := PStr "A"; "color" := PStr "red" ]} 1).
  - split; reflexivity.
  - reflexivity.
  - vm_compute; reflexivity.
  - vm_compute; reflexivity.
  - vm_compute; reflexivity.
  - by_computation.
Defined.

Lemma stamped_deleted it c action now v :
  is_deleted (stamped (<[params.DELETED := PInt 1]> it) c action now v) = true.
Proof.
  unfold is_deleted, stamped. rewrite !lookup_insert_ne by done.
  by rewrite lookup_insert_eq.
Qed.

(** After such a delete the item is not found by [get], [check] and
    [get_metadata], which raise [ResourceNotFound]; the record is still
    stored, and a forced fetch (the one [restore] starts with) returns it. *)
Theorem soft_deleted_item_is_not_found L E self id c kwargs now w it v suppress :
  whole_item_delete kwargs ->
  String.eqb (set_delete_mode self kwargs) params.DELETE_MODE_TOMBSTONE = false ->
  resource_table w !! id = Some it ->
  it !! params.DELETED = None ->
  next_version it = Some v ->
  _pk_name self ∉ reserved_fields ->
  let w' := snd (delete_item L self id c kwargs now w) in
  get E self (PStr id) suppress w' = Raise ResourceNotFoundException
  /\ check (PStr id) w' = Raise ResourceNotFoundException
  /\ get_metadata self (PStr id) w' = Raise ResourceNotFoundException
  /\ _fetch_item ResourceTable (PStr id) true w'
     = Ok (Some (stamped (<[params.DELETED := PInt 1]> it) c (ACTION_DELETE L) now v)).
Proof.
  intros Hwhole Hmode Hrow Hdel Hv Hpk.
  rewrite (delete_item_soft_live L self id c kwargs now w it v) by done.
  cbn [snd]. set (w1 := set_table_rows ResourceTable _ _).
  assert (Hrow1 : table_rows ResourceTable w1 !! id
                  = Some (stamped (<[params.DELETED := PInt 1]> it) c (ACTION_DELETE L)
                            now v)).
  { apply lookup_insert_eq. }
  assert (Hf := fetch_item_deleted ResourceTable w1 id _ Hrow1 (stamped_deleted _ _ _ _ _)).
  unfold get, check, get_metadata, check. rewrite Hf. repeat split.
  unfold _fetch_item, ddb_get_item. rewrite Hrow1.
  set (it' := stamped _ _ _ _ _).
  destruct (it' !! params.DELETED) as [d|]; [by destruct (py_eq d (PInt 0))|done].
Qed.

(** An instance: the red item [A] in the soft-delete namespace. *)
Lemma soft_deleted_item_is_not_found_witness :
  let w' := snd (delete_item example_labels soft_namespace "A" caller whole_item "t1"
                   store_A_red) in
  get example_environment soft_namespace (PStr "A") false w'
    = Raise ResourceNotFoundException
  /\ check (PStr "A") w' = Raise ResourceNotFoundException
  /\ get_metadata soft_namespace (PStr "A") w' = Raise ResourceNotFoundException
  /\ _fetch_item ResourceTable (PStr "A") true w'
     = Ok (Some (stamped (<[params.DELETED := PInt 1]>
                            {[ "id" := PStr "A"; "color" := PStr "red" ]})
                   caller (ACTION_DELETE example_labels) "t1" 1)).
Proof.
  apply (soft_deleted_item_is_not_found example_labels example_environment soft_namespace
           "A" caller whole_item "t1" store_A_red
           {[ "id" := PStr "A"; "color" := PStr "red" ]} 1 false).
  - split; reflexivity.
  - reflexivity.
  - vm_compute; reflexivity.
  - vm_compute; reflexivity.
  - vm_compute; reflexivity.
  - by_computation.
Defined.

(** An item whose [Deleted] marker is 0 is live for the reads
    ([_fetch_item] returns it, [check] answers [true]) and yet cannot be
    deleted: the write of a delete requires that the marker be absent, so a
    whole-item delete (delete mode in force not tombstone) returns [false]
    and leaves the Resource table as it was. *)
Theorem item_marked_zero_cannot_be_deleted L self id c kwargs now w it d :
  whole_item_delete kwargs ->
  String.eqb (set_delete_mode self kwargs) params.DELETE_MODE_TOMBSTONE = false ->
  resource_table w !! id = Some it ->
  it !! params.DELETED = Some d ->
  py_eq d (PInt 0) = true ->
  _pk_name self ∉ reserved_fields ->
  check (PStr id) w = Ok true
  /\ exists w',
       delete_item L self id c kwargs now w = (Ok false, w')
       /\ resource_table w' = resource_table w.
Proof.
  intros [HR HM] Hmode Hrow Hd H0 Hpk. split.
  - unfold check, _fetch_item, ddb_get_item. cbn [table_rows]. by rewrite Hrow, Hd, H0.
  - unfold delete_item. rewrite HR, HM.
    set (w1 := snd (if String.eqb (_delete_mode self) params.DELETE_MODE_TOMBSTONE
                    then delete_metadata id w else (Ok false, w))).
    assert (Hw1 : resource_table w1 = resource_table w).
    { subst w1. by destruct (String.eqb (_delete_mode self) _). }
    assert (Hdel : delete_resource L self id c kwargs now w1 = (Ok false, w1)).
    { unfold delete_resource. rewrite Hmode. cbn -[_simple_update].
      apply (simple_update_soft_already_marked _ _ _ _ _ _ it); [by rewrite Hw1| |done].
      by rewrite Hd. }
    exists w1. split; [|done]. revert Hdel. clear. subst w1.
    by destruct (String.eqb (_delete_mode self) params.DELETE_MODE_TOMBSTONE).
Qed.

(** An instance: an item [A] with the marker at 0. *)
Lemma item_marked_zero_cannot_be_deleted_witness :
  let w := store_of {[ "A" := {[ "id" := PStr "A"; "Deleted" := PInt 0 ]} ]} ∅ in
  check (PStr "A") w = Ok true
  /\ exists w',
       delete_item example_labels soft_namespace "A" caller whole_item "t1" w = (Ok false, w')
       /\ resource_table w' = resource_table w.
Proof.
  apply (item_marked_zero_cannot_be_deleted example_labels soft_namespace "A" caller
           whole_item "t1" _ {[ "id" := PStr "A"; "Deleted" := PInt 0 ]} (PInt 0)).
  - split; reflexivity.
  - reflexivity.
  - vm_compute; reflexivity.
  - vm_compute; reflexivity.
  - reflexivity.
  - by_computation.
Defined.

(** ** [update_item]: what it leaves alone, and what a success stores *)

Lemma do_update_raise L self tbl id it c now v b cs w e w' :
  _do_update L self tbl id it c now v b cs w = (Raise e, w') -> w' = w.
Proof.
  unfold _do_update.
  destruct (_render_obj_as_update _ _ _) as [[names values] ue].
  match goal with |- context [match ?x with Ok _ => _ | Raise _ => _ end] =>
    destruct x as [[[ce an] av]|e0] end; [|by intros [= _ <-]].
  destruct (table_update_item _ _ _ _) as [[a|e0] w0] eqn:Hu; [done|].
  apply table_update_item_raise in Hu as ->.
  by destruct e0; intros [= _ <-].
Qed.

Lemma update_resource_part_raise L self c id kwargs it now w e w' :
  update_resource_part L self c id kwargs it now w = (Raise e, w') ->
  resource_table w' = resource_table w.
Proof.
  unfold update_resource_part.
  destruct (bool_decide _); [by intros [= _ <-]|].
  destruct (schema_reload_due _ _ _) as [due|e0]; [|by intros [= _ <-]].
  set (refreshed := if due then _refresh_schema w else (Ok (), w)).
  assert (Hm : resource_table (snd refreshed) = resource_table w).
  { subst refreshed. destruct due; [|done].
    destruct (_refresh_schema w) as [r0 w0] eqn:Hr.
    by apply refresh_schema_tables in Hr as [? _]. }
  destruct refreshed as [[[]|e0] w1]; cbn in Hm; [|by intros [= _ <-]].
  destruct (negb _); [by intros [= _ <-]|].
  destruct (_do_update _ _ _ _ _ _ _ _ _ _ _) as [[a|e0] w3] eqn:Hd.
  - intros H. repeat case_match; by simplify_eq.
  - apply do_update_raise in Hd as ->. by intros [= _ <-].
Qed.

(** [update_item] writes to the Metadata table only for a request that
    carries Metadata, and to the Resource table only for a request that
    carries a Resource; and an update that raises, for whatever reason and at
    whatever point, has not changed the Resource table. *)
Theorem update_item_frame L self c id kwargs now_meta now w r w' :
  update_item L self c id kwargs now_meta now w = (r, w') ->
  (upd_Metadata kwargs = None -> metadata_table w' = metadata_table w)
  /\ (upd_Resource kwargs = None -> resource_table w' = resource_table w)
  /\ (forall e, r = Raise e -> resource_table w' = resource_table w).
Proof.
  unfold update_item. destruct (negb _); [by intros [= <- <-]|].
  destruct (upd_Metadata kwargs) as [m|] eqn:HM.
  - destruct (_do_update _ _ _ _ _ _ _ _ _ _ _) as [[a|e0] w1] eqn:Hd.
    + apply do_update_other in Hd. cbn in Hd.
      destruct (upd_Resource kwargs) as [it|] eqn:HR.
      * intros Hu. split; [done|]. split; [done|]. intros e ->.
        apply update_resource_part_raise in Hu. congruence.
      * intros [= <- <-]. by repeat split.
    + apply do_update_raise in Hd as ->. intros [= <- <-]. by repeat split.
  - destruct (upd_Resource kwargs) as [it|] eqn:HR.
    + intros Hu. split; [|split; [done|]].
      * intros _. by apply update_resource_part_metadata in Hu.
      * intros e ->. by apply update_resource_part_raise in Hu.
    + intros [= <- <-]. by repeat split.
Qed.

(** An instance: the update of [A] that carries a note for the Metadata and
    a Resource document naming the master link is refused, and the Resource
    table is as it was. *)
Lemma update_item_frame_witness :
  let r := update_item example_labels soft_namespace caller "A" annotate_and_relink
             "t0" "t1" store_A_red in
  fst r = Raise InvalidArgumentsException
  /\ resource_table (snd r) = resource_table store_A_red.
Proof.
  intros r. split; [vm_compute; reflexivity|].
  apply (proj2 (proj2 (update_item_frame example_labels soft_namespace caller "A"
                         annotate_and_relink "t0" "t1" store_A_red (fst r) (snd r)
                         (surjective_pairing r)))
           InvalidArgumentsException).
  vm_compute; reflexivity.
Defined.

Lemma do_update_hit_count L self tbl id it c now v b cs w r w' :
  _do_update L self tbl id it c now v b cs w = (r, w') ->
  _schema_dependent_hit_count w' = _schema_dependent_hit_count w.
Proof.
  unfold _do_update.
  destruct (_render_obj_as_update _ _ _) as [[names values] ue].
  match goal with |- context [match ?x with Ok _ => _ | Raise _ => _ end] =>
    destruct x as [[[ce an] av]|e0] end; [|by intros [= _ <-]].
  unfold table_update_item.
  destruct (ddb_update_item _ _ _) as [r0 t0].
  assert (Hc : _schema_dependent_hit_count (set_table_rows tbl t0 w)
               = _schema_dependent_hit_count w) by (by destruct tbl).
  destruct r0 as [a|[]]; by intros [= _ <-].
Qed.

Lemma refresh_schema_hit_count w r w' :
  _refresh_schema w = (r, w') ->
  _schema_dependent_hit_count w' = _schema_dependent_hit_count w.
Proof.
  unfold _refresh_schema. intros H.
  repeat case_match; simplify_eq; done.
Qed.

Lemma update_resource_part_ok L self c id kwargs it now w response w' :
  update_resource_part L self c id kwargs it now w = (Ok response, w') ->
  exists stored,
    resource_table w' !! id = Some stored
    /\ response = master_warnings id stored
    /\ _schema_dependent_hit_count w' = S (_schema_dependent_hit_count w).
Proof.
  unfold update_resource_part.
  destruct (bool_decide _); [done|].
  destruct (schema_reload_due _ _ _) as [due|e0]; [|done].
  set (refreshed := if due then _refresh_schema w else (Ok (), w)).
  assert (Hm : _schema_dependent_hit_count (snd refreshed) = _schema_dependent_hit_count w).
  { subst refreshed. destruct due; [|done].
    destruct (_refresh_schema w) as [r0 w0] eqn:Hr.
    by apply refresh_schema_hit_count in Hr. }
  destruct refreshed as [[[]|e0] w1]; cbn in Hm; [|done].
  destruct (negb _); [done|].
  destruct (_do_update _ _ _ _ _ _ _ _ _ _ _) as [[a|e0] w3] eqn:Hd; [|done].
  assert (Hs := do_update_stores _ _ _ _ _ _ _ _ _ _ _ _ _ Hd).
  apply do_update_hit_count in Hd. cbn in Hd, Hs.
  intros H. exists a. unfold master_warnings.
  assert (w' = w3) as -> by (repeat case_match; by simplify_eq).
  split; [done|]. split; [|congruence].
  repeat case_match; by simplify_eq.
Qed.

(** When [update_item] returns for a request that carries a Resource, the
    item is stored under the id (it is created when it was not there: the
    update checks nowhere that the item exists), the warnings of the response are
    those of the master link the stored item carries, and the count of
    updates served since the schema was last due has gone up by one. *)
Theorem update_item_success L self c id kwargs now_meta now w doc response w' :
  upd_Resource kwargs = Some doc ->
  update_item L self c id kwargs now_meta now w = (Ok response, w') ->
  exists stored,
    resource_table w' !! id = Some stored
    /\ response = master_warnings id stored
    /\ _schema_dependent_hit_count w' = S (_schema_dependent_hit_count w).
Proof.
  intros HR. unfold update_item. rewrite HR.
  rewrite (bool_decide_true (is_Some (Some doc))) by eauto.
  rewrite orb_true_r. cbn [negb orb].
  destruct (upd_Metadata kwargs) as [m|].
  - destruct (_do_update _ _ _ _ _ _ _ _ _ _ _) as [[a|e0] w1] eqn:Hd; [|done].
    apply do_update_hit_count in Hd. intros Hu.
    apply update_resource_part_ok in Hu as (stored & ? & ? & ?).
    exists stored. repeat split; [done..|congruence].
  - apply update_resource_part_ok.
Qed.

(** An instance: an update of the colour of an item [C] that is not stored
    creates the item. *)
Lemma update_item_success_witness :
  let r := update_item example_labels soft_namespace caller "C"
             (update_of None (Some {[ "color" := PStr "blue" ]}) None None)
             "t0" "t1" store_A_red in
  resource_table store_A_red !! "C" = None
  /\ exists stored,
       resource_table (snd r) !! "C" = Some stored
       /\ [] = master_warnings "C" stored
       /\ _schema_dependent_hit_count (snd r)
          = S (_schema_dependent_hit_count store_A_red).
Proof.
  intros r. split; [vm_compute; reflexivity|].
  apply (update_item_success example_labels soft_namespace caller "C"
           (update_of None (Some {[ "color" := PStr "blue" ]}) None None)
           "t0" "t1" store_A_red {[ "color" := PStr "blue" ]} [] (snd r) eq_refl).
  vm_compute; reflexivity.
Defined.

(** ** Listing *)

Lemma deleted_filter_args segments limit start :
  exists c,
    checked_condition
      (names_of (ReadNames (with_segments segments (filtered_read_args None limit start None))))
      (values_of (ReadValues (with_segments segments
                                (filtered_read_args None limit start None))))
      deleted_filter = Some c
    /\ forall it,
         cond_holds
           (names_of (ReadNames (with_segments segments
                                   (filtered_read_args None limit start None))))
           (values_of (ReadValues (with_segments segments
                                     (filtered_read_args None limit start None)))) it c
         = passes_deleted_filter it.
Proof.
  eexists. split; [vm_compute; reflexivity|].
  intros it. cbn [cond_holds]. unfold has_attr, operands_equal, passes_deleted_filter.
  cbn. rewrite !lookup_singleton_eq. cbn.
  destruct (it !! params.DELETED) as [d|]; cbn; [|done].
  destruct (decide (d = PInt 1)) as [->|Hd].
  - by rewrite !bool_decide_true.
  - rewrite !bool_decide_false; [done|congruence|done].
Qed.

Lemma read_page_deleted_filter rows_of key_of segments limit start candidates :
  read_page rows_of key_of
    (with_segments segments (filtered_read_args None limit start None)) candidates
  = let stop := match limit with
                | Some n => Nat.min (Z.to_nat n) (rows_of candidates)
                | None => rows_of candidates
                end in
    Ok {| Items := filter (fun it => passes_deleted_filter it = true)
                     (snd <$> take stop candidates);
          LastEvaluatedKey :=
            if (stop <=? length candidates)%nat
            then key_of <$> last (take stop candidates) else None |}.
Proof.
  destruct (deleted_filter_args segments limit start) as (c & Hc & Hholds).
  unfold read_page. cbv zeta.
  change (FilterExpression (with_segments segments (filtered_read_args None limit start None)))
    with (Some deleted_filter).
  cbv iota. rewrite Hc. cbn [mbind option_bind].
  change (Limit (with_segments segments (filtered_read_args None limit start None)))
    with limit.
  f_equal. f_equal.
  apply list_filter_iff. intros it. by rewrite Hholds.
Qed.

Lemma rows_after_sublist k (l : list (string * item)) x :
  x ∈ rows_after k l -> x ∈ l.
Proof.
  induction l as [|[k' it'] l IH]; cbn; [done|].
  destruct (String.eqb k k'); intros H; apply elem_of_cons; right; auto.
Qed.

Lemma segment_rows_sublist f segment (l : list (string * item)) x :
  x ∈ segment_rows f segment l -> x ∈ l.
Proof.
  destruct segment as [[s n]|]; cbn; [|done].
  by intros [_ ?]%list_elem_of_filter.
Qed.

Lemma filter_take_prefix {A} (P : A -> Prop) `{!forall x, Decision (P x)} (l : list A) n :
  filter P (take n l) = take (length (filter P (take n l))) (filter P l)
  /\ filter P (drop n l) = drop (length (filter P (take n l))) (filter P l).
Proof.
  assert (Happ : filter P l = (filter P (take n l) ++ filter P (drop n l))%list).
  { rewrite <- filter_app. by rewrite take_drop. }
  rewrite Happ. split.
  - by rewrite take_app_length.
  - by rewrite drop_app_length.
Qed.

Lemma rows_after_after k k' (l : list (string * item)) :
  NoDup (fst <$> l) -> k' ∈ (fst <$> rows_after k l) ->
  rows_after k' (rows_after k l) = rows_after k' l.
Proof.
  induction l as [|[k0 x0] l IH]; intros Hnd Hin; [done|].
  rewrite fmap_cons in Hnd. apply NoDup_cons in Hnd as [Hk0 Hnd].
  assert (Hsub : forall k1, k1 ∈ (fst <$> rows_after k1 l) -> True) by done.
  cbn [rows_after] in Hin |- *.
  assert (Hk' : k' ∈ (fst <$> l)).
  { destruct (String.eqb k k0); [done|].
    apply list_elem_of_fmap in Hin as (y & -> & Hy).
    apply list_elem_of_fmap. exists y. split; [done|]. by eapply rows_after_sublist. }
  assert (Hne : String.eqb k' k0 = false).
  { apply String.eqb_neq. intros ->. done. }
  rewrite Hne.
  destruct (String.eqb k k0); [done|]. by apply IH.
Qed.

Lemma rows_after_last_take (l : list (string * item)) n k x :
  NoDup (fst <$> l) ->
  last (take n l) = Some (k, x) ->
  rows_after k l = drop n l.
Proof.
  revert n. induction l as [|[k0 x0] l IH]; intros n Hnd Hlast.
  - by rewrite take_nil in Hlast.
  - rewrite fmap_cons in Hnd. apply NoDup_cons in Hnd as [Hk0 Hnd].
    destruct n as [|n]; [done|]. cbn [take] in Hlast. cbn [drop rows_after].
    destruct (take n l) as [|y t] eqn:Ht.
    + cbn in Hlast. injection Hlast as -> ->. rewrite String.eqb_refl.
      destruct n; [done|]. by destruct l.
    + assert (Hl : last (take n l) = Some (k, x)) by (by rewrite Ht).
      assert (Hin : k ∈ (fst <$> l)).
      { apply list_elem_of_fmap. exists (k, x). split; [done|].
        eapply elem_of_sublist; [|apply (sublist_take _ n)].
        rewrite last_Some in Hl. destruct Hl as [l' Hl]. rewrite Hl.
        apply elem_of_app. right. apply list_elem_of_here. }
      assert (Hne : String.eqb k k0 = false).
      { apply String.eqb_neq. intros ->. done. }
      rewrite Hne. by apply IH.
Qed.

Lemma scan_page_safe (t : rows) (c : list (string * item)) stop (items : list item) :
  (forall x, x ∈ c -> x ∈ map_to_list t) ->
  (exists m, items = take m (filter (fun it => passes_deleted_filter it = true)
                              (snd <$> take stop c))) ->
  forall it, it ∈ items ->
    it !! params.DELETED <> Some (PInt 1) /\ exists k, t !! k = Some it.
Proof.
  intros Hc [m ->] it Hin.
  assert (Hin' : it ∈ filter (fun it => passes_deleted_filter it = true)
                       (snd <$> take stop c)).
  { eapply elem_of_sublist; [done|apply sublist_take]. }
  apply list_elem_of_filter in Hin' as [Hp Hin'].
  apply list_elem_of_fmap in Hin' as ([k it'] & -> & Hin'). split.
  - unfold passes_deleted_filter in Hp. apply negb_true_iff in Hp.
    by apply bool_decide_eq_false in Hp.
  - exists k. apply elem_of_map_to_list. apply Hc.
    eapply elem_of_sublist; [done|apply sublist_take].
Qed.

(** [list_items] refuses, with [InvalidArguments], a parallel scan that names
    a segment and no number of segments. Every page that [list_items]
    returns, for whatever request, holds rows of the Resource table whose
    [Deleted] attribute is not 1; and it holds no more of them than the limit
    of the request, which [int] then reads as a number that is at least 1, or
    than the default maximum when the request has no limit. *)
Theorem list_items_page E self kwargs w :
  (forall segment,
     list_Segment kwargs = Some segment -> segment <> PNone ->
     default PNone (list_TotalSegments kwargs) = PNone ->
     list_items E self kwargs w = Raise InvalidArgumentsException)
  /\ (forall res,
        list_items E self kwargs w = Ok res ->
        (forall it, it ∈ res_Items res ->
           it !! params.DELETED <> Some (PInt 1)
           /\ exists k, resource_table w !! k = Some it)
        /\ let limit := default PNone (list_limit kwargs) in
           if is_None limit
           then (length (res_Items res) <= DEFAULT_MAX_RESPONSE_SIZE E)%nat
           else exists n, py_int E limit = Ok n /\ (1 <= n)%Z
                          /\ (length (res_Items res) <= Z.to_nat n)%nat).
Proof.
  split.
  - intros segment Hs Hn Ht. unfold list_items, _perform_scan, scan_segments.
    cbn [kw_Segment kw_TotalSegments]. rewrite Hs. cbn [default].
    rewrite Ht. by destruct segment.
  - intros res. unfold list_items, _perform_scan. cbn [kw_limit default].
    set (v := default PNone (list_limit kwargs)).
    destruct (scan_segments E _) as [segments|e]; [|done].
    rewrite andb_true_r.
    change (id v) with v.
    match goal with |- context [if negb (is_None v) then ?a else ?b] =>
      destruct (if negb (is_None v) then a else b) as [scan_limit|e] eqn:Hlim end; [|done].
    set (start := (fun k => (_pk_name self, k)) <$> not_None (list_LastEvaluatedKey kwargs)).
    unfold ddb_scan.
    destruct (negb (params_in_range _)) eqn:Hrange; [done|].
    apply negb_false_iff in Hrange.
    match goal with |- context [match ?x with Some _ => _ | None => Raise ValidationException end] =>
      destruct x as [segment|] end; [|done].
    assert (Hpage : forall c,
      (forall x, x ∈ c -> x ∈ map_to_list (resource_table w)) ->
      match read_page (page_rows E) (fun r => {[ _pk_name self := PStr (fst r) ]})
              (with_segments segments
                 (filtered_read_args None scan_limit start None)) c with
      | Ok pg =>
          let page_items := Items pg in
          if negb true && bool_decide (is_Some (Some v))
             || (DEFAULT_MAX_RESPONSE_SIZE E <? length page_items)%nat
          then
            match (if is_None v then Ok (Z.of_nat (DEFAULT_MAX_RESPONSE_SIZE E))
                   else py_int E v) with
            | Ok set_limit =>
                Ok {| res_LastEvaluatedKey :=
                        KeyValue <$> (last (take (Z.to_nat set_limit) page_items)
                                        ≫= (fun it => it !! _pk_name self));
                      res_Items := take (Z.to_nat set_limit) page_items |}
            | Raise e => Raise e
            end
          else Ok {| res_LastEvaluatedKey := StoreKey <$> LastEvaluatedKey pg;
                     res_Items := page_items |}
      | Raise e => if is_ClientError e then Raise InvalidArgumentsException else Raise e
      end = Ok res ->
      (forall it, it ∈ res_Items res ->
         it !! params.DELETED <> Some (PInt 1)
         /\ exists k, resource_table w !! k = Some it)
      /\ if is_None v
         then (length (res_Items res) <= DEFAULT_MAX_RESPONSE_SIZE E)%nat
         else exists n, py_int E v = Ok n /\ (1 <= n)%Z
                        /\ (length (res_Items res) <= Z.to_nat n)%nat).
    { intros c Hc. rewrite read_page_deleted_filter. cbv zeta. cbn [Items LastEvaluatedKey negb andb orb].
      set (stop := match scan_limit with Some n => _ | None => _ end).
      set (page_items := filter _ (snd <$> take stop c)).
      assert (Hlen : match scan_limit with
                     | Some n => (length page_items <= Z.to_nat n)%nat
                     | None => True
                     end).
      { subst page_items stop. destruct scan_limit as [n|]; [|done].
        etrans; [apply length_filter|]. rewrite length_fmap, length_take. lia. }
      assert (Hv : if is_None v then scan_limit = None
                   else exists n, py_int E v = Ok n /\ (1 <= n)%Z /\ scan_limit = Some n).
      { unfold params_in_range in Hrange.
        change (Limit (with_segments segments (filtered_read_args None scan_limit start None)))
          with scan_limit in Hrange.
        destruct (is_None v); cbn [negb] in Hlim; [by injection Hlim as <-|].
        destruct (py_int E v) as [n|]; [|done]. injection Hlim as <-.
        exists n. split; [done|]. split; [|done].
        apply andb_prop in Hrange as [Hr _]. apply andb_prop in Hr as [Hr _]. lia. }
      destruct (Nat.ltb_spec (DEFAULT_MAX_RESPONSE_SIZE E) (length page_items)) as [Hlt|Hle].
      - destruct (is_None v).
        + intros [= <-]. cbn [res_Items]. split.
          * apply (scan_page_safe _ c stop _ Hc). eexists. reflexivity.
          * rewrite length_take. lia.
        + destruct Hv as (n & Hn & Hn1 & ->). rewrite Hn. intros [= <-]. cbn [res_Items]. split.
          * apply (scan_page_safe _ c stop _ Hc). eexists. reflexivity.
          * exists n. split; [done|]. split; [done|]. rewrite length_take. lia.
      - intros [= <-]. cbn [res_Items]. split.
        + apply (scan_page_safe _ c stop _ Hc). exists (length page_items).
          by rewrite firstn_all.
        + destruct (is_None v); [done|]. destruct Hv as (n & Hn & Hn1 & ->).
          exists n. split; [done|]. split; [done|]. exact Hlen. }
    change (ExclusiveStartKey (with_segments segments
                                 (filtered_read_args None scan_limit start None)))
      with start.
    destruct start as [[k [| | |id]]|]; try done.
    + destruct (bool_decide _ && _); [|done]. cbn [table_rows]. apply Hpage.
      intros x Hx. apply segment_rows_sublist in Hx. by apply rows_after_sublist in Hx.
    + cbn [table_rows]. apply Hpage.
      intros x Hx. by apply segment_rows_sublist in Hx.
Qed.

Lemma rows_after_live pk (l : list (string * item)) m id it :
  NoDup (fst <$> l) ->
  (forall k x, (k, x) ∈ l -> x !! pk = Some (PStr k)) ->
  filter (fun it => passes_deleted_filter it = true) (snd <$> l) !! m = Some it ->
  it !! pk = Some (PStr id) ->
  filter (fun it => passes_deleted_filter it = true) (snd <$> rows_after id l)
  = drop (S m) (filter (fun it => passes_deleted_filter it = true) (snd <$> l)).
Proof.
  revert m. induction l as [|[k x] l IH]; intros m Hnd Hkey Hm Hid; [done|].
  apply NoDup_cons in Hnd as [Hk Hnd].
  assert (Hkey' : forall k x, (k, x) ∈ l -> x !! pk = Some (PStr k)).
  { intros k' x' Hin. apply Hkey. by apply elem_of_cons; right. }
  assert (Hne : forall m', filter (fun it => passes_deleted_filter it = true) (snd <$> l) !! m'
                          = Some it -> String.eqb id k = false).
  { intros m' Hm'. apply String.eqb_neq. intros ->. apply Hk.
    apply list_elem_of_lookup_2 in Hm'. apply list_elem_of_filter in Hm' as [_ Hin].
    apply list_elem_of_fmap in Hin as ([k' x'] & -> & Hin).
    apply Hkey' in Hin as Hx. cbn in Hid, Hx. rewrite Hid in Hx. injection Hx as ->.
    apply list_elem_of_fmap. by exists (k', x'). }
  rewrite fmap_cons in Hm |- *. cbn [snd] in Hm |- *.
  rewrite filter_cons in Hm |- *. cbn [rows_after].
  destruct (decide (passes_deleted_filter x = true)) as [Hp|Hp].
  - destruct m as [|m]; cbn in Hm.
    + injection Hm as ->. specialize (Hkey k it (list_elem_of_here _ _)).
      rewrite Hid in Hkey. injection Hkey as ->. by rewrite String.eqb_refl.
    + rewrite (Hne m Hm). by apply IH.
  - rewrite (Hne m Hm). by apply IH.
Qed.

Lemma last_take_lookup {A} (l : list A) n :
  (n < length l)%nat -> last (take (S n) l) = l !! n.
Proof.
  revert n. induction l as [|x l IH]; intros n Hn; [cbn in Hn; lia|].
  destruct n as [|n]; [by destruct l|].
  cbn in Hn. rewrite lookup_cons. cbn [take]. rewrite <- IH by lia.
  destruct l; [cbn in Hn; lia|]. reflexivity.
Qed.

Lemma rows_after_NoDup k (l : list (string * item)) :
  NoDup (fst <$> l) -> NoDup (fst <$> rows_after k l).
Proof.
  induction l as [|[k0 x0] l IH]; [done|].
  rewrite fmap_cons. intros [Hk0 Hnd]%NoDup_cons. cbn [rows_after].
  destruct (String.eqb k k0); auto.
Qed.

Lemma list_items_listing E self limit last_key w c lim :
  (if is_None (default PNone limit) then lim = None
   else exists n, py_int E (default PNone limit) = Ok n /\ (1 <= n)%Z /\ lim = Some n) ->
  scan_candidates last_key w = Some c ->
  list_items E self (listing limit last_key) w
  = let stop := match lim with
                | Some n => Nat.min (Z.to_nat n) (page_rows E c)
                | None => page_rows E c
                end in
    let page_items := filter (fun it => passes_deleted_filter it = true)
                        (snd <$> take stop c) in
    if (DEFAULT_MAX_RESPONSE_SIZE E <? length page_items)%nat
    then
      let items := take (Z.to_nat (default (Z.of_nat (DEFAULT_MAX_RESPONSE_SIZE E)) lim))
                     page_items in
      Ok {| res_LastEvaluatedKey :=
              KeyValue <$> (last items ≫= (fun it => it !! _pk_name self));
            res_Items := items |}
    else
      Ok {| res_LastEvaluatedKey :=
              StoreKey <$> (if (stop <=? length c)%nat
                            then (fun r : string * item => {[ _pk_name self := PStr (fst r) ]})
                                   <$> last (take stop c)
                            else None);
            res_Items := page_items |}.
Proof.
  intros Hlim Hc. unfold list_items, _perform_scan, scan_segments, listing.
  cbn [kw_limit kw_Segment kw_TotalSegments list_limit list_Segment list_TotalSegments
       list_LastEvaluatedKey default].
  set (v := default PNone limit) in *. change (id v) with v.
  rewrite andb_true_r.
  assert (Hscan : (if negb (is_None v)
                   then match py_int E v with Ok n => Ok (Some n) | Raise e => Raise e end
                   else Ok None) = Ok lim).
  { destruct (is_None v); cbn [negb]; [by subst|].
    destruct Hlim as (n & -> & _ & ->). done. }
  rewrite Hscan.
  assert (Hset : (if is_None v then Ok (Z.of_nat (DEFAULT_MAX_RESPONSE_SIZE E))
                  else py_int E v)
                 = Ok (default (Z.of_nat (DEFAULT_MAX_RESPONSE_SIZE E)) lim)).
  { destruct (is_None v); [by subst|]. destruct Hlim as (n & -> & _ & ->). done. }
  rewrite Hset.
  unfold ddb_scan.
  assert (Hrange : params_in_range
            (with_segments None
               (filtered_read_args None lim
                  ((fun k => (_pk_name self, k)) <$> not_None last_key) None)) = true).
  { unfold params_in_range. cbn.
    destruct (is_None v); [by subst|]. destruct Hlim as (n & _ & Hn & ->).
    rewrite andb_true_r. lia. }
  rewrite Hrange. cbn [negb].
  change (Segment (with_segments None _)) with (@None Z).
  change (TotalSegments (with_segments None _)) with (@None Z).
  cbv iota.
  change (ExclusiveStartKey (with_segments None
            (filtered_read_args None lim
               ((fun k => (_pk_name self, k)) <$> not_None last_key) None)))
    with ((fun k => (_pk_name self, k)) <$> not_None last_key).
  unfold scan_candidates in Hc.
  destruct (not_None last_key) as [[| | |id]|]; try done; cbn [fmap option_fmap option_map].
  - destruct (String.eqb id EmptyString); [done|]. injection Hc as <-.
    rewrite bool_decide_true by done. cbn [negb andb].
    rewrite read_page_deleted_filter. reflexivity.
  - injection Hc as <-. rewrite read_page_deleted_filter. reflexivity.
Qed.

(** The rows of a page: what the page returns, and where it resumes. [c]
    are the rows ahead and [L] the live items among them. *)
Lemma listing_page_rows (pk : string) (c : list (string * item)) (stop : nat) :
  NoDup (fst <$> c) ->
  (stop = 0%nat -> c = []) ->
  let L := filter (fun it => passes_deleted_filter it = true) (snd <$> c) in
  let page_items := filter (fun it => passes_deleted_filter it = true)
                      (snd <$> take stop c) in
  page_items = take (length page_items) L
  /\ match (if (stop <=? length c)%nat then fst <$> last (take stop c) else None) with
     | None => drop (length page_items) L = []
     | Some k =>
         k ∈ (fst <$> c)
         /\ filter (fun it => passes_deleted_filter it = true) (snd <$> rows_after k c)
            = drop (length page_items) L
     end.
Proof.
  intros Hnd Hstop L page_items.
  assert (Htake : snd <$> take stop c = take stop (snd <$> c)) by apply fmap_take.
  assert (Hdrop : snd <$> drop stop c = drop stop (snd <$> c)) by apply fmap_drop.
  destruct (filter_take_prefix (fun it => passes_deleted_filter it = true) (snd <$> c) stop)
    as [Hpre Hsuf].
  subst page_items L. rewrite Htake. split; [exact Hpre|].
  destruct (Nat.leb_spec stop (length c)) as [Hle|Hgt].
  - destruct (last (take stop c)) as [[k x]|] eqn:Hlast; cbn [fmap option_fmap option_map fst].
    + split.
      * apply list_elem_of_fmap. exists (k, x). split; [done|].
        eapply elem_of_sublist; [|apply (sublist_take _ stop)].
        rewrite last_Some in Hlast. destruct Hlast as [l' ->].
        apply elem_of_app. right. apply list_elem_of_here.
      * rewrite (rows_after_last_take c stop k x Hnd Hlast). by rewrite Hdrop.
    + apply last_None in Hlast.
      assert (c = []) as ->.
      { destruct stop; [by apply Hstop|]. by destruct c. }
      cbn. by rewrite take_nil.
  - rewrite <- Hsuf. rewrite drop_ge by (rewrite length_fmap; lia). done.
Qed.

(** A listing that is not a parallel scan, with a limit that the scan
    accepts, over a table whose rows carry their key, none of which is
    empty, and in which the store and the default maximum let a page hold at
    least one row. From the start of the table, or from the key of a stored
    row, [list_items] returns a page. The page holds the next live items,
    in the order of the scan. When it comes with a key to resume from, the
    items that a listing has ahead which starts from the value of the key
    attribute in that key are exactly the rest; when it comes without one,
    there is no rest. So nothing is lost and nothing is listed twice, whether
    it is the limit, the default maximum or the store that ends the page. *)
Theorem list_items_paging E self limit last_key w ahead :
  resource_keyed self w ->
  resource_table w !! EmptyString = None ->
  (0 < DEFAULT_MAX_RESPONSE_SIZE E)%nat ->
  (forall l, l <> [] -> (0 < page_rows E l)%nat) ->
  limit_accepted E limit ->
  listing_ahead last_key w = Some ahead ->
  exists res n,
    list_items E self (listing limit last_key) w = Ok res
    /\ res_Items res = take n ahead
    /\ match res_LastEvaluatedKey res with
       | None => drop n ahead = []
       | Some key => listing_ahead (resume_value self key) w = Some (drop n ahead)
       end.
Proof.
  intros Hkeyed Hempty Hmax Hrows Hlimit Hahead.
  set (all := map_to_list (resource_table w)).
  assert (Hnd : NoDup (fst <$> all)) by apply NoDup_fst_map_to_list.
  assert (Hall : forall k x, (k, x) ∈ all -> resource_table w !! k = Some x).
  { intros k x. apply elem_of_map_to_list. }
  (* the rows ahead *)
  assert (Hc : exists c,
    scan_candidates last_key w = Some c
    /\ ahead = filter (fun it => passes_deleted_filter it = true) (snd <$> c)
    /\ NoDup (fst <$> c)
    /\ (forall x, x ∈ c -> x ∈ all)
    /\ (forall k, k ∈ (fst <$> c) -> rows_after k c = rows_after k all)).
  { unfold listing_ahead in Hahead. unfold scan_candidates.
    destruct last_key as [[| | |id]|]; cbn [not_None]; try done.
    - injection Hahead as <-. exists all. by repeat split.
    - destruct (bool_decide_reflect (is_Some (resource_table w !! id))) as [Hid|]; [|done].
      injection Hahead as <-.
      assert (String.eqb id EmptyString = false) as ->.
      { apply String.eqb_neq. intros ->. rewrite Hempty in Hid. by destruct Hid. }
      exists (rows_after id all). split; [done|]. split; [done|].
      split; [by apply rows_after_NoDup|]. split.
      + intros x. apply rows_after_sublist.
      + intros k Hk. by apply rows_after_after.
    - injection Hahead as <-. exists all. by repeat split. }
  destruct Hc as (c & Hcand & -> & Hcnd & Hsub & Hafter).
  assert (Hckey : forall k x, (k, x) ∈ c -> x !! _pk_name self = Some (PStr k)).
  { intros k x Hin. apply Hkeyed. apply Hall. by apply Hsub. }
  (* the resume key of a row ahead *)
  assert (Hresume : forall k rest,
    k ∈ (fst <$> c) ->
    filter (fun it => passes_deleted_filter it = true) (snd <$> rows_after k c) = rest ->
    listing_ahead (Some (PStr k)) w = Some rest).
  { intros k rest Hk <-. unfold listing_ahead.
    apply list_elem_of_fmap in Hk as Hk'. destruct Hk' as ([k' x] & -> & Hin).
    cbn [fst] in *.
    rewrite bool_decide_true by (rewrite (Hall k' x (Hsub _ Hin)); eauto).
    unfold live_after. fold all. by rewrite <- (Hafter _ Hk). }
  (* the limit *)
  assert (Hlim : exists lim,
    (if is_None (default PNone limit) then lim = None
     else exists n, py_int E (default PNone limit) = Ok n /\ (1 <= n)%Z /\ lim = Some n)
    /\ (0 < Z.to_nat (default (Z.of_nat (DEFAULT_MAX_RESPONSE_SIZE E)) lim))%nat
    /\ match lim with Some n => (0 < Z.to_nat n)%nat | None => True end).
  { unfold limit_accepted in Hlimit. destruct (is_None (default PNone limit)).
    - exists None. cbn. split; [done|]. split; [lia|done].
    - destruct (Hlimit eq_refl) as (n & Hn & Hn1). exists (Some n). cbn.
      split; [eauto|]. split; lia. }
  destruct Hlim as (lim & Hlim & Hset & Hpos).
  rewrite (list_items_listing E self limit last_key w c lim Hlim Hcand). cbv zeta.
  set (stop := match lim with Some n => _ | None => _ end).
  assert (Hstop : stop = 0%nat -> c = []).
  { intros H0. destruct c as [|r c]; [done|]. exfalso.
    specialize (Hrows (r :: c) ltac:(done)). subst stop. destruct lim; lia. }
  destruct (listing_page_rows (_pk_name self) c stop Hcnd Hstop) as [Hpage Hkey].
  set (L := filter (fun it => passes_deleted_filter it = true) (snd <$> c)) in *.
  set (page_items := filter (fun it => passes_deleted_filter it = true)
                       (snd <$> take stop c)) in *.
  destruct (Nat.ltb_spec (DEFAULT_MAX_RESPONSE_SIZE E) (length page_items)) as [Hlt|Hle].
  - (* the page is cut to the limit or the default maximum *)
    set (sl := Z.to_nat (default (Z.of_nat (DEFAULT_MAX_RESPONSE_SIZE E)) lim)) in *.
    set (n := Nat.min sl (length page_items)).
    assert (Hitems : take sl page_items = take n L).
    { rewrite Hpage at 1. rewrite take_take. reflexivity. }
    assert (HnL : (n <= length L)%nat).
    { subst n. rewrite Hpage. rewrite length_take. lia. }
    destruct n as [|m] eqn:Hn; [lia|].
    destruct (lookup_lt_is_Some_2 L m) as [it Hit]; [lia|].
    assert (Hrow : exists k, (k, it) ∈ c).
    { apply list_elem_of_lookup_2 in Hit. apply list_elem_of_filter in Hit as [_ Hin].
      apply list_elem_of_fmap in Hin as ([k x] & -> & Hin). by exists k. }
    destruct Hrow as [k Hrow].
    eexists _, (S m). split; [reflexivity|]. cbn [res_Items res_LastEvaluatedKey].
    split; [exact Hitems|].
    rewrite Hitems, last_take_lookup by lia. rewrite Hit. cbn [mbind option_bind].
    rewrite (Hckey k it Hrow). cbn [fmap option_fmap option_map resume_value].
    apply Hresume.
    + apply list_elem_of_fmap. by exists (k, it).
    + apply (rows_after_live (_pk_name self) c m k it Hcnd Hckey Hit (Hckey k it Hrow)).
  - eexists _, (length page_items). split; [reflexivity|].
    cbn [res_Items res_LastEvaluatedKey]. split; [exact Hpage|].
    destruct (stop <=? length c)%nat; [|exact Hkey].
    destruct (last (take stop c)) as [[k x]|]; [|exact Hkey].
    cbn [fmap option_fmap option_map fst resume_value] in Hkey |- *.
    rewrite lookup_singleton_eq. destruct Hkey as [Hin Hrest]. by apply Hresume.
Qed.

(** An instance: a parallel scan without the number of segments is refused;
    and the page of a listing of [store_listed] with the limit [2], given as
    a text. *)
Lemma list_items_page_witness :
  list_items example_environment soft_namespace
    {| list_limit := None; list_LastEvaluatedKey := None;
       list_Segment := Some (PStr "0"); list_TotalSegments := None |} store_listed
  = Raise InvalidArgumentsException
  /\ exists res,
       list_items example_environment soft_namespace (listing (Some (PStr "2")) None)
         store_listed = Ok res
       /\ (forall it, it ∈ res_Items res ->
             it !! params.DELETED <> Some (PInt 1)
             /\ exists k, resource_table store_listed !! k = Some it)
       /\ exists n, py_int example_environment (PStr "2") = Ok n /\ (1 <= n)%Z
                    /\ (length (res_Items res) <= Z.to_nat n)%nat.
Proof.
  split.
  - apply (proj1 (list_items_page example_environment soft_namespace
                    {| list_limit := None; list_LastEvaluatedKey := None;
                       list_Segment := Some (PStr "0"); list_TotalSegments := None |}
                    store_listed) (PStr "0")); [reflexivity|discriminate|reflexivity].
  - eexists. split; [vm_compute; reflexivity|].
    apply (proj2 (list_items_page example_environment soft_namespace
                    (listing (Some (PStr "2")) None) store_listed)).
    vm_compute. reflexivity.
Defined.

(** An instance: [store_listed] in an environment where the store ends
    every page after one row. *)
Lemma list_items_paging_witness :
  exists res n,
    list_items one_row_pages soft_namespace (listing None None) store_listed = Ok res
    /\ res_Items res = take n (live_items store_listed)
    /\ match res_LastEvaluatedKey res with
       | None => drop n (live_items store_listed) = []
       | Some key => listing_ahead (resume_value soft_namespace key) store_listed
                     = Some (drop n (live_items store_listed))
       end.
Proof.
  apply (list_items_paging one_row_pages soft_namespace None None store_listed).
  - apply (bool_decide_unpack
             (map_Forall (fun k it => it !! "id" = Some (PStr k))
                         (resource_table store_listed))).
    vm_compute. exact I.
  - vm_compute. reflexivity.
  - vm_compute. lia.
  - intros l _. cbn. lia.
  - intros H. vm_compute in H. discriminate H.
  - reflexivity.
Defined.

(** ** The master link: [item_master_update], [item_master_delete] *)

Lemma link_write_present L self mid c now w id it v :
  resource_table w !! id = Some it ->
  it !! _pk_name self = Some (PStr id) ->
  next_version it = Some v ->
  _pk_name self ∉ reserved_fields ->
  table_update_item self ResourceTable
    (decorate_update_request
       {| Key := (_pk_name self, PStr id);
          UpdateExpression := "SET " +:+ params.ITEM_MASTER_ID +:+ " = :v";
          ConditionExpression := Some (CondAttr (AttrEq (_pk_name self) (PStr id)));
          ExpressionAttributeNames := None;
          ExpressionAttributeValues := Some {[ ":v" := PStr mid ]} |}
       c (ACTION_UPDATE L) now true) w
  = (Ok (stamped (<[params.ITEM_MASTER_ID := PStr mid]> it) c (ACTION_UPDATE L) now v),
     set_table_rows ResourceTable
       (<[id := stamped (<[params.ITEM_MASTER_ID := PStr mid]> it) c (ACTION_UPDATE L) now v]>
          (resource_table w)) w).
Proof.
  intros Hrow Hkey Hv Hpk.
  set (args := decorate_update_request _ _ _ _ _).
  unfold table_update_item, ddb_update_item.
  change (Key args) with (_pk_name self, PStr id).
  replace (parse_update (UpdateExpression args))
    with (Some [ASet (Raw "ItemMasterID") ":v"; ASet (Placeholder "#lud") ":lud";
                ASet (Placeholder "#lub") ":lub"; ASet (Placeholder "#lua") ":lua";
                AAdd (Placeholder "#ItemVersion") ":incr"])
    by (vm_compute; reflexivity).
  change (write_condition args)
    with (Some (fun it : item => attr_holds it (AttrEq (_pk_name self) (PStr id)))).
  replace (update_targets (names_of (ExpressionAttributeNames args)) _)
    with (Some ["ItemMasterID"; "LastUpdateDate"; "LastUpdatedBy"; "LastUpdateAction";
                "ItemVersion"]) by (vm_compute; reflexivity).
  match goal with |- context [bool_decide (?k = ?p) && forallb ?f ?a && ?n && ?q] =>
    change (bool_decide (k = p) && forallb f a && n && q)
      with (checked_update (_pk_name self) (_pk_name self)
              (values_of (ExpressionAttributeValues args))
              [ASet (Raw "ItemMasterID") ":v"; ASet (Placeholder "#lud") ":lud";
               ASet (Placeholder "#lub") ":lub"; ASet (Placeholder "#lua") ":lua";
               AAdd (Placeholder "#ItemVersion") ":incr"]
              ["ItemMasterID"; "LastUpdateDate"; "LastUpdatedBy"; "LastUpdateAction";
               "ItemVersion"]) end.
  rewrite checked_update_intro;
    [|vm_compute; reflexivity|by_computation
     |revert Hpk; unfold reserved_fields; rewrite !not_elem_of_cons; tauto].
  cbn [table_rows]. rewrite Hrow. cbn [default attr_holds].
  change (Datatypes.id it) with it. rewrite Hkey, bool_decide_true by done.
  assert (Hn : forall k x,
    ({[ "#lud" := "LastUpdateDate"; "#lub" := "LastUpdatedBy";
        "#lua" := "LastUpdateAction"; "#ItemVersion" := "ItemVersion" ]}
       : gmap string string) !! k = Some x ->
    names_of (ExpressionAttributeNames args) !! k = Some x).
  { intros k x H. rewrite <- H. f_equal; try (vm_compute; reflexivity). }
  assert (Hval : forall k x,
    ({[ ":v" := PStr mid; ":lud" := PStr now; ":lub" := c; ":lua" := PStr (ACTION_UPDATE L);
        ":incr" := PInt 1 ]} : gmap string pyval) !! k = Some x ->
    values_of (ExpressionAttributeValues args) !! k = Some x).
  { intros k x H. rewrite <- H. f_equal; try (vm_compute; reflexivity). }
  cbn [apply_actions apply_action resolve action_path].
  repeat (erewrite Hn by reflexivity). repeat (erewrite Hval by reflexivity).
  cbn [mbind option_bind].
  rewrite !lookup_insert_ne by done.
  unfold next_version in Hv. unfold stamped.
  change (it !! "ItemVersion") with (it !! params.ITEM_VERSION).
  destruct (it !! params.ITEM_VERSION) as [[]|]; simplify_eq; reflexivity.
Qed.

Lemma link_write_absent L self mid c now w id :
  resource_table w !! id = None ->
  _pk_name self ∉ reserved_fields ->
  table_update_item self ResourceTable
    (decorate_update_request
       {| Key := (_pk_name self, PStr id);
          UpdateExpression := "SET " +:+ params.ITEM_MASTER_ID +:+ " = :v";
          ConditionExpression := Some (CondAttr (AttrEq (_pk_name self) (PStr id)));
          ExpressionAttributeNames := None;
          ExpressionAttributeValues := Some {[ ":v" := PStr mid ]} |}
       c (ACTION_UPDATE L) now true) w
  = (Raise ConditionalCheckFailedException, w).
Proof.
  intros Hrow Hpk.
  set (args := decorate_update_request _ _ _ _ _).
  unfold table_update_item, ddb_update_item.
  change (Key args) with (_pk_name self, PStr id).
  replace (parse_update (UpdateExpression args))
    with (Some [ASet (Raw "ItemMasterID") ":v"; ASet (Placeholder "#lud") ":lud";
                ASet (Placeholder "#lub") ":lub"; ASet (Placeholder "#lua") ":lua";
                AAdd (Placeholder "#ItemVersion") ":incr"])
    by (vm_compute; reflexivity).
  change (write_condition args)
    with (Some (fun it : item => attr_holds it (AttrEq (_pk_name self) (PStr id)))).
  replace (update_targets (names_of (ExpressionAttributeNames args)) _)
    with (Some ["ItemMasterID"; "LastUpdateDate"; "LastUpdatedBy"; "LastUpdateAction";
                "ItemVersion"]) by (vm_compute; reflexivity).
  match goal with |- context [bool_decide (?k = ?p) && forallb ?f ?a && ?n && ?q] =>
    change (bool_decide (k = p) && forallb f a && n && q)
      with (checked_update (_pk_name self) (_pk_name self)
              (values_of (ExpressionAttributeValues args))
              [ASet (Raw "ItemMasterID") ":v"; ASet (Placeholder "#lud") ":lud";
               ASet (Placeholder "#lub") ":lub"; ASet (Placeholder "#lua") ":lua";
               AAdd (Placeholder "#ItemVersion") ":incr"]
              ["ItemMasterID"; "LastUpdateDate"; "LastUpdatedBy"; "LastUpdateAction";
               "ItemVersion"]) end.
  rewrite checked_update_intro;
    [|vm_compute; reflexivity|by_computation
     |revert Hpk; unfold reserved_fields; rewrite !not_elem_of_cons; tauto].
  cbn [table_rows]. rewrite Hrow. cbn [default attr_holds].
  rewrite lookup_empty, bool_decide_false by done.
  by destruct w.
Qed.

Lemma not_reserved_link self :
  _pk_name self ∉ reserved_fields ->
  _pk_name self ∉ [params.ITEM_MASTER_ID; params.LAST_UPDATE_DATE; params.LAST_UPDATED_BY;
                   params.LAST_UPDATE_ACTION; params.ITEM_VERSION].
Proof. unfold reserved_fields. rewrite !not_elem_of_cons. tauto. Qed.

Lemma stamped_lookup_other it c action now v a :
  a ∉ [params.LAST_UPDATE_DATE; params.LAST_UPDATED_BY; params.LAST_UPDATE_ACTION;
       params.ITEM_VERSION] ->
  stamped it c action now v !! a = it !! a.
Proof.
  rewrite !not_elem_of_cons. intros (? & ? & ? & ? & _).
  unfold stamped. by rewrite !lookup_insert_ne by done.
Qed.

Lemma stamped_next_version it c action now v :
  next_version (stamped it c action now v) = Some (v + 1).
Proof. unfold next_version, stamped. by rewrite lookup_insert_eq. Qed.

Lemma linked_to_stamped mid it c action now v :
  linked_to mid it (stamped (<[params.ITEM_MASTER_ID := PStr mid]> it) c action now v).
Proof.
  split.
  - rewrite stamped_lookup_other by (by_computation). apply lookup_insert_eq.
  - intros a Ha. rewrite !not_elem_of_cons in Ha.
    rewrite stamped_lookup_other by (rewrite !not_elem_of_cons; tauto).
    rewrite lookup_insert_ne; [done|]. intros <-. tauto.
Qed.

Lemma linked_to_trans mid a b c : linked_to mid a b -> linked_to mid b c -> linked_to mid a c.
Proof.
  intros [_ Hab] [Hc Hbc]. split; [done|]. intros x Hx. by rewrite Hbc, Hab.
Qed.

Lemma link_each_spec L self mid c now ids :
  _pk_name self ∉ reserved_fields ->
  forall i w,
    resource_keyed self w -> versions_valid w ->
    exists w',
      link_each L self mid c now i (PStr <$> ids) w
      = (Ok ((fun id => {| entry_key := id;
                           Updated := bool_decide (is_Some (resource_table w !! id)) |})
               <$> ids), w')
      /\ metadata_table w' = metadata_table w
      /\ (forall k, resource_table w !! k = None -> resource_table w' !! k = None)
      /\ (forall k it, resource_table w !! k = Some it ->
            exists it', resource_table w' !! k = Some it'
                        /\ if bool_decide (k ∈ ids) then linked_to mid it it' else it' = it)
      /\ resource_keyed self w' /\ versions_valid w'.
Proof.
  intros Hpk. induction ids as [|id ids IH]; intros i w Hkeyed Hvalid.
  - exists w. cbn. repeat split; try done. intros k it Hk. exists it.
    by rewrite bool_decide_false by apply not_elem_of_nil.
  - rewrite fmap_cons. cbn [link_each py_str].
    destruct (resource_table w !! id) as [it|] eqn:Hrow.
    + destruct (Hvalid id it Hrow) as [v Hv]. pose proof (Hkeyed id it Hrow) as Hkey.
      rewrite (link_write_present L self mid c (now i) w id it v) by done.
      set (new := stamped (<[params.ITEM_MASTER_ID := PStr mid]> it) c (ACTION_UPDATE L)
                    (now i) v).
      set (w1 := set_table_rows ResourceTable (<[id := new]> (resource_table w)) w).
      assert (Ht1 : resource_table w1 = <[id := new]> (resource_table w)) by done.
      destruct (IH (S i) w1) as (w' & Heq & Hmeta & Hnone & Hsome & Hkeyed' & Hvalid').
      { intros k x. rewrite Ht1. intros [[-> <-]|[? Hx]]%lookup_insert_Some; [|by apply Hkeyed].
        subst new. rewrite stamped_lookup_other.
        - rewrite lookup_insert_ne; [done|].
          apply not_reserved_link in Hpk. rewrite !not_elem_of_cons in Hpk.
          intros Heq. rewrite <- Heq in Hpk. tauto.
        - apply not_reserved_link in Hpk. rewrite !not_elem_of_cons in Hpk.
          rewrite !not_elem_of_cons. tauto. }
      { intros k x. rewrite Ht1. intros [[-> <-]|[? Hx]]%lookup_insert_Some;
          [|by eapply Hvalid].
        subst new. rewrite stamped_next_version. eauto. }
      exists w'. rewrite Heq. split; [|split; [|split; [|split; [|done]]]].
      * rewrite fmap_cons. do 3 f_equal.
        -- rewrite Hrow, bool_decide_true by eauto. reflexivity.
        -- apply list_fmap_ext. intros _ x _. f_equal. apply bool_decide_ext.
           rewrite Ht1. destruct (decide (x = id)) as [->|Hne].
           ++ rewrite lookup_insert_eq, Hrow. split; eauto.
           ++ by rewrite lookup_insert_ne.
      * by rewrite Hmeta.
      * intros k Hk. apply Hnone. rewrite Ht1, lookup_insert_ne; [done|]. congruence.
      * intros k x Hk. destruct (decide (k = id)) as [->|Hne].
        -- rewrite Hrow in Hk. injection Hk as <-.
           destruct (Hsome id new) as (it' & Hit' & Hl); [by rewrite Ht1, lookup_insert_eq|].
           exists it'. split; [done|]. rewrite bool_decide_true by apply list_elem_of_here.
           destruct (bool_decide (id ∈ ids)).
           ++ eapply linked_to_trans; [apply linked_to_stamped|exact Hl].
           ++ subst it'. apply linked_to_stamped.
        -- destruct (Hsome k x) as (it' & Hit' & Hl); [by rewrite Ht1, lookup_insert_ne|].
           exists it'. split; [done|].
           rewrite (bool_decide_ext (k ∈ id :: ids) (k ∈ ids)); [done|].
           rewrite elem_of_cons. split; [|by right]. intros [->|?]; [congruence|done].
    + rewrite (link_write_absent L self mid c (now i) w id) by done.
      destruct (IH (S i) w Hkeyed Hvalid) as (w' & Heq & Hmeta & Hnone & Hsome & Hk' & Hv').
      exists w'. rewrite Heq. split; [|split; [done|split; [done|split; [|done]]]].
      * rewrite fmap_cons. do 3 f_equal.
        rewrite Hrow, bool_decide_false by (by intros [? ?]). reflexivity.
      * intros k x Hk. destruct (Hsome k x Hk) as (it' & Hit' & Hl).
        exists it'. split; [done|].
        rewrite (bool_decide_ext (k ∈ id :: ids) (k ∈ ids)); [done|].
        rewrite elem_of_cons. split; [|by right]. intros [->|?]; [congruence|done].
Qed.

Lemma item_master_update_eq L self c kwargs now w ids master master_row :
  kwargs !! _pk_name self = Some (PStr ids) ->
  kwargs !! params.ITEM_MASTER_ID = Some master ->
  resource_table w !! py_str master = Some master_row ->
  is_deleted master_row = false ->
  item_master_update L self c kwargs now w
  = link_each L self (py_str master) c now 0
      (PStr <$> (if str_in "," ids then split_comma EmptyString ids else [ids])) w.
Proof.
  intros Hids Hm Hrow Hlive. unfold item_master_update. rewrite Hids, Hm.
  rewrite (fetch_item_live ResourceTable w (py_str master) master_row) by done.
  by destruct (str_in "," ids).
Qed.





Lemma remove_master_write L self id c now w it v :
  resource_table w !! id = Some it ->
  next_version it = Some v ->
  _pk_name self ∉ reserved_fields ->
  remove_resource_attributes L self id [params.ITEM_MASTER_ID] c now w
  = (Ok true,
     set_table_rows ResourceTable
       (<[id := stamped (delete params.ITEM_MASTER_ID it) c (ACTION_REMOVE_ATTRIBUTE L)
                  now v]> (resource_table w)) w).
Proof.
  intros Hrow Hv Hpk. unfold remove_resource_attributes, _simple_update.
  change (str_in "#del" ("REMOVE " +:+ join "," [params.ITEM_MASTER_ID])) with false.
  change (str_in ":true" ("REMOVE " +:+ join "," [params.ITEM_MASTER_ID])) with false.
  cbv iota.
  set (args := decorate_update_request _ _ _ _ _).
  unfold table_update_item, ddb_update_item.
  change (Key args) with (_pk_name self, PStr id).
  replace (parse_update (UpdateExpression args))
    with (Some [ASet (Placeholder "#lud") ":lud"; ASet (Placeholder "#lub") ":lub";
                ASet (Placeholder "#lua") ":lua"; ARemove (Raw "ItemMasterID");
                AAdd (Placeholder "#ItemVersion") ":incr"])
    by (vm_compute; reflexivity).
  change (write_condition args) with (Some (fun _ : item => true)).
  replace (update_targets (names_of (ExpressionAttributeNames args)) _)
    with (Some ["LastUpdateDate"; "LastUpdatedBy"; "LastUpdateAction"; "ItemMasterID";
                "ItemVersion"]) by (vm_compute; reflexivity).
  match goal with |- context [bool_decide (?k = ?p) && forallb ?f ?a && ?n && ?q] =>
    change (bool_decide (k = p) && forallb f a && n && q)
      with (checked_update (_pk_name self) (_pk_name self)
              (values_of (ExpressionAttributeValues args))
              [ASet (Placeholder "#lud") ":lud"; ASet (Placeholder "#lub") ":lub";
               ASet (Placeholder "#lua") ":lua"; ARemove (Raw "ItemMasterID");
               AAdd (Placeholder "#ItemVersion") ":incr"]
              ["LastUpdateDate"; "LastUpdatedBy"; "LastUpdateAction"; "ItemMasterID";
               "ItemVersion"]) end.
  rewrite checked_update_intro;
    [|vm_compute; reflexivity|by_computation
     |revert Hpk; unfold reserved_fields; rewrite !not_elem_of_cons; tauto].
  cbn [table_rows]. rewrite Hrow. cbn [default].
  change (Datatypes.id it) with it.
  assert (Hn : forall k x,
    ({[ "#lud" := "LastUpdateDate"; "#lub" := "LastUpdatedBy";
        "#lua" := "LastUpdateAction"; "#ItemVersion" := "ItemVersion" ]}
       : gmap string string) !! k = Some x ->
    names_of (ExpressionAttributeNames args) !! k = Some x).
  { intros k x H. rewrite <- H. f_equal; try (vm_compute; reflexivity). }
  assert (Hval : forall k x,
    ({[ ":lud" := PStr now; ":lub" := c; ":lua" := PStr (ACTION_REMOVE_ATTRIBUTE L);
        ":incr" := PInt 1 ]} : gmap string pyval) !! k = Some x ->
    values_of (ExpressionAttributeValues args) !! k = Some x).
  { intros k x H. rewrite <- H. f_equal; try (vm_compute; reflexivity). }
  cbn [apply_actions apply_action resolve action_path].
  repeat (erewrite Hn by reflexivity). repeat (erewrite Hval by reflexivity).
  cbn [mbind option_bind].
  rewrite lookup_delete_ne by done. rewrite !lookup_insert_ne by done.
  rewrite !delete_insert_ne by done.
  unfold next_version in Hv. unfold stamped.
  change (it !! "ItemVersion") with (it !! params.ITEM_VERSION).
  destruct (it !! params.ITEM_VERSION) as [[]|]; simplify_eq; reflexivity.
Qed.

Lemma item_master_delete_eq L E self ident kwargs now w id it m :
  kwargs !! _pk_name self = Some (PStr id) ->
  resource_table w !! id = Some it ->
  is_deleted it = false ->
  it !! params.ITEM_MASTER_ID = Some m ->
  py_eq m PNone = false ->
  py_eq m (default PNone (kwargs !! params.ITEM_MASTER_ID)) = true ->
  metadata_keyed self id w ->
  AwsDataAPI.item_master_delete L E self ident kwargs now w
  = remove_resource_attributes L self id [params.ITEM_MASTER_ID] ident now w.
Proof.
  intros Hk Hrow Hlive Hm Hnn Hassert Hmeta.
  unfold AwsDataAPI.item_master_delete. rewrite Hk. cbn -[get remove_resource_attributes].
  destruct (get_live E self id w it Hrow Hlive Hmeta) as [meta ->].
  cbn -[remove_resource_attributes py_eq]. rewrite Hm.
  cbn -[remove_resource_attributes py_eq]. by rewrite Hnn, Hassert.
Qed.

(** [item_master_delete] for a stored item that is not deleted and whose
    master is the one the request asserts: the operation returns [true],
    the stored item loses the master link, gets the audit fields of the
    removal and the next version, and keeps every other attribute. (The
    storage handler's [delete] refuses to remove the link; this operation
    goes to [remove_resource_attributes] directly.) *)
Theorem item_master_delete_unlinks L E self ident kwargs now w id it m v :
  kwargs !! _pk_name self = Some (PStr id) ->
  resource_table w !! id = Some it ->
  is_deleted it = false ->
  it !! params.ITEM_MASTER_ID = Some m ->
  py_eq m PNone = false ->
  py_eq m (default PNone (kwargs !! params.ITEM_MASTER_ID)) = true ->
  metadata_keyed self id w ->
  next_version it = Some v ->
  _pk_name self ∉ reserved_fields ->
  AwsDataAPI.item_master_delete L E self ident kwargs now w
  = (Ok true,
     set_table_rows ResourceTable
       (<[id := stamped (delete params.ITEM_MASTER_ID it) ident (ACTION_REMOVE_ATTRIBUTE L)
                  now v]> (resource_table w)) w).
Proof.
  intros Hk Hrow Hlive Hm Hnn Hassert Hmeta Hv Hpk.
  rewrite (item_master_delete_eq L E self ident kwargs now w id it m) by done.
  by apply remove_master_write.
Qed.

(** An instance: the link of [B] to [A] in [store_linked] is removed. *)
Lemma item_master_delete_unlinks_witness :
  AwsDataAPI.item_master_delete example_labels example_environment soft_namespace caller
    (unlink_request "B" "A") "t1" store_linked
  = (Ok true,
     set_table_rows ResourceTable
       (<["B" := stamped (delete params.ITEM_MASTER_ID
                            {[ "id" := PStr "B"; "color" := PStr "blue";
                               "ItemMasterID" := PStr "A" ]})
                   caller (ACTION_REMOVE_ATTRIBUTE example_labels) "t1" 1]>
          (resource_table store_linked)) store_linked).
Proof.
  apply (item_master_delete_unlinks example_labels example_environment soft_namespace caller
           (unlink_request "B" "A") "t1" store_linked "B" _ (PStr "A") 1).
  - vm_compute; reflexivity.
  - vm_compute; reflexivity.
  - reflexivity.
  - vm_compute; reflexivity.
  - reflexivity.
  - vm_compute; reflexivity.
  - intros m Hm. vm_compute in Hm. discriminate Hm.
  - vm_compute; reflexivity.
  - by_computation.
Defined.

(** Linking an item to a master and removing the link again, with the same
    request body: both operations succeed, and afterwards the item has no
    master link and every attribute it had before, apart from the audit
    fields and the version; the rows of the other items are as they
    were. *)
Theorem link_then_unlink L E self c kwargs now now' w id master it master_row :
  kwargs !! _pk_name self = Some (PStr id) ->
  str_in "," id = false ->
  kwargs !! params.ITEM_MASTER_ID = Some (PStr master) ->
  resource_table w !! master = Some master_row ->
  is_deleted master_row = false ->
  resource_table w !! id = Some it ->
  is_deleted it = false ->
  it !! params.ITEM_MASTER_ID = None ->
  resource_keyed self w -> versions_valid w -> metadata_keyed self id w ->
  _pk_name self ∉ reserved_fields ->
  exists w1 w2 it2,
    item_master_update L self c kwargs now w
    = (Ok [ {| entry_key := id; Updated := true |} ], w1)
    /\ AwsDataAPI.item_master_delete L E self c kwargs now' w1 = (Ok true, w2)
    /\ resource_table w2 !! id = Some it2
    /\ (forall a, a ∉ [params.LAST_UPDATE_DATE; params.LAST_UPDATED_BY;
                      params.LAST_UPDATE_ACTION; params.ITEM_VERSION] ->
                  it2 !! a = it !! a)
    /\ (forall k, k <> id -> resource_table w2 !! k = resource_table w !! k).
Proof.
  intros Hk Hcomma Hm Hmaster Hmlive Hrow Hlive Hnone Hkeyed Hvalid Hmeta Hpk.
  destruct (link_each_spec L self master c now [id] Hpk 0 w Hkeyed Hvalid)
    as (w1 & Hupd & Hmeta1 & Hnone1 & Hsome1 & Hkeyed1 & Hvalid1).
  assert (Heq := item_master_update_eq L self c kwargs now w id (PStr master) master_row
                   Hk Hm Hmaster Hmlive).
  rewrite Hcomma in Heq. cbn [py_str] in Heq. rewrite <- Heq in Hupd. clear Heq.
  cbn [fmap list_fmap] in Hupd.
  rewrite Hrow, bool_decide_true in Hupd by eauto.
  destruct (Hsome1 id it Hrow) as (it1 & Hrow1 & Hl).
  rewrite bool_decide_true in Hl by apply list_elem_of_here.
  destruct Hl as [Hm1 Hsame1]. cbn [py_str] in Hm1.
  destruct (Hvalid1 id it1 Hrow1) as [v1 Hv1].
  assert (Hlive1 : is_deleted it1 = false).
  { unfold is_deleted in *. rewrite Hsame1; [done|by_computation]. }
  exists w1.
  exists (set_table_rows ResourceTable
            (<[id := stamped (delete params.ITEM_MASTER_ID it1) c
                       (ACTION_REMOVE_ATTRIBUTE L) now' v1]> (resource_table w1)) w1).
  exists (stamped (delete params.ITEM_MASTER_ID it1) c (ACTION_REMOVE_ATTRIBUTE L) now' v1).
  split; [exact Hupd|]. split; [|split; [|split]].
  - rewrite (item_master_delete_eq L E self c kwargs now' w1 id it1 (PStr master));
      try done.
    + by apply remove_master_write.
    + rewrite Hm. cbn. apply String.eqb_refl.
    + intros m0. rewrite Hmeta1. apply Hmeta.
  - cbn [resource_table set_table_rows]. apply lookup_insert_eq.
  - intros a Ha. rewrite stamped_lookup_other by done.
    destruct (decide (a = params.ITEM_MASTER_ID)) as [->|Hne].
    + by rewrite lookup_delete_eq, Hnone.
    + rewrite lookup_delete_ne by done. apply Hsame1.
      rewrite !not_elem_of_cons in Ha. rewrite !not_elem_of_cons. tauto.
  - intros k Hne. cbn. rewrite lookup_insert_ne by done.
    destruct (resource_table w !! k) as [x|] eqn:Hx.
    + destruct (Hsome1 k x Hx) as (x' & -> & Hx').
      rewrite bool_decide_false in Hx'; [by subst|].
      rewrite elem_of_cons. intros [?|[]%not_elem_of_nil]. done.
    + by apply Hnone1.
Qed.

(** An instance: [A] is linked to [B] in [store_colours] and unlinked
    again. *)
Lemma link_then_unlink_witness :
  exists w1 w2 it2,
    item_master_update example_labels soft_namespace caller (unlink_request "A" "B")
      (fun _ => "t1") store_colours
    = (Ok [ {| entry_key := "A"; Updated := true |} ], w1)
    /\ AwsDataAPI.item_master_delete example_labels example_environment soft_namespace
         caller (unlink_request "A" "B") "t2" w1 = (Ok true, w2)
    /\ resource_table w2 !! "A" = Some it2
    /\ (forall a, a ∉ [params.LAST_UPDATE_DATE; params.LAST_UPDATED_BY;
                      params.LAST_UPDATE_ACTION; params.ITEM_VERSION] ->
                  it2 !! a = ({[ "id" := PStr "A"; "color" := PStr "red" ]} : item) !! a)
    /\ (forall k, k <> "A" -> resource_table w2 !! k = resource_table store_colours !! k).
Proof.
  apply (link_then_unlink example_labels example_environment soft_namespace caller
           (unlink_request "A" "B") (fun _ => "t1") "t2" store_colours "A" "B"
           {[ "id" := PStr "A"; "color" := PStr "red" ]}
           {[ "id" := PStr "B"; "color" := PStr "blue" ]}).
  - vm_compute; reflexivity.
  - reflexivity.
  - vm_compute; reflexivity.
  - vm_compute; reflexivity.
  - reflexivity.
  - vm_compute; reflexivity.
  - reflexivity.
  - vm_compute; reflexivity.
  - apply (bool_decide_unpack
             (map_Forall (fun k it => it !! "id" = Some (PStr k))
                         (resource_table store_colours))).
    vm_compute. exact I.
  - apply (bool_decide_unpack
             (map_Forall (fun k it => is_Some (next_version it))
                         (resource_table store_colours))).
    vm_compute. exact I.
  - intros m Hm. vm_compute in Hm. discriminate Hm.
  - by_computation.
Defined.

(** ** [delete]: what each form of the request touches *)

Lemma simple_update_frame self id tbl ue c action now w r w' :
  _simple_update self id tbl ue c action now w = (r, w') ->
  match tbl with
  | ResourceTable => metadata_table w' = metadata_table w
  | MetadataTable => resource_table w' = resource_table w
  end
  /\ (r <> Ok true -> w' = w).
Proof.
  unfold _simple_update.
  destruct (table_update_item _ _ _ _) as [r0 w0] eqn:Hu.
  pose proof (table_update_item_other _ _ _ _ _ _ Hu) as Hother.
  destruct r0 as [a|e].
  - intros [= <- <-]. by split.
  - apply table_update_item_raise in Hu as ->.
    destruct e; intros [= <- <-]; by split.
Qed.

(** A delete that names Resource attributes leaves the Metadata table
    alone, and a delete that only carries a Metadata list leaves the Resource
    table alone. A delete that raises or returns [false] has not changed the
    Resource table. In a namespace that is not configured for tombstone, a
    delete without a Metadata list does not touch the Metadata table,
    whatever delete mode the request asks for. *)
Theorem delete_item_frame L self id c kwargs now w r w' :
  delete_item L self id c kwargs now w = (r, w') ->
  (forall attributes, del_Resource kwargs = Some attributes -> attributes <> [] ->
     metadata_table w' = metadata_table w)
  /\ (del_Resource kwargs = None -> is_Some (del_Metadata kwargs) ->
      resource_table w' = resource_table w)
  /\ (r <> Ok true -> resource_table w' = resource_table w)
  /\ (String.eqb (_delete_mode self) params.DELETE_MODE_TOMBSTONE = false ->
      del_Metadata kwargs = None -> metadata_table w' = metadata_table w).
Proof.
  assert (Hres : forall w1 r1 w2,
            delete_resource L self id c kwargs now w1 = (r1, w2) ->
            metadata_table w2 = metadata_table w1
            /\ (r1 <> Ok true -> w2 = w1)).
  { intros w1 r1 w2. unfold delete_resource.
    match goal with |- context [match ?x with Ok _ => _ | Raise _ => _ end] =>
      destruct x as [[tokens upd]|e] end.
    - intros H. by apply simple_update_frame in H.
    - intros [= <- <-]. by split. }
  unfold delete_item.
  destruct (del_Resource kwargs) as [attributes|] eqn:HR.
  - destruct attributes as [|a attributes].
    + cbn [length Nat.ltb Nat.leb].
      destruct (String.eqb (_delete_mode self) params.DELETE_MODE_TOMBSTONE) eqn:Hmode;
        cbn [delete_metadata]; intros H; apply Hres in H as [Hm Hw];
        (split; [by intros ? [= <-]|]); (split; [done|]); split.
      * intros Hr. by rewrite (Hw Hr).
      * done.
      * intros Hr. by rewrite (Hw Hr).
      * intros _ _. exact Hm.
    + cbn [length Nat.ltb Nat.leb].
      destruct (bool_decide _).
      * intros [= <- <-]. by repeat split.
      * intros H. unfold remove_resource_attributes in H.
        apply simple_update_frame in H as [Hm Hw].
        split; [by intros|]. split; [done|]. split; [|by intros].
        intros Hr. by rewrite (Hw Hr).
  - destruct (del_Metadata kwargs) as [attributes|] eqn:HM.
    + destruct attributes as [|a attributes]; cbn [length Nat.ltb Nat.leb].
      * cbn [delete_metadata]. intros [= <- <-]. by repeat split.
      * intros H. unfold remove_metadata_attributes in H.
        apply simple_update_frame in H as [Hm Hw]. by repeat split.
    + destruct (String.eqb (_delete_mode self) params.DELETE_MODE_TOMBSTONE) eqn:Hmode;
        cbn [delete_metadata]; intros H; apply Hres in H as [Hm Hw];
        (split; [by intros|]); (split; [by intros _ [? ?]|]); split.
      * intros Hr. by rewrite (Hw Hr).
      * done.
      * intros Hr. by rewrite (Hw Hr).
      * intros _ _. exact Hm.
Qed.

(** An instance: the delete of the deleted item [A] under tombstone mode
    raises, and the Resource table is as it was. *)
Lemma delete_item_frame_witness :
  let r := delete_item example_labels tombstone_namespace "A" caller whole_item "t2"
             store_A_deleted in
  fst r = Raise ResourceNotFoundException
  /\ resource_table (snd r) = resource_table store_A_deleted.
Proof.
  intros r. split; [vm_compute; reflexivity|].
  apply (proj1 (proj2 (proj2 (delete_item_frame example_labels tombstone_namespace "A" caller
                                whole_item "t2" store_A_deleted (fst r) (snd r)
                                (surjective_pairing r))))).
  vm_compute. discriminate.
Defined.



(** ** [find]: which requests use an index *)

Lemma first_indexed_none index_attrs (doc : search_doc) :
  (forall k v, (k, v) ∈ doc -> (k ∉ index_attrs) /\ k <> params.ITEM_MASTER_ID) ->
  first_indexed index_attrs doc = None.
Proof.
  induction doc as [|[k v] doc IH]; intros H; [done|].
  cbn [first_indexed].
  destruct (H k v (list_elem_of_here _ _)) as [Hk Hm].
  rewrite bool_decide_false by done.
  rewrite (proj2 (String.eqb_neq _ _) Hm). cbn [orb].
  rewrite IH; [done|]. intros k' v' Hin. apply (H k' v'). by apply elem_of_cons; right.
Qed.

(** [find] compares the fields of the search document with the entries of
    the index configuration as they are written. An index that is configured
    with a type ([attribute=type]) is created on the attribute, but no field
    name equals its entry: when all indexes of the Resource table are
    configured with a type, every search on Resource fields (other than the
    master link) is answered by a scan of the table. *)
Theorem find_ignores_typed_indexes E self doc read w :
  (forall a, a ∈ _table_indexes self -> str_in "=" a = true) ->
  (forall k v, (k, v) ∈ doc -> str_in "=" k = false /\ k <> params.ITEM_MASTER_ID) ->
  find E self {| find_Resource := Some doc; find_Metadata := None; find_read := read |} w
  = _perform_scan E self ResourceTable (kw_ExclusiveStartKey read) (Some doc) false read w.
Proof.
  intros Hty Hdoc. unfold find. cbn [find_Resource find_Metadata find_read].
  rewrite first_indexed_none; [done|].
  intros k v Hin. destruct (Hdoc k v Hin) as [Heq Hm]. split; [|done].
  intros Hk. apply Hty in Hk. congruence.
Qed.

(** An instance: the index on [color] is configured as [color=string]; the
    table has the index, and the search for the red items scans. *)
Lemma find_ignores_typed_indexes_witness :
  ("Things-color", "color") ∈ table_gsi typed_index_namespace ResourceTable
  /\ find example_environment typed_index_namespace (find_resource [("color", PStr "red")])
       store_colours
     = _perform_scan example_environment typed_index_namespace ResourceTable None
         (Some [("color", PStr "red")]) false plain_read store_colours.
Proof.
  split; [by_computation|].
  apply (find_ignores_typed_indexes example_environment typed_index_namespace
           [("color", PStr "red")] plain_read store_colours).
  - intros a Ha. apply list_elem_of_singleton in Ha as ->. reflexivity.
  - intros k v Hin. apply list_elem_of_singleton in Hin as [= -> ->].
    split; [reflexivity|discriminate].
Defined.

(** ** Filters: placeholders that collide *)

(** [_get_filter_expression] names the placeholders of a criterion after
    the field, with every character that is not a word character removed.
    Two different fields, written in ASCII, that differ only in such
    characters get the same placeholders, and the later one takes them over:
    the filter tests the second criterion twice and the first one not at
    all. *)
Theorem filter_placeholders_collide k1 v1 k2 v2 :
  ascii_text k1 = true -> ascii_text k2 = true ->
  k1 <> k2 ->
  make_ddb_expressionval k1 = make_ddb_expressionval k2 ->
  _get_filter_expression (Some [(k1, v1); (k2, v2)])
  = let p := make_ddb_expressionval k2 in
    Some (("#" +:+ p +:+ " = " +:+ ":" +:+ p) +:+ " AND "
            +:+ ("#" +:+ p +:+ " = " +:+ ":" +:+ p),
          {[ "#" +:+ p := k2 ]}, {[ ":" +:+ p := v2 ]}).
Proof.
  intros _ _ _ Heq. unfold _get_filter_expression. cbn [fmap list_fmap fold_left fst snd].
  rewrite Heq. cbv zeta. rewrite !insert_insert_eq, !insert_empty.
  reflexivity.
Qed.

(** An instance: the fields [a-b] and [ab]. *)
Lemma filter_placeholders_collide_witness :
  _get_filter_expression (Some [("a-b", PInt 1); ("ab", PInt 2)])
  = Some ("#ab = :ab AND #ab = :ab", {[ "#ab" := "ab" ]}, {[ ":ab" := PInt 2 ]}).
Proof.
  apply (filter_placeholders_collide "a-b" (PInt 1) "ab" (PInt 2));
    [reflexivity|reflexivity|discriminate|reflexivity].
Defined.

(** ** An attribute named like a placeholder of the audit decoration *)

Lemma do_update_incr L self id c now w it ver v :
  resource_table w !! id = Some it ->
  next_version it = Some ver ->
  _pk_name self ∉ reserved_fields ->
  _pk_name self <> "incr" ->
  _strict_occv self = false ->
  _allow_non_itemmaster_writes self = true ->
  _do_update L self ResourceTable id (Some {[ "incr" := v ]}) c now None true None w
  = (Ok (stamped (delete params.DELETED (<["incr" := PInt 1]> it)) c (ACTION_UPDATE L) now ver),
     set_table_rows ResourceTable
       (<[id := stamped (delete params.DELETED (<["incr" := PInt 1]> it)) c (ACTION_UPDATE L)
                  now ver]> (resource_table w)) w).
Proof.
  intros Hrow Hver Hpk Hincr Hocc Hallow.
  assert (Hpk' := Hpk). unfold reserved_fields in Hpk'. rewrite !not_elem_of_cons in Hpk'.
  destruct Hpk' as (? & ? & ? & ? & ? & ? & ? & _).
  unfold _do_update.
  assert (Hs : _sanitise_item_lastupdate_info self (Some {[ "incr" := v ]})
               = Some {[ "incr" := v ]}).
  { unfold _sanitise_item_lastupdate_info. cbn [fmap option_fmap option_map]. f_equal.
    rewrite !delete_singleton_ne by done. reflexivity. }
  rewrite Hs. unfold _render_obj_as_update. rewrite map_to_list_singleton.
  cbn [fold_left render_step]. rewrite Hocc, Hallow. cbn [andb orb negb].
  rewrite (bool_decide_false (is_Some None)) by (by intros [? ?]). cbn [andb orb negb].
  set (args := decorate_update_request _ _ _ _ _).
  assert (Hwrite : table_update_item self ResourceTable args w
            = (Ok (stamped (delete params.DELETED (<["incr" := PInt 1]> it)) c
                     (ACTION_UPDATE L) now ver),
               set_table_rows ResourceTable
                 (<[id := stamped (delete params.DELETED (<["incr" := PInt 1]> it)) c
                            (ACTION_UPDATE L) now ver]> (resource_table w)) w)).
  { unfold table_update_item, ddb_update_item.
    change (Key args) with (_pk_name self, PStr id).
    replace (parse_update (UpdateExpression args))
      with (Some [ASet (Placeholder "#incr") ":incr"; ASet (Placeholder "#lud") ":lud";
                  ASet (Placeholder "#lub") ":lub"; ASet (Placeholder "#lua") ":lua";
                  ARemove (Placeholder "#del");
                  AAdd (Placeholder "#ItemVersion") ":incr"])
      by (vm_compute; reflexivity).
    change (write_condition args) with (Some (fun _ : item => true)).
    replace (update_targets (names_of (ExpressionAttributeNames args)) _)
      with (Some ["incr"; "LastUpdateDate"; "LastUpdatedBy"; "LastUpdateAction"; "Deleted";
                  "ItemVersion"]) by (vm_compute; reflexivity).
    match goal with |- context [bool_decide (?k = ?p) && forallb ?f ?a && ?n && ?q] =>
      change (bool_decide (k = p) && forallb f a && n && q)
        with (checked_update (_pk_name self) (_pk_name self)
                (values_of (ExpressionAttributeValues args))
                [ASet (Placeholder "#incr") ":incr"; ASet (Placeholder "#lud") ":lud";
                 ASet (Placeholder "#lub") ":lub"; ASet (Placeholder "#lua") ":lua";
                 ARemove (Placeholder "#del");
                 AAdd (Placeholder "#ItemVersion") ":incr"]
                ["incr"; "LastUpdateDate"; "LastUpdatedBy"; "LastUpdateAction"; "Deleted";
                 "ItemVersion"]) end.
    rewrite checked_update_intro;
      [|vm_compute; reflexivity|by_computation
       |rewrite !not_elem_of_cons; repeat split; try done; apply not_elem_of_nil].
    cbn [table_rows]. rewrite Hrow. cbn [default].
    change (Datatypes.id it) with it.
    assert (Hn : forall k x,
      ({[ "#incr" := "incr"; "#del" := "Deleted"; "#lud" := "LastUpdateDate";
          "#lub" := "LastUpdatedBy"; "#lua" := "LastUpdateAction";
          "#ItemVersion" := "ItemVersion" ]} : gmap string string) !! k = Some x ->
      names_of (ExpressionAttributeNames args) !! k = Some x).
    { intros k x H'. rewrite <- H'. f_equal; try (vm_compute; reflexivity). }
    assert (Hval : forall k x,
      ({[ ":lud" := PStr now; ":lub" := c; ":lua" := PStr (ACTION_UPDATE L);
          ":incr" := PInt 1 ]} : gmap string pyval) !! k = Some x ->
      values_of (ExpressionAttributeValues args) !! k = Some x).
    { intros k x H'. rewrite <- H'. f_equal; try (vm_compute; reflexivity). }
    cbn [apply_actions apply_action resolve action_path].
    repeat (erewrite Hn by reflexivity). repeat (erewrite Hval by reflexivity).
    cbn [mbind option_bind].
    rewrite lookup_delete_ne by done. rewrite !lookup_insert_ne by done.
    rewrite !delete_insert_ne by done.
    unfold next_version in Hver. unfold stamped.
    change (it !! "ItemVersion") with (it !! params.ITEM_VERSION).
    destruct (it !! params.ITEM_VERSION) as [[]|]; simplify_eq; reflexivity. }
  by rewrite Hwrite.
Qed.

(** [decorate_update_request] binds the value placeholder [:incr] to 1
    after [_do_update] has bound the value placeholders of the document, one
    per attribute and named after it. An update of an attribute named [incr]
    therefore stores 1, whatever value the request gives: the update
    succeeds, and the stored item has [incr = 1] (and the audit fields, the
    next version, and no [Deleted] marker). Stated for a namespace without
    strict OCCV, with non-item-master writes allowed and with no schema. *)
Theorem attribute_incr_is_stored_as_one L self c id v now_meta now w it ver :
  resource_table w !! id = Some it ->
  next_version it = Some ver ->
  _pk_name self ∉ reserved_fields ->
  _pk_name self <> "incr" ->
  _strict_occv self = false ->
  _allow_non_itemmaster_writes self = true ->
  control_resource_schema w = None ->
  _schema_loaded w = false ->
  let stored := stamped (delete params.DELETED (<["incr" := PInt 1]> it)) c
                  (ACTION_UPDATE L) now ver in
  exists w',
    update_item L self c id (update_of None (Some {[ "incr" := v ]}) None None)
      now_meta now w
    = (Ok (master_warnings id stored), w')
    /\ resource_table w' !! id = Some stored
    /\ stored !! "incr" = Some (PInt 1).
Proof.
  intros Hrow Hver Hpk Hincr Hocc Hallow Hschema Hloaded stored.
  assert (Hpk' := Hpk). unfold reserved_fields in Hpk'. rewrite !not_elem_of_cons in Hpk'.
  destruct Hpk' as (? & ? & ? & ? & ? & ? & ? & _).
  unfold update_item, update_of. cbn [upd_Metadata upd_Resource upd_References].
  rewrite (bool_decide_true (is_Some (Some _))) by eauto. cbn [negb orb].
  unfold update_resource_part.
  cbn [upd_StrictSchemaValidation upd_ItemVersion upd_Constraints].
  rewrite lookup_singleton_ne by done. cbv beta iota zeta.
  rewrite bool_decide_false.
  2: { rewrite ?lookup_insert_ne, ?lookup_singleton_ne by done. by intros [? ?]. }
  unfold schema_reload_due. rewrite Hloaded. cbn [negb orb].
  unfold _refresh_schema. rewrite Hschema. cbn [_schema negb].
  rewrite delete_insert_eq. rewrite delete_singleton_ne by done.
  set (w2 := mkWorld _ _ _ _ _ _ (S _)).
  rewrite (do_update_incr L self id c now w2 it ver v) by done.
  exists (set_table_rows ResourceTable (<[id := stored]> (resource_table w2)) w2).
  split; [|split].
  - rewrite (bool_decide_false (is_Some (<[_pk_name self := PStr id]> {[ "incr" := v ]}
                                          !! params.ITEM_MASTER_ID))).
    2: { rewrite lookup_insert_ne, lookup_singleton_ne by done. by intros [? ?]. }
    unfold master_warnings. fold stored. by repeat case_match.
  - apply lookup_insert_eq.
  - subst stored. rewrite stamped_lookup_other by by_computation.
    rewrite lookup_delete_ne by done. apply lookup_insert_eq.
Qed.

(** An instance: the request sets [incr] to 42 on the red item [A]. *)
Lemma attribute_incr_is_stored_as_one_witness :
  exists w',
    update_item example_labels soft_namespace caller "A"
      (update_of None (Some {[ "incr" := PInt 42 ]}) None None) "t0" "t1" store_A_red
    = (Ok [], w')
    /\ (resource_table w' !! "A") ≫= (fun stored => stored !! "incr") = Some (PInt 1).
Proof.
  destruct (attribute_incr_is_stored_as_one example_labels soft_namespace caller "A"
              (PInt 42) "t0" "t1" store_A_red
              {[ "id" := PStr "A"; "color" := PStr "red" ]} 1)
    as (w' & Hupd & Hrow & Hincr).
  - vm_compute; reflexivity.
  - vm_compute; reflexivity.
  - by_computation.
  - discriminate.
  - reflexivity.
  - reflexivity.
  - reflexivity.
  - reflexivity.
  - exists w'. split; [exact Hupd|]. rewrite Hrow. exact Hincr.
Defined.
